(** * NVDA [logHandler]: a shallow embedding and its verified properties

    The development follows [source/logHandler.py]:
    - the severity levels of [Logger] and the threshold test of the logging
      framework;
    - [isPathExternalToNVDA] and [getCodePath], over an explicit model of
      Python frames, code objects and classes;
    - the exception classifier of [Logger.exception];
    - [Logger._log], [FileHandler.handle] and the record filter, as functions
      on a process state that carries the trace of what a run leaves behind;
    - [markFragmentStart] / [getFragment], [_shouldDisableLogging],
      [isLogLevelForced] / [setLogLevelFromConfig] and the thread exception
      hook;
    - the redirected output streams, the hooks for unhandled and unraisable
      exceptions and for warnings, the time of a record, and [initialize]
      over a model of the log files on disk.

    What the module takes from elsewhere - [os.path], [RPCConstants], the
    build flags, the rendering of records - is a parameter of the model, and
    the functions of Python's [logging] that the module builds on are modelled
    with the behaviour they have for the singleton logger [log].

    Python's exceptions are kept: a function that can raise returns a
    [result], and a stateful one returns the state it leaves behind as well. *)

From Stdlib Require Import ZArith Lia Ascii DecimalString.
From stdpp Require Import base option list strings gmap.

Local Open Scope Z_scope.

(** ** Severity levels

    [DEBUG] ... [CRITICAL] are the constants of Python's [logging] module that
    [Logger] imports (line 208); [IO], [DEBUGWARNING] and [OFF] are the custom
    levels of lines 211-213. *)

Definition DEBUG : Z := 10.
Definition INFO : Z := 20.
Definition WARNING : Z := 30.
Definition WARN : Z := WARNING.
Definition ERROR : Z := 40.
Definition CRITICAL : Z := 50.
Definition IO : Z := 12.
Definition DEBUGWARNING : Z := 15.
Definition OFF : Z := 100.

(** [logging.Logger.isEnabledFor] for the singleton [log]: the logger "nvda"
    has no level of its own, so its effective level is the root's;
    [logging.disable] is left at its default 0, which still refuses every
    level that is not positive. *)
Definition isEnabledFor (rootLevel level : Z) : bool :=
  bool_decide (0 < level) && bool_decide (rootLevel ≤ level).

(** The name registry of [logging] once [initialize] has run (lines 567-569
    add the three custom names to the standard ones). *)
Definition nameToLevel : list (string * Z) :=
  [("CRITICAL", CRITICAL); ("FATAL", CRITICAL); ("ERROR", ERROR);
   ("WARN", WARNING); ("WARNING", WARNING); ("INFO", INFO);
   ("DEBUG", DEBUG); ("NOTSET", 0);
   ("DEBUGWARNING", DEBUGWARNING); ("IO", IO); ("OFF", OFF)].

Definition levelToName : list (Z * string) :=
  [(CRITICAL, "CRITICAL"); (ERROR, "ERROR"); (WARNING, "WARNING");
   (INFO, "INFO"); (DEBUG, "DEBUG"); (0, "NOTSET");
   (DEBUGWARNING, "DEBUGWARNING"); (IO, "IO"); (OFF, "OFF")].

Fixpoint assoc {K V : Type} `{EqDecision K} (k : K) (l : list (K * V)) : option V :=
  match l with
  | [] => None
  | (k', v) :: l' => if decide (k = k') then Some v else assoc k l'
  end.

(** What [logging.getLevelName] returns: a number for a registered name, a
    text otherwise. *)
Inductive levelValue :=
  | LevelNo (n : Z)
  | LevelText (s : string).

(** [logging.getLevelName(levelName)] for a text argument: no key of the
    level-to-name table is a text, so the name table decides, and an unknown
    name comes back as "Level <name>". *)
Definition getLevelName_ofName (levelName : string) : levelValue :=
  match assoc levelName nameToLevel with
  | Some n => LevelNo n
  | None => LevelText ("Level " +:+ levelName)
  end.

(** [logging.getLevelName(level)] for a number. *)
Definition getLevelName_ofLevel (level : Z) : string :=
  match assoc level levelToName with
  | Some s => s
  | None => "Level " +:+ NilZero.string_of_int (Z.to_int level)
  end.

(** ** Exceptions raised by the modelled code *)

(** The built-in exceptions that the modelled code meets, and any other
    exception by the name of its class. *)
Inductive pyerr :=
  | KeyError
  | IndexError
  | TypeError
  | ValueError
  | FileNotFoundError
  | UnicodeDecodeError
  | OtherError (name : string).

Inductive result (A : Type) :=
  | Ok (a : A)
  | Raise (e : pyerr).
Arguments Ok {A} a.
Arguments Raise {A} e.

Definition rbind {A B : Type} (m : result A) (k : A → result B) : result B :=
  match m with
  | Ok a => k a
  | Raise e => Raise e
  end.

Notation "x <- m ;; k" := (rbind m (fun x => k))
  (at level 100, m at next level, right associativity, only parsing).

(** ** Python objects met by the frame inspector *)

(** A code object. [co_id] stands for the object's identity: the source
    compares code objects with [is]. *)
Record code := {
  co_id : nat;
  co_filename : string;
  co_name : string;
  co_argcount : nat;
  co_varnames : list string;
  co_flags : Z
}.

Definition CO_NEWLOCALS : Z := 2.

(** Line 115: the frame is a function's, so [getCodePath] clears the copy of
    its locals that reading [f_locals] left on it. *)
Definition clearsLocals (c : code) : bool :=
  bool_decide (Z.land (co_flags c) CO_NEWLOCALS ≠ 0).

(** [a is b] on code objects. *)
Definition code_is (a b : code) : bool := bool_decide (co_id a = co_id b).

(** A value found in a class [__dict__], as far as [getCodePath] looks at it.
    [None] in a field says that the attribute is not a plain function
    ([type(x) is FunctionType] fails). Any other object is known by its truth
    test: it is false ([MFalsy]), true ([MOther]), or its [__bool__] or
    [__len__] raises ([MRaising]). *)
Inductive member :=
  | MFunction (c : code)
  | MClassMethod (func : option code)
  | MProperty (fget fset : option code)
  | MFalsy
  | MOther
  | MRaising (e : pyerr).

(** [not member] (line 131) runs the truth test of the object. Functions,
    class methods and properties have neither [__bool__] nor [__len__] and
    are true; the test of another object answers, or raises. *)
Definition member_truthy (m : member) : result bool :=
  match m with
  | MFalsy => Ok false
  | MRaising e => Raise e
  | _ => Ok true
  end.

Record pyclass := {
  cls_name : string;
  cls_dict : gmap string member
}.

(** A type object: its [__mro__] (the class itself first), the [__mro__] of
    its metatype, and what [hasattr(type, name)] answers. Attribute lookup on
    a type runs the descriptors it finds and the hooks of the metatype, so
    the answer is the type's own: it can be [False] for a name that a class
    dictionary binds, and an error other than [AttributeError] that the
    lookup raises comes out of [hasattr]. *)
Record pytype := {
  ty_mro : list pyclass;
  ty_meta_mro : list pyclass;
  ty_hasattr : string → result bool
}.

(** The first argument of a call: a type, or an instance of one. *)
Inductive pyvalue :=
  | VType (t : pytype)
  | VInstance (t : pytype).

(** A frame: its code, the [__name__] of its globals when they bind one (a
    text, as the globals of a module do), and its locals. *)
Record frame := {
  f_code : code;
  f_globals_name : option string;
  f_locals : gmap string pyvalue
}.

(** [hasattr(topCls, name)] (line 128). *)
Definition hasattr (topCls : pytype) (name : string) : result bool :=
  ty_hasattr topCls name.

(** The default attribute lookup of types, for classes whose attributes are
    plain values, functions, class methods and properties: the name is found
    when the dictionary of a class of the metatype's or of the type's own
    MRO binds it, and finding it raises nothing. *)
Definition defaultLookup (mro meta_mro : list pyclass) (name : string) : bool :=
  existsb (fun cls => bool_decide (is_Some (cls_dict cls !! name)))
          (meta_mro ++ mro).

(** A type that answers [hasattr] by the default lookup. *)
Definition plainType (mro meta_mro : list pyclass) : pytype :=
  {| ty_mro := mro; ty_meta_mro := meta_mro;
     ty_hasattr := fun name => Ok (defaultLookup mro meta_mro name) |}.

(** The tests of lines 134-150: is [member] a standard method, a class method
    or a property accessor whose code is the frame's? *)
Definition opt_code_is (o : option code) (c : code) : bool :=
  match o with
  | Some c' => code_is c' c
  | None => false
  end.

Definition memberMatches (m : member) (c : code) : bool :=
  match m with
  | MFunction c' => code_is c' c
  | MClassMethod func => opt_code_is func c
  | MProperty fget fset => opt_code_is fget c || opt_code_is fset c
  | MFalsy | MOther | MRaising _ => false
  end.

(** The loop of lines 129-152 over [topCls.__mro__]; the result is the value
    of [className] when the loop ends, or the error of a truth test. *)
Fixpoint searchMro (mro : list pyclass) (funcName : string) (c : code) : result string :=
  match mro with
  | [] => Ok ""
  | cls :: rest =>
      match cls_dict cls !! funcName with
      | None => searchMro rest funcName c
      | Some m =>
          truthy <- member_truthy m ;;
          if negb truthy then searchMro rest funcName c
          else
            let className := if memberMatches m c then cls_name cls else "" in
            if bool_decide (className ≠ "") then Ok className
            else searchMro rest funcName c
      end
  end.

(** ** The environment of the module

    Values that the module reads from its surroundings and never writes:
    functions of [os.path], the constants of [RPCConstants.RPC], the build
    flags, and the rendering of records and stacks by the emission framework. *)

(** Modelled from the spec: the module [RPCConstants] is not among the sources;
    the classifier names these five members of its enumeration [RPC]. *)
Record RPCConstants := {
  S_SERVER_UNAVAILABLE : Z;
  S_CALL_FAILED_DNE : Z;
  E_CALL_REJECTED : Z;
  E_CALL_CANCELED : Z;
  E_DISCONNECTED : Z
}.

Record PathEnv := {
  os_path_isabs : string → bool;
  os_path_normpath : string → string;
  _NVDA_CODE_PATH : string;
  WritePaths_configDir : option string
}.

Section CodePath.
Context (penv : PathEnv).

(** [isPathExternalToNVDA] (lines 70-88). [path[0]] raises on the empty
    text, before anything else is looked at. *)
Definition isPathExternalToNVDA (path : string) : result bool :=
  match path with
  | EmptyString => Raise IndexError
  | String c0 _ =>
      Ok ((bool_decide (c0 ≠ "<"%char)
           && os_path_isabs penv path
           && negb (String.prefix (_NVDA_CODE_PATH penv +:+ "\")
                                  (os_path_normpath penv path)))
          || match WritePaths_configDir penv with
             | Some d => String.prefix d path
             | None => false
             end)
  end.

(** Lines 98-106: the module segment, with its "external:" mark. *)
Definition modulePath (f : frame) : result string :=
  let fn := co_filename (f_code f) in
  ext <- isPathExternalToNVDA fn ;;
  Ok ((if ext : bool then "external:" else "")
      +:+ match f_globals_name f with
          | Some n => n
          | None => fn
          end).

(** Lines 107-109. *)
Definition functionSegment (f : frame) : string :=
  let funcName := co_name (f_code f) in
  if String.prefix "<" funcName then "" else funcName.

(** Line 126. *)
Definition topClsOf (arg0 : pyvalue) : pytype :=
  match arg0 with
  | VType t => t
  | VInstance t => t
  end.

(** Lines 110-152: the class segment. A code object with parameters always
    names them in [co_varnames]; the local may have been unbound since. The
    first argument is a type or an instance of one, as [isinstance(arg0,
    type)] tells them apart. *)
Definition classSegment (f : frame) (funcName : string) : result string :=
  if bool_decide (co_argcount (f_code f) = 0%nat) then Ok ""
  else
    match co_varnames (f_code f) !! 0%nat with
    | None => Raise IndexError
    | Some v =>
        match f_locals f !! v with
        | None => Raise KeyError
        | Some arg0 =>
            let topCls := topClsOf arg0 in
            found <- hasattr topCls funcName ;;
            if found : bool
            then searchMro (ty_mro topCls) funcName (f_code f)
            else Ok ""
        end
    end.

(** Line 153: [".".join(x for x in (path, className, funcName) if x)]. *)
Definition dotted (segments : list string) : string :=
  String.concat "." (List.filter (fun x => bool_decide (x ≠ "")) segments).

(** [getCodePath] (lines 91-153). Clearing the cached [f_locals] (line 120)
    changes no value that the function reads afterwards. *)
Definition getCodePath (f : frame) : result string :=
  path <- modulePath f ;;
  let funcName := functionSegment f in
  className <- classSegment f funcName ;;
  Ok (dotted [path; className; funcName]).

End CodePath.

(** ** Exceptions seen by the classifier *)

(** Exception classes: the built-in ones the module tests for, [COMError] of
    comtypes, [CallCancelled] of the application, and classes defined
    elsewhere by deriving from a base. [WindowsError] is Python's [OSError]. *)
Inductive excType :=
  | BaseException
  | Exception
  | SystemExit
  | WindowsError
  | COMError
  | CallCancelled
  | UserException (name : string) (base : excType).

#[global] Instance excType_eq_dec : EqDecision excType.
Proof. solve_decision. Defined.

Fixpoint exc_mro (t : excType) : list excType :=
  t :: match t with
       | BaseException => []
       | Exception | SystemExit => [BaseException]
       | WindowsError | COMError | CallCancelled => [Exception; BaseException]
       | UserException _ base => exc_mro base
       end.

Definition issubclass (t c : excType) : bool := bool_decide (c ∈ exc_mro t).

(** An exception instance. [winerror] is read only from an instance of
    [WindowsError] (it is [None] when the error carries no Windows code) and
    [hresult] only from an instance of [COMError]. *)
Record pyexc := {
  exc_class : excType;
  winerror : option Z;
  hresult : Z
}.

Definition isinstance (e : pyexc) (c : excType) : bool :=
  issubclass (exc_class e) c.

(** Lines 38-43. *)
Definition ERROR_INVALID_WINDOW_HANDLE : Z := 1400.
Definition ERROR_TIMEOUT : Z := 1460.
Definition EPT_S_NOT_REGISTERED : Z := 1753.
Definition E_ACCESSDENIED : Z := -2147024891.
Definition CO_E_OBJNOTCONNECTED : Z := -2147220995.
Definition EVENT_E_ALL_SUBSCRIBERS_FAILED : Z := -2147220991.

Section Classifier.
Context (rpc : RPCConstants).

(** The tuple of lines 300-307. *)
Definition expectedWinErrors : list Z :=
  [ERROR_INVALID_WINDOW_HANDLE; ERROR_TIMEOUT; S_SERVER_UNAVAILABLE rpc;
   S_CALL_FAILED_DNE rpc; EPT_S_NOT_REGISTERED; E_CALL_CANCELED rpc].

(** The tuple of lines 313-320. *)
Definition expectedHResults : list Z :=
  [E_ACCESSDENIED; CO_E_OBJNOTCONNECTED; EVENT_E_ALL_SUBSCRIBERS_FAILED;
   E_CALL_REJECTED rpc; E_CALL_CANCELED rpc; E_DISCONNECTED rpc].

(** The condition of lines 296-325 on [exc]. *)
Definition isExpected (exc : option pyexc) : bool :=
  match exc with
  | None => false
  | Some e =>
      (isinstance e WindowsError
       && match winerror e with
          | Some w => bool_decide (w ∈ expectedWinErrors)
          | None => false
          end)
      || (isinstance e COMError
          && (bool_decide (hresult e ∈ expectedHResults)
              || bool_decide (Z.land (hresult e) 65535 = S_SERVER_UNAVAILABLE rpc)))
      || isinstance e CallCancelled
  end.

(** Lines 326-328. *)
Definition exceptionLevel (exc : option pyexc) : Z :=
  if isExpected exc then DEBUGWARNING else ERROR.

End Classifier.

(** ** Records, sinks and the process state *)

(** The [exc_info] argument of a log call: [True], a triple (the traceback is
    only passed on and is left out), or an exception instance. *)
Inductive ExcInfoArg :=
  | ExcInfoTrue
  | ExcInfoTuple (ty : option excType) (value : option pyexc)
  | ExcInfoInstance (e : pyexc).

Record LogRecord := {
  rec_name : string;
  levelno : Z;
  rec_msg : string;
  rec_codepath : option string;
  rec_exc_info : option (option excType * option pyexc)
}.

(** The [stack_info] argument of [Logger._log]: false, [True], or a stack
    summary that is not empty, given by its formatted text. *)
Inductive StackInfo :=
  | NoStack
  | StackTrue
  | StackGiven (formatted : string).

(** Keyword arguments a log call hands on to [Logger._log]. *)
Record LogKwargs := {
  kw_codepath : option string;
  kw_activateLogViewer : bool;
  kw_stack_info : StackInfo
}.

Definition noKwargs : LogKwargs :=
  {| kw_codepath := None; kw_activateLogViewer := false; kw_stack_info := NoStack |}.

(** What a run leaves behind, in the order it happens: the records the
    logger makes and hands to its handlers, and the effects on the
    collaborators of the module. *)
Inductive event :=
  | EvRecord (record : LogRecord)
  | EvViewerActivate
  | EvViewerSetInsertionPointEnd
  | EvViewerRefresh
  | EvMessageBeep
  | EvErrorSoundNotify
  | EvWrite (baseFilename : string) (record : LogRecord)
  | EvRemote (record : LogRecord).

Definition isViewerEvent (e : event) : bool :=
  match e with
  | EvViewerActivate | EvViewerSetInsertionPointEnd | EvViewerRefresh => true
  | _ => false
  end.

(** The singleton [logHandler]. *)
Inductive Handler :=
  | NullHandler
  | FileHandler (baseFilename : string)
  | RemoteHandler.

(** [globalVars.appArgs], as far as the module reads it. *)
Record AppArgs := {
  secure : bool;
  debugLogging : bool;
  logLevel : Z;
  noLogging : bool;
  logFileName : option string
}.

(** [config.conf], as far as the module reads it. *)
Record Config := {
  general_loggingLevel : string;
  featureFlag_playErrorSound : Z;
  debugLog_externalPythonDependencies : bool
}.

Record State := {
  appArgs : AppArgs;
  conf : option Config;
  rootLevel : Z;
  logHandler : option Handler;
  fragmentStart : option nat;
  files : gmap string (list Byte.byte);
  onErrorSoundRequested : bool;
  sys_exc_info : option excType * option pyexc;
  trace : list event
}.

Definition set_conf (c : option Config) (st : State) : State :=
  {| appArgs := appArgs st; conf := c; rootLevel := rootLevel st;
     logHandler := logHandler st; fragmentStart := fragmentStart st;
     files := files st; onErrorSoundRequested := onErrorSoundRequested st;
     sys_exc_info := sys_exc_info st; trace := trace st |}.

Definition set_rootLevel (l : Z) (st : State) : State :=
  {| appArgs := appArgs st; conf := conf st; rootLevel := l;
     logHandler := logHandler st; fragmentStart := fragmentStart st;
     files := files st; onErrorSoundRequested := onErrorSoundRequested st;
     sys_exc_info := sys_exc_info st; trace := trace st |}.

Definition set_fragmentStart (p : option nat) (st : State) : State :=
  {| appArgs := appArgs st; conf := conf st; rootLevel := rootLevel st;
     logHandler := logHandler st; fragmentStart := p;
     files := files st; onErrorSoundRequested := onErrorSoundRequested st;
     sys_exc_info := sys_exc_info st; trace := trace st |}.

Definition set_files (fs : gmap string (list Byte.byte)) (st : State) : State :=
  {| appArgs := appArgs st; conf := conf st; rootLevel := rootLevel st;
     logHandler := logHandler st; fragmentStart := fragmentStart st;
     files := fs; onErrorSoundRequested := onErrorSoundRequested st;
     sys_exc_info := sys_exc_info st; trace := trace st |}.

Definition set_onErrorSoundRequested (b : bool) (st : State) : State :=
  {| appArgs := appArgs st; conf := conf st; rootLevel := rootLevel st;
     logHandler := logHandler st; fragmentStart := fragmentStart st;
     files := files st; onErrorSoundRequested := b;
     sys_exc_info := sys_exc_info st; trace := trace st |}.

Definition set_trace (t : list event) (st : State) : State :=
  {| appArgs := appArgs st; conf := conf st; rootLevel := rootLevel st;
     logHandler := logHandler st; fragmentStart := fragmentStart st;
     files := files st; onErrorSoundRequested := onErrorSoundRequested st;
     sys_exc_info := sys_exc_info st; trace := t |}.

(** Appending to a file, as any writer of the log file does. *)
Definition appendFile (name : string) (data : list Byte.byte) (st : State) : State :=
  set_files (<[name := default [] (files st !! name) ++ data]> (files st)) st.

(** ** Stateful computations that may raise *)

Definition Py (A : Type) : Type := State → result A * State.

Definition ret {A : Type} (a : A) : Py A := fun st => (Ok a, st).

Definition lift {A : Type} (r : result A) : Py A := fun st => (r, st).

Definition bind {A B : Type} (m : Py A) (k : A → Py B) : Py B :=
  fun st =>
    match m st with
    | (Ok a, st') => k a st'
    | (Raise e, st') => (Raise e, st')
    end.

Definition gets {A : Type} (proj : State → A) : Py A := fun st => (Ok (proj st), st).

Definition modify (upd : State → State) : Py unit := fun st => (Ok tt, upd st).

Definition emitEvents (evs : list event) : Py unit :=
  modify (fun st => set_trace (trace st ++ evs) st).

Definition when (b : bool) (m : Py unit) : Py unit := if b then m else ret tt.

Notation "x <~ m ;; k" := (bind m (fun x => k))
  (at level 100, m at next level, right associativity, only parsing).
Notation "m ;;; k" := (bind m (fun _ => k))
  (at level 100, right associativity, only parsing).

Record Env := {
  paths : PathEnv;
  RPC : RPCConstants;
  buildVersion_isTestVersion : bool;
  (** [co_filename] of the code objects of [logHandler.py] itself. *)
  logHandler_file : string;
  NVDAState_isRunningAsSource : bool;
  (** [os.path.split(__file__)[0] + os.sep]. *)
  BASE_PATH : string;
  (** [traceback.extract_stack(f)], formatted, joined and right-stripped. *)
  formatStack : frame → string;
  (** The formatted record with its terminator, encoded for the file. *)
  render : LogRecord → list Byte.byte
}.

Definition NVDA_LOGGER_NAME : string := "nvda".

(** [text.replace(old, new)] for a pattern [old] that is not empty: the
    occurrences are replaced from the left, and [skip] counts the characters
    of a replaced occurrence that are still to be passed over. *)
Fixpoint str_replace_from (old new : string) (skip : nat) (text : string) : string :=
  match text with
  | EmptyString => EmptyString
  | String c rest =>
      match skip with
      | S k => str_replace_from old new k rest
      | O =>
          if String.prefix old text
          then new +:+ str_replace_from old new (String.length old - 1) rest
          else String c (str_replace_from old new 0 rest)
      end
  end.

Definition str_replace (old new text : string) : string :=
  str_replace_from old new 0 text.

(** Line 192: two blanks, the word File, a blank and a double quote. *)
Definition TB_BASE_PATH_PREFIX : string := "  File " +:+ String (ascii_of_nat 34) "".

Definition newline : string := String (ascii_of_nat 10) "".

(** ** Text files

    The log file is read as [open(name, "r", encoding="UTF-8")] reads it: the
    bytes are decoded as UTF-8, strictly, and the line ends CR LF and CR come
    back as LF. A text is the list of its code points. *)

Definition continuation (b : N) : bool := ((128 <=? b) && (b <=? 191))%N.

(** The second byte of a sequence of three: no overlong form, no surrogate. *)
Definition second3 (b0 b1 : N) : bool :=
  (if b0 =? 224 then (160 <=? b1) && (b1 <=? 191)
   else if b0 =? 237 then (128 <=? b1) && (b1 <=? 159)
   else continuation b1)%N.

(** The second byte of a sequence of four: no overlong form, nothing above
    U+10FFFF. *)
Definition second4 (b0 b1 : N) : bool :=
  (if b0 =? 240 then (144 <=? b1) && (b1 <=? 191)
   else if b0 =? 244 then (128 <=? b1) && (b1 <=? 143)
   else continuation b1)%N.

(** The strict UTF-8 decoder; [None] stands for [UnicodeDecodeError]. *)
Fixpoint utf8_decode (bytes : list N) : option (list N) :=
  match bytes with
  | [] => Some []
  | b0 :: rest =>
      if (b0 <? 128)%N then cons b0 <$> utf8_decode rest
      else if ((194 <=? b0) && (b0 <=? 223))%N then
        match rest with
        | b1 :: rest1 =>
            if continuation b1
            then cons ((b0 - 192) * 64 + (b1 - 128))%N <$> utf8_decode rest1
            else None
        | _ => None
        end
      else if ((224 <=? b0) && (b0 <=? 239))%N then
        match rest with
        | b1 :: b2 :: rest2 =>
            if second3 b0 b1 && continuation b2
            then cons ((b0 - 224) * 4096 + (b1 - 128) * 64 + (b2 - 128))%N
                   <$> utf8_decode rest2
            else None
        | _ => None
        end
      else if ((240 <=? b0) && (b0 <=? 244))%N then
        match rest with
        | b1 :: b2 :: b3 :: rest3 =>
            if second4 b0 b1 && continuation b2 && continuation b3
            then cons ((b0 - 240) * 262144 + (b1 - 128) * 4096
                       + (b2 - 128) * 64 + (b3 - 128))%N
                   <$> utf8_decode rest3
            else None
        | _ => None
        end
      else None
  end.

(** Universal newlines on reading: CR LF and CR become LF. *)
Fixpoint universalNewlines (text : list N) : list N :=
  match text with
  | [] => []
  | c :: rest =>
      if (c =? 13)%N then
        10%N :: match rest with
                | c' :: rest' =>
                    if (c' =? 10)%N then universalNewlines rest'
                    else universalNewlines rest
                | [] => []
                end
      else c :: universalNewlines rest
  end.

(** [f.read()] on a file opened for reading as text: the text of the bytes,
    or [None] when they are not UTF-8. *)
Definition readText (bytes : list Byte.byte) : option (list N) :=
  universalNewlines <$> utf8_decode (Byte.to_N <$> bytes).

(** The other direction, as a file opened for writing as text on Windows
    takes a text: every LF is written as CR LF, and the code points are
    encoded as UTF-8. *)
Definition lineSeparators (text : list N) : list N :=
  text ≫= (fun c => if (c =? 10)%N then [13; 10]%N else [c]).

Definition utf8_encode_char (c : N) : list N :=
  (if c <? 128 then [c]
   else if c <? 2048 then [192 + c / 64; 128 + c mod 64]
   else if c <? 65536 then [224 + c / 4096; 128 + (c / 64) mod 64; 128 + c mod 64]
   else [240 + c / 262144; 128 + (c / 4096) mod 64; 128 + (c / 64) mod 64;
         128 + c mod 64])%N.

Definition utf8_encode (text : list N) : list N := text ≫= utf8_encode_char.

Definition byte_of_N (n : N) : Byte.byte := default Byte.x00 (Byte.of_N n).

Definition writeText (text : list N) : list Byte.byte :=
  byte_of_N <$> utf8_encode (lineSeparators text).

(** The code points that UTF-8 encodes: up to U+10FFFF, the surrogates
    left out. *)
Definition isScalar (c : N) : bool :=
  ((c <? 55296) || ((57343 <? c) && (c <? 1114112)))%N.

(** The code points of a text of the model. *)
Definition text_of_string (s : string) : list N :=
  N_of_ascii <$> String.list_ascii_of_string s.

Arguments readText : simpl never.
Arguments writeText : simpl never.

(** The arguments of the thread exception hook. [thread] is the name of the
    failing thread when there is one. The traceback is only passed on and is
    left out. *)
Record ThreadExceptHookArgs := {
  exc_type : excType;
  exc_value : option pyexc;
  thread : option string
}.

(** The type of the argument object itself, which the frame inspector meets
    as first local: [threading.ExceptHookArgs], a plain structure type whose
    attributes are the four fields. *)
Definition exceptHookArgsType : pytype :=
  plainType
    [ {| cls_name := "_ExceptHookArgs";
         cls_dict := {[ "exc_type" := MOther; "exc_value" := MOther;
                        "exc_traceback" := MOther; "thread" := MOther ]} |};
      {| cls_name := "object"; cls_dict := {[ "__init__" := MOther ]} |} ]
    [ {| cls_name := "type"; cls_dict := {[ "mro" := MOther ]} |};
      {| cls_name := "object"; cls_dict := {[ "__init__" := MOther ]} |} ].

Definition args_type (excInfoObj : ThreadExceptHookArgs) : pytype :=
  exceptHookArgsType.

Section Logging.
Context (env : Env).

(** [stripBasePathFromTracebackText] (lines 189-200). *)
Definition stripBasePathFromTracebackText (text : string) : string :=
  if NVDAState_isRunningAsSource env
  then str_replace (TB_BASE_PATH_PREFIX +:+ BASE_PATH env) TB_BASE_PATH_PREFIX text
  else text.

(** *** The file sink *)

(** [shouldPlayErrorSound] (lines 177-186). *)
Definition shouldPlayErrorSound (st : State) : bool :=
  buildVersion_isTestVersion env
  || match conf st with
     | Some c => bool_decide (featureFlag_playErrorSound c = 1)
     | None => false
     end.

(** [getOnErrorSoundRequested().notify()] (lines 165-174, 398): the
    extension point is created on first use. *)
Definition notifyErrorSound : Py unit :=
  modify (set_onErrorSoundRequested true) ;;;
  emitEvents [EvErrorSoundNotify].

(** [filterExternalDependencyLogging] (lines 549-556); subscripting
    [config.conf] raises while it is still [None]. *)
Definition filterExternalDependencyLogging (record : LogRecord) : Py bool :=
  if bool_decide (rec_name record = NVDA_LOGGER_NAME) then ret true
  else if bool_decide (WARNING ≤ levelno record) then ret true
  else
    c <~ gets conf ;;
    match c with
    | None => lift (Raise TypeError)
    | Some c => ret (debugLog_externalPythonDependencies c)
    end.

(** [logging.Handler.handle]: the filter, then [emit]. *)
Definition Handler_handle (emit : LogRecord → Py unit) (record : LogRecord) : Py bool :=
  rv <~ filterExternalDependencyLogging record ;;
  when rv (emit record) ;;;
  ret rv.

(** [logging.FileHandler.emit]: the rendered record goes to the file. *)
Definition FileHandler_emit (baseFilename : string) (record : LogRecord) : Py unit :=
  modify (appendFile baseFilename (render env record)) ;;;
  emitEvents [EvWrite baseFilename record].

(** [RemoteHandler.emit] (lines 385-390); a failure of the call is swallowed. *)
Definition RemoteHandler_emit (record : LogRecord) : Py unit :=
  emitEvents [EvRemote record].

(** [FileHandler.handle] (lines 394-399). *)
Definition FileHandler_handle (baseFilename : string) (record : LogRecord) : Py bool :=
  (if bool_decide (CRITICAL ≤ levelno record) then emitEvents [EvMessageBeep]
   else if bool_decide (ERROR ≤ levelno record) then
     play <~ gets shouldPlayErrorSound ;;
     when play notifyErrorSound
   else ret tt) ;;;
  Handler_handle (FileHandler_emit baseFilename) record.

(** [logging.Logger.callHandlers] for [log]: the handlers of the root
    logger, that is [logHandler] once [initialize] has added it. A
    [NullHandler] handles a record by doing nothing. *)
Definition callHandlers (record : LogRecord) : Py unit :=
  h <~ gets logHandler ;;
  match h with
  | None | Some NullHandler => ret tt
  | Some (FileHandler baseFilename) => FileHandler_handle baseFilename record ;;; ret tt
  | Some RemoteHandler => Handler_handle RemoteHandler_emit record ;;; ret tt
  end.

(** *** The logger *)

(** [logging.Logger._log] for [log]: the record is made (an [exc_info] that
    is not a triple is turned into one) and handed to the handlers. *)
Definition makeRecord (level : Z) (msg : string) (exc_info : option ExcInfoArg)
    (codepath : string) (st : State) : LogRecord :=
  {| rec_name := NVDA_LOGGER_NAME;
     levelno := level;
     rec_msg := msg;
     rec_codepath := Some codepath;
     rec_exc_info :=
       match exc_info with
       | None => None
       | Some ExcInfoTrue => Some (sys_exc_info st)
       | Some (ExcInfoTuple ty value) => Some (ty, value)
       | Some (ExcInfoInstance e) => Some (Some (exc_class e), Some e)
       end |}.

Definition super__log (level : Z) (msg : string) (exc_info : option ExcInfoArg)
    (codepath : string) : Py unit :=
  record <~ gets (makeRecord level msg exc_info codepath) ;;
  emitEvents [EvRecord record] ;;;
  callHandlers record.

(** [Logger._log] (lines 220-268). [f] is the frame two levels up from
    [_log], which the source fetches with [inspect.currentframe]. *)
Definition Logger__log (f : frame) (level : Z) (msg : string)
    (exc_info : option ExcInfoArg) (kw : LogKwargs) : Py unit :=
  codepath <~ match kw_codepath kw with
              | Some cp =>
                  if bool_decide (cp ≠ "") then ret cp
                  else lift (getCodePath (paths env) f)
              | None => lift (getCodePath (paths env) f)
              end ;;
  isSecure <~ gets (fun st => secure (appArgs st)) ;;
  let activateLogViewer :=
    if isSecure : bool then false else kw_activateLogViewer kw in
  when activateLogViewer
    (emitEvents [EvViewerActivate; EvViewerSetInsertionPointEnd]) ;;;
  let msg :=
    match kw_stack_info kw with
    | NoStack => msg
    | StackTrue =>
        msg +:+ newline +:+ "Stack trace:" +:+ newline
            +:+ stripBasePathFromTracebackText (formatStack env f)
    | StackGiven formatted =>
        msg +:+ newline +:+ "Stack trace:" +:+ newline
            +:+ stripBasePathFromTracebackText formatted
    end in
  super__log level msg exc_info codepath ;;;
  when activateLogViewer (emitEvents [EvViewerRefresh]).

(** [logging.Logger.log] and the level methods built on it ([warning],
    [error], ...): the level test, then [_log]. *)
Definition Logger_log (f : frame) (level : Z) (msg : string)
    (exc_info : option ExcInfoArg) (kw : LogKwargs) : Py unit :=
  root <~ gets rootLevel ;;
  when (isEnabledFor root level) (Logger__log f level msg exc_info kw).

Definition Logger_warning (f : frame) (msg : string) : Py unit :=
  Logger_log f WARNING msg None noKwargs.

(** [Logger.debugWarning] (lines 270-274) and [Logger.io] (lines 276-280). *)
Definition Logger_debugWarning (f : frame) (msg : string)
    (exc_info : option ExcInfoArg) (kw : LogKwargs) : Py unit :=
  root <~ gets rootLevel ;;
  if negb (isEnabledFor root DEBUGWARNING) then ret tt
  else Logger__log f DEBUGWARNING msg exc_info kw.

Definition Logger_io (f : frame) (msg : string)
    (exc_info : option ExcInfoArg) (kw : LogKwargs) : Py unit :=
  root <~ gets rootLevel ;;
  if negb (isEnabledFor root IO) then ret tt
  else Logger__log f IO msg exc_info kw.

(** Lines 289-294: the exception that [Logger.exception] classifies. *)
Definition excOf (exc_info : ExcInfoArg) (st : State) : option pyexc :=
  match exc_info with
  | ExcInfoTrue => snd (sys_exc_info st)
  | ExcInfoTuple _ value => value
  | ExcInfoInstance e => Some e
  end.

(** Lines 289-290: [True] is replaced by the triple in flight. *)
Definition resolveExcInfo (exc_info : ExcInfoArg) (st : State) : ExcInfoArg :=
  match exc_info with
  | ExcInfoTrue => ExcInfoTuple (fst (sys_exc_info st)) (snd (sys_exc_info st))
  | _ => exc_info
  end.

(** [Logger.exception] (lines 282-332). *)
Definition Logger_exception (f : frame) (msg : string) (exc_info : ExcInfoArg)
    (kw : LogKwargs) : Py unit :=
  exc <~ gets (excOf exc_info) ;;
  exc_info <~ gets (resolveExcInfo exc_info) ;;
  let level := exceptionLevel (RPC env) exc in
  root <~ gets rootLevel ;;
  if negb (isEnabledFor root level) then ret tt
  else Logger__log f level msg (Some exc_info) kw.

(** *** Fragments of the log file *)

Definition truthyName (name : option string) : bool :=
  match name with
  | Some s => bool_decide (s ≠ "")
  | None => false
  end.

Definition isFileHandler (h : option Handler) : bool :=
  match h with
  | Some (FileHandler _) => true
  | _ => false
  end.

(** [open(globalVars.appArgs.logFileName, "r", encoding="UTF-8")]: the bytes
    of the file, or the error of a file that is not there. Nothing is
    decoded before the file is read. *)
Definition openLogFile : Py (list Byte.byte) :=
  fun st =>
    match logFileName (appArgs st) with
    | None => (Raise TypeError, st)
    | Some name =>
        match files st !! name with
        | None => (Raise FileNotFoundError, st)
        | Some content => (Ok content, st)
        end
    end.

(** [Logger.markFragmentStart] (lines 334-350). At the end of the file
    [f.tell()] is the number of its bytes. *)
Definition markFragmentStart : Py bool :=
  st <~ gets id ;;
  if secure (appArgs st)
     || negb (truthyName (logFileName (appArgs st)))
     || negb (isFileHandler (logHandler st))
  then ret false
  else
    content <~ openLogFile ;;
    modify (set_fragmentStart (Some (length content))) ;;;
    ret true.

(** [Logger.getFragment] (lines 352-372). [f.seek] goes to the marked byte
    (beyond the end when the file is shorter), and [f.read()] decodes what
    follows; when that is not UTF-8 the error leaves before the mark is
    touched. *)
Definition getFragment : Py (option (list N)) :=
  st <~ gets id ;;
  match fragmentStart st with
  | None => ret None
  | Some start =>
      if secure (appArgs st)
         || negb (truthyName (logFileName (appArgs st)))
         || negb (isFileHandler (logHandler st))
      then ret None
      else
        content <~ openLogFile ;;
        match readText (drop start content) with
        | None => lift (Raise UnicodeDecodeError)
        | Some fragment =>
            when (bool_decide (fragment ≠ [])) (modify (set_fragmentStart None)) ;;;
            ret (Some fragment)
        end
  end.

(** *** Frames of the module's own functions *)

Definition moduleCode (id : nat) (name : string) (argcount : nat)
    (varnames : list string) : code :=
  {| co_id := id; co_filename := logHandler_file env; co_name := name;
     co_argcount := argcount; co_varnames := varnames; co_flags := 3 |}.

Definition frame_setLogLevelFromConfig : frame :=
  {| f_code := moduleCode 1 "setLogLevelFromConfig" 0 ["config"; "levelName"; "level"];
     f_globals_name := Some "logHandler";
     f_locals := ∅ |}.

Definition frame_threadExceptHook (excInfoObj : ThreadExceptHookArgs) : frame :=
  {| f_code := moduleCode 2 "_threadExceptHook" 1 ["excInfoObj"; "msg"];
     f_globals_name := Some "logHandler";
     f_locals := {[ "excInfoObj" := VInstance (args_type excInfoObj) ]} |}.

(** *** The thread exception hook *)

(** Lines 501-503: the message. *)
Definition threadMessage (excInfoObj : ThreadExceptHookArgs) : string :=
  match thread excInfoObj with
  | Some name => "Exception in thread " +:+ name +:+ ":" +:+ newline
  | None => ""
  end.

(** [_threadExceptHook] (lines 497-504). *)
Definition _threadExceptHook (excInfoObj : ThreadExceptHookArgs) : Py unit :=
  if bool_decide (exc_type excInfoObj = SystemExit) then ret tt
  else
    let msg := threadMessage excInfoObj in
    Logger_exception (frame_threadExceptHook excInfoObj) msg
      (ExcInfoTuple (Some (exc_type excInfoObj)) (exc_value excInfoObj)) noKwargs.

(** *** The level policy *)

(** [_shouldDisableLogging] (lines 533-546). *)
Definition _shouldDisableLogging (st : State) : bool :=
  let logLevelOverridden :=
    debugLogging (appArgs st) || negb (bool_decide (logLevel (appArgs st) = 0)) in
  let noLoggingRequested := noLogging (appArgs st) && negb logLevelOverridden in
  secure (appArgs st) || noLoggingRequested.

(** [isLogLevelForced] (lines 625-632). *)
Definition isLogLevelForced (st : State) : bool :=
  secure (appArgs st)
  || debugLogging (appArgs st)
  || bool_decide (logLevel (appArgs st) ≠ 0)
  || noLogging (appArgs st).

(** The tuple of line 646. *)
Definition configurableLevels : list Z := [DEBUG; IO; DEBUGWARNING; INFO; OFF].

(** [level not in (...)] of line 646; a text is none of the numbers. *)
Definition levelUnsupported (level : levelValue) : bool :=
  match level with
  | LevelNo n => bool_decide (n ∉ configurableLevels)
  | LevelText _ => true
  end.

Definition set_loggingLevel (name : string) (st : State) : State :=
  match conf st with
  | Some c =>
      set_conf (Some {| general_loggingLevel := name;
                        featureFlag_playErrorSound := featureFlag_playErrorSound c;
                        debugLog_externalPythonDependencies :=
                          debugLog_externalPythonDependencies c |}) st
  | None => st
  end.

(** [log.root.setLevel(level)]: a number is taken as it is, a text has to be
    a registered name. *)
Definition root_setLevel (level : levelValue) : Py unit :=
  match level with
  | LevelNo n => modify (set_rootLevel n)
  | LevelText name =>
      match assoc name nameToLevel with
      | Some n => modify (set_rootLevel n)
      | None => lift (Raise ValueError)
      end
  end.

(** [setLogLevelFromConfig] (lines 635-650). *)
Definition setLogLevelFromConfig : Py unit :=
  forced <~ gets isLogLevelForced ;;
  if forced : bool then ret tt
  else
    c <~ gets conf ;;
    match c with
    | None => lift (Raise TypeError)
    | Some c =>
        let levelName := general_loggingLevel c in
        let level := getLevelName_ofName levelName in
        level <~ (if levelUnsupported level then
                    Logger_warning frame_setLogLevelFromConfig
                      ("invalid setting for logging level: " +:+ levelName) ;;;
                    modify (set_loggingLevel (getLevelName_ofLevel INFO)) ;;;
                    ret (LevelNo INFO)
                  else ret level) ;;
        root_setLevel level
    end.

End Logging.

(** ** Sample surroundings, for running the model on concrete inputs *)

(** Modelled from the spec: the values of [RPCConstants.RPC], a module that is
    not among the sources; the numbers are the ones Windows gives these codes. *)
Definition RPC_windows : RPCConstants :=
  {| S_SERVER_UNAVAILABLE := 1722;
     S_CALL_FAILED_DNE := 1727;
     E_CALL_REJECTED := -2147418111;
     E_CALL_CANCELED := -2147418110;
     E_DISCONNECTED := -2147417848 |}.

Definition samplePaths : PathEnv :=
  {| os_path_isabs := String.prefix "C:\";
     os_path_normpath := fun p => p;
     _NVDA_CODE_PATH := "C:\nvda\source";
     WritePaths_configDir := Some "C:\Users\me\AppData\Roaming\nvda" |}.

Definition sampleEnv : Env :=
  {| paths := samplePaths;
     RPC := RPC_windows;
     buildVersion_isTestVersion := false;
     logHandler_file := "C:\nvda\source\logHandler.py";
     NVDAState_isRunningAsSource := true;
     BASE_PATH := "C:\nvda\source\";
     formatStack := fun _ => "";
     render := fun record => writeText (text_of_string (rec_msg record +:+ newline)) |}.

Definition sampleArgs : AppArgs :=
  {| secure := false; debugLogging := false; logLevel := 0; noLogging := false;
     logFileName := Some "nvda.log" |}.

Definition sampleConf : Config :=
  {| general_loggingLevel := "INFO";
     featureFlag_playErrorSound := 1;
     debugLog_externalPythonDependencies := false |}.

(** The state [initialize] leaves with default arguments: a file sink on an
    empty log file, threshold [INFO]. *)
Definition sampleState : State :=
  {| appArgs := sampleArgs; conf := Some sampleConf; rootLevel := INFO;
     logHandler := Some (FileHandler "nvda.log"); fragmentStart := None;
     files := {[ "nvda.log" := [] ]}; onErrorSoundRequested := false;
     sys_exc_info := (None, None); trace := [] |}.

Definition set_appArgs (a : AppArgs) (st : State) : State :=
  {| appArgs := a; conf := conf st; rootLevel := rootLevel st;
     logHandler := logHandler st; fragmentStart := fragmentStart st;
     files := files st; onErrorSoundRequested := onErrorSoundRequested st;
     sys_exc_info := sys_exc_info st; trace := trace st |}.

Definition secureArgs : AppArgs :=
  {| secure := true; debugLogging := false; logLevel := 0; noLogging := false;
     logFileName := Some "nvda.log" |}.

(** The records the logger made, oldest first. *)
Definition recordsOf (evs : list event) : list LogRecord :=
  omap (fun e => match e with
                 | EvRecord record => Some record
                 | _ => None
                 end) evs.

(** An operation-cancelled exception that escaped the thread "worker". *)
Definition cancelledInWorker : ThreadExceptHookArgs :=
  {| exc_type := CallCancelled;
     exc_value := Some {| exc_class := CallCancelled; winerror := None; hresult := 0 |};
     thread := Some "worker" |}.

(** A small program for the frame inspector: module [speech] of the
    application defines [class Base] with the method [speak], [class
    Derived(Base)] that inherits it, and the free function [announce]; an
    add-on module calls the logger from a lambda. *)
Definition code_speak : code :=
  {| co_id := 10; co_filename := "C:\nvda\source\speech.py"; co_name := "speak";
     co_argcount := 1; co_varnames := ["self"]; co_flags := 3 |}.


Definition code_lambda : code :=
  {| co_id := 12;
     co_filename := "C:\Users\me\AppData\Roaming\nvda\addons\x\globalPlugins\x.py";
     co_name := "<lambda>"; co_argcount := 1; co_varnames := ["evt"]; co_flags := 3 |}.

Definition cls_Base : pyclass :=
  {| cls_name := "Base"; cls_dict := {[ "speak" := MFunction code_speak ]} |}.

Definition cls_Derived : pyclass :=
  {| cls_name := "Derived"; cls_dict := {[ "volume" := MOther ]} |}.

Definition cls_object : pyclass :=
  {| cls_name := "object"; cls_dict := {[ "__init__" := MOther ]} |}.

Definition cls_type : pyclass :=
  {| cls_name := "type"; cls_dict := {[ "mro" := MOther ]} |}.

Definition derivedType : pytype :=
  plainType [cls_Derived; cls_Base; cls_object] [cls_type; cls_object].

Definition frame_speak : frame :=
  {| f_code := code_speak; f_globals_name := Some "speech";
     f_locals := {[ "self" := VInstance derivedType ]} |}.


Definition frame_lambda : frame :=
  {| f_code := code_lambda; f_globals_name := Some "globalPlugins.x";
     f_locals := {[ "evt" := VInstance derivedType ]} |}.

(** [class Loud(Base)] overrides [speak] and calls the inherited method,
    which then runs with an instance of [Loud]. *)
Definition code_shout : code :=
  {| co_id := 14; co_filename := "C:\nvda\source\speech.py"; co_name := "speak";
     co_argcount := 1; co_varnames := ["self"]; co_flags := 3 |}.

Definition cls_Loud : pyclass :=
  {| cls_name := "Loud"; cls_dict := {[ "speak" := MFunction code_shout ]} |}.

Definition loudType : pytype :=
  plainType [cls_Loud; cls_Base; cls_object] [cls_type; cls_object].

Definition frame_speak_inherited : frame :=
  {| f_code := code_speak; f_globals_name := Some "speech";
     f_locals := {[ "self" := VInstance loudType ]} |}.









(** The configuration asks for an unknown level while the threshold is OFF,
    as a configuration that asked for OFF left it. *)
Definition misconfiguredAtOFF : State :=
  {| appArgs := sampleArgs;
     conf := Some {| general_loggingLevel := "VERBOSE";
                     featureFlag_playErrorSound := 0;
                     debugLog_externalPythonDependencies := false |};
     rootLevel := OFF;
     logHandler := Some (FileHandler "nvda.log"); fragmentStart := None;
     files := {[ "nvda.log" := [] ]}; onErrorSoundRequested := false;
     sys_exc_info := (None, None); trace := [] |}.

(** States and inputs for the other operations. *)
Definition debugFlagState : State :=
  set_appArgs {| secure := false; debugLogging := true; logLevel := 0;
                 noLogging := false; logFileName := Some "nvda.log" |}
              (set_rootLevel DEBUG sampleState).

Definition secureState : State := set_appArgs secureArgs sampleState.

Definition viewerKwargs : LogKwargs :=
  {| kw_codepath := None; kw_activateLogViewer := true; kw_stack_info := NoStack |}.

Definition misconfiguredState : State :=
  set_conf (Some {| general_loggingLevel := "VERBOSE";
                    featureFlag_playErrorSound := 0;
                    debugLog_externalPythonDependencies := false |}) sampleState.

Definition debugConfiguredState : State :=
  set_conf (Some {| general_loggingLevel := "DEBUG";
                    featureFlag_playErrorSound := 0;
                    debugLog_externalPythonDependencies := false |}) sampleState.

(** A [ValueError] that escaped the thread "worker". *)
Definition failedInWorker : ThreadExceptHookArgs :=
  {| exc_type := UserException "ValueError" Exception;
     exc_value := Some {| exc_class := UserException "ValueError" Exception;
                          winerror := None; hresult := 0 |};
     thread := Some "worker" |}.

(** An error of the application, as the file sink receives it. *)
Definition errorRecord : LogRecord :=
  {| rec_name := "nvda"; levelno := ERROR; rec_msg := "speech failed";
     rec_codepath := Some "speech.Base.speak"; rec_exc_info := None |}.

(** The state [initialize] leaves when the log file cannot be opened. *)
Definition nullSinkState : State :=
  {| appArgs := {| secure := false; debugLogging := false; logLevel := 0;
                   noLogging := false; logFileName := None |};
     conf := Some sampleConf; rootLevel := INFO;
     logHandler := Some NullHandler; fragmentStart := None;
     files := ∅; onErrorSoundRequested := false;
     sys_exc_info := (None, None); trace := [] |}.

Definition helloBytes : list Byte.byte := String.list_byte_of_string "hello".

(** The text a, CR, b, and a byte that no UTF-8 text holds. *)
Definition textWithCR : list N := [97; 13; 98]%N.

Definition strayByte : list Byte.byte := [Byte.xff].

(** The events a step added to the trace, none of them of the log viewer. *)
Definition quietStep (st st' : State) : Prop :=
  ∃ evs, trace st' = trace st ++ evs ∧ Forall (fun e => isViewerEvent e = false) evs.

(** The conditions under which a mark can be set or read (lines 340-344). *)
Definition canMark (st : State) : Prop :=
  secure (appArgs st) = false
  ∧ (∃ name, logFileName (appArgs st) = Some name ∧ name ≠ "")
  ∧ isFileHandler (logHandler st) = true.

(** The parts of the state that no log call touches. *)
Definition sameSettings (st st' : State) : Prop :=
  appArgs st' = appArgs st ∧ conf st' = conf st ∧ rootLevel st' = rootLevel st
  ∧ logHandler st' = logHandler st ∧ fragmentStart st' = fragmentStart st.

(** ** Output streams, hooks and start-up

    The remaining functions of the module: the redirected output streams,
    the hooks for exceptions and warnings, and [initialize] with the file
    system and the interpreter-wide settings it works on. *)

(** [str.isspace] for the characters a text of the model holds, the code
    points below 256: the controls 9-13 and 28-31, the blank, U+0085 and
    U+00A0. *)
Definition isspace (c : ascii) : bool :=
  let n := nat_of_ascii c in
  ((9 <=? n) && (n <=? 13) || (28 <=? n) && (n <=? 32)
   || (n =? 133) || (n =? 160))%nat.

(** [text.rstrip()]. *)
Fixpoint rstrip (text : string) : string :=
  match text with
  | EmptyString => EmptyString
  | String c rest =>
      match rstrip rest with
      | EmptyString => if isspace c then EmptyString else String c EmptyString
      | stripped => String c stripped
      end
  end.

(** [StreamRedirector] (lines 434-447); its logger is always [log]. *)
Record StreamRedirector := {
  sr_name : string;
  sr_level : Z
}.

(** The streams [redirectStdout] installs (lines 464-465). *)
Definition stdoutRedirector : StreamRedirector :=
  {| sr_name := "stdout"; sr_level := WARNING |}.

Definition stderrRedirector : StreamRedirector :=
  {| sr_name := "stderr"; sr_level := ERROR |}.

(** A log call that names its codepath and passes nothing else. *)
Definition withCodepath (codepath : string) : LogKwargs :=
  {| kw_codepath := Some codepath; kw_activateLogViewer := false;
     kw_stack_info := NoStack |}.

(** The argument of the hook for unraisable exceptions. [object_repr] is
    what [repr(unraisable.object)] gives when the hook evaluates it: a text,
    or the error that the [__repr__] of the object raises. The traceback is
    only passed on and is left out. *)
Record UnraisableHookArgs := {
  unraisable_exc_type : excType;
  unraisable_exc_value : option pyexc;
  err_msg : option string;
  object_repr : result string
}.

(** [winKernel.SYSTEMTIME], as far as [Formatter.formatTime] reads it; the
    fields are unsigned words. *)
Record SYSTEMTIME := {
  wHour : N;
  wMinute : N;
  wSecond : N
}.

Fixpoint zeros (n : nat) : string :=
  match n with
  | O => ""
  | S k => String "0" (zeros k)
  end.

(** [format(n, "0<width>d")], and ["%0<width>d" % n], for a number that is
    not negative: its decimal digits, filled with zeros on the left. *)
Definition format_0d (width : nat) (n : N) : string :=
  let digits := NilZero.string_of_uint (N.to_uint n) in
  zeros (width - String.length digits) +:+ digits.

(** [Formatter.formatTime] (lines 420-431). [timeAsLocalTime] is the local
    time that the functions of [winKernel] give for [record.created], and
    [msecs] the whole milliseconds of [record.msecs]. *)
Definition Formatter_formatTime (timeAsLocalTime : SYSTEMTIME) (msecs : N) : string :=
  let res :=
    format_0d 2 (wHour timeAsLocalTime) +:+ ":"
    +:+ format_0d 2 (wMinute timeAsLocalTime) +:+ ":"
    +:+ format_0d 2 (wSecond timeAsLocalTime) in
  res +:+ "." +:+ format_0d 3 msecs.

(** What [initialize] reads from the operating system: functions of
    [os.path], the directories of [_getDefaultLogFilePath], the files the
    system refuses to remove or rename and the files it refuses to create or
    truncate, and whether the library of [RemoteHandler] loads. *)
Record FsEnv := {
  os_path_join : string → string → string;
  os_path_dirname : string → string;
  os_path_abspath : string → string;
  globalVars_appDir : string;
  tempfile_gettempdir : string;
  fs_refusesRemove : string → bool;
  fs_refusesWrite : string → bool;
  remoteLibLoads : bool
}.

(** The files, by name, with their content. *)
Abbreviation Files := (gmap string (list Byte.byte)).

(** [os.unlink(name)]; [None] stands for the [OSError] it raises. *)
Definition os_unlink (fsenv : FsEnv) (name : string) (fs : Files) : option Files :=
  match fs !! name with
  | None => None
  | Some _ => if fs_refusesRemove fsenv name then None else Some (delete name fs)
  end.

(** [os.rename(src, dst)] on Windows, where an existing [dst] is an error. *)
Definition os_rename (fsenv : FsEnv) (src dst : string) (fs : Files) : option Files :=
  match fs !! src with
  | None => None
  | Some content =>
      if fs_refusesRemove fsenv src
         || bool_decide (is_Some (fs !! dst))
         || fs_refusesWrite fsenv dst
      then None
      else Some (<[dst := content]> (delete src fs))
  end.

(** [open(name, "w")]: the file is created, or emptied when it is there. *)
Definition openForWriting (fsenv : FsEnv) (name : string) (fs : Files) : option Files :=
  if fs_refusesWrite fsenv name then None else Some (<[name := []]> fs).

(** Lines 588-594: the previous log is kept as the old log; an [OSError]
    ends the attempt where it is raised. *)
Definition rotateLogFile (fsenv : FsEnv) (logFileName oldLogFileName : string)
    (fs : Files) : Files :=
  let unlinked :=
    if bool_decide (is_Some (fs !! oldLogFileName))
    then os_unlink fsenv oldLogFileName fs
    else Some fs in
  match unlinked with
  | None => fs
  | Some fs1 => default fs1 (os_rename fsenv logFileName oldLogFileName fs1)
  end.

(** [d[key] = value] on a dictionary kept in insertion order. *)
Fixpoint assoc_set {K V : Type} `{EqDecision K} (k : K) (v : V)
    (l : list (K * V)) : list (K * V) :=
  match l with
  | [] => [(k, v)]
  | (k', v') :: l' =>
      if decide (k = k') then (k, v) :: l' else (k', v') :: assoc_set k v l'
  end.

(** The registry of level names of [logging] when the module is imported. *)
Definition logging_nameToLevel : list (string * Z) :=
  [("CRITICAL", CRITICAL); ("FATAL", CRITICAL); ("ERROR", ERROR);
   ("WARN", WARNING); ("WARNING", WARNING); ("INFO", INFO);
   ("DEBUG", DEBUG); ("NOTSET", 0)].

Definition logging_levelToName : list (Z * string) :=
  [(CRITICAL, "CRITICAL"); (ERROR, "ERROR"); (WARNING, "WARNING");
   (INFO, "INFO"); (DEBUG, "DEBUG"); (0, "NOTSET")].

(** The process around the logger: the state of the module and the
    interpreter-wide settings that [initialize] writes. [sys_stdout] and
    [sys_stderr] are [None] while the streams are the interpreter's own;
    [lastResort] is what the logging framework printed for want of a
    handler. *)
Record Process := {
  proc_state : State;
  _nameToLevel : list (string * Z);
  _levelToName : list (Z * string);
  sys_stdout : option StreamRedirector;
  sys_stderr : option StreamRedirector;
  sys_excepthook_installed : bool;
  sys_unraisablehook_installed : bool;
  threading_excepthook_installed : bool;
  warnings_showwarning_installed : bool;
  deprecationWarningsShown : bool;
  lastResort : list string
}.

(** [logging.addLevelName(level, levelName)]. *)
Definition addLevelName (level : Z) (levelName : string) (p : Process) : Process :=
  {| proc_state := proc_state p;
     _nameToLevel := assoc_set levelName level (_nameToLevel p);
     _levelToName := assoc_set level levelName (_levelToName p);
     sys_stdout := sys_stdout p; sys_stderr := sys_stderr p;
     sys_excepthook_installed := sys_excepthook_installed p;
     sys_unraisablehook_installed := sys_unraisablehook_installed p;
     threading_excepthook_installed := threading_excepthook_installed p;
     warnings_showwarning_installed := warnings_showwarning_installed p;
     deprecationWarningsShown := deprecationWarningsShown p;
     lastResort := lastResort p |}.

Definition set_proc_state (st : State) (p : Process) : Process :=
  {| proc_state := st;
     _nameToLevel := _nameToLevel p; _levelToName := _levelToName p;
     sys_stdout := sys_stdout p; sys_stderr := sys_stderr p;
     sys_excepthook_installed := sys_excepthook_installed p;
     sys_unraisablehook_installed := sys_unraisablehook_installed p;
     threading_excepthook_installed := threading_excepthook_installed p;
     warnings_showwarning_installed := warnings_showwarning_installed p;
     deprecationWarningsShown := deprecationWarningsShown p;
     lastResort := lastResort p |}.

Definition set_logHandler (h : option Handler) (st : State) : State :=
  {| appArgs := appArgs st; conf := conf st; rootLevel := rootLevel st;
     logHandler := h; fragmentStart := fragmentStart st;
     files := files st; onErrorSoundRequested := onErrorSoundRequested st;
     sys_exc_info := sys_exc_info st; trace := trace st |}.

Definition set_logFileName (name : option string) (st : State) : State :=
  set_appArgs {| secure := secure (appArgs st);
                 debugLogging := debugLogging (appArgs st);
                 logLevel := logLevel (appArgs st);
                 noLogging := noLogging (appArgs st);
                 logFileName := name |} st.

(** How [initialize] ends: it returns, or it raises an error of the frame
    inspector or the [OSError] of [RemoteHandler]. *)
Inductive startError :=
  | StartPyErr (e : pyerr)
  | StartOSError.

Inductive exit :=
  | Returned
  | Raised (e : startError).

(** The classes of the first arguments that the module's own frames hold. *)
Definition cls_bool : pyclass :=
  {| cls_name := "bool"; cls_dict := {[ "__and__" := MOther ]} |}.

Definition cls_int : pyclass :=
  {| cls_name := "int"; cls_dict := {[ "bit_length" := MOther ]} |}.

Definition boolType : pytype :=
  plainType [cls_bool; cls_int; cls_object] [cls_type; cls_object].

Section Startup.
Context (env : Env) (fsenv : FsEnv).

(** *** The redirected streams *)

Definition code_write : code := moduleCode env 5 "write" 2 ["self"; "text"].

Definition cls_StreamRedirector : pyclass :=
  {| cls_name := "StreamRedirector";
     cls_dict :=
       {[ "__init__" :=
            MFunction (moduleCode env 4 "__init__" 4 ["self"; "name"; "logger"; "level"]);
          "write" := MFunction code_write;
          "flush" := MFunction (moduleCode env 6 "flush" 1 ["self"]) ]} |}.

Definition streamRedirectorType : pytype :=
  plainType [cls_StreamRedirector; cls_object] [cls_type; cls_object].

(** The frame of [StreamRedirector.write], the caller of [Logger.log]. *)
Definition frame_write : frame :=
  {| f_code := code_write; f_globals_name := Some "logHandler";
     f_locals := {[ "self" := VInstance streamRedirectorType ]} |}.

(** [StreamRedirector.write] (lines 449-453). *)
Definition StreamRedirector_write (self : StreamRedirector) (text : string) : Py unit :=
  let text := rstrip text in
  if bool_decide (text = "") then ret tt
  else Logger_log env frame_write (sr_level self) text None (withCodepath (sr_name self)).

(** *** The hooks *)

Definition frame_excepthook : frame :=
  {| f_code := moduleCode env 7 "_excepthook" 0 ["exc_info"];
     f_globals_name := Some "logHandler";
     f_locals := ∅ |}.

(** [_excepthook] (lines 486-487), called with the triple of the exception. *)
Definition _excepthook (ty : option excType) (value : option pyexc) : Py unit :=
  Logger_exception env frame_excepthook "" (ExcInfoTuple ty value)
    (withCodepath "unhandled exception").

Definition frame_unraisableExceptHook (args_type : pytype) : frame :=
  {| f_code := moduleCode env 8 "_unraisableExceptHook" 1 ["unraisable"; "msg"];
     f_globals_name := Some "logHandler";
     f_locals := {[ "unraisable" := VInstance args_type ]} |}.

(** Lines 516-519: the text that stands in for the codepath. Either branch
    formats the object with its [repr], inside the hook and unguarded. *)
Definition unraisableMessage (unraisable : UnraisableHookArgs) : result string :=
  if truthyName (err_msg unraisable)
  then repr <- object_repr unraisable ;;
       Ok (default "" (err_msg unraisable) +:+ ": " +:+ repr)
  else repr <- object_repr unraisable ;;
       Ok ("Exception ignored in: " +:+ repr).

(** [_unraisableExceptHook] (lines 515-523). *)
Definition _unraisableExceptHook (args_type : pytype)
    (unraisable : UnraisableHookArgs) : Py unit :=
  msg <~ lift (unraisableMessage unraisable) ;;
  Logger_exception env (frame_unraisableExceptHook args_type) ""
    (ExcInfoTuple (Some (unraisable_exc_type unraisable)) (unraisable_exc_value unraisable))
    (withCodepath msg).



(** *** Start-up *)

(** [_getDefaultLogFilePath] (lines 477-483). *)
Definition _getDefaultLogFilePath : string :=
  if NVDAState_isRunningAsSource env
  then os_path_join fsenv (globalVars_appDir fsenv) "nvda.log"
  else os_path_join fsenv (tempfile_gettempdir fsenv) "nvda.log".

(** Lines 602-606: the threshold that the command line asks for. *)
Definition startupLevel (args : AppArgs) : Z :=
  if debugLogging args then DEBUG
  else if bool_decide (logLevel args ≤ 0) then INFO
  else logLevel args.

Definition frame_initialize : frame :=
  {| f_code := moduleCode env 10 "initialize" 1
                 ["shouldDoRemoteLogging"; "logFormatter"; "oldLogFileName"; "logLevel"];
     f_globals_name := Some "logHandler";
     f_locals := {[ "shouldDoRemoteLogging" := VInstance boolType ]} |}.

(** What the logging framework prints itself when the record of a log call
    that returned found no handler at all: its last resort takes records
    from WARNING on. *)
Definition lastResortOutput (st : State) (level : Z) (msg : string) : list string :=
  match logHandler st with
  | None =>
      if isEnabledFor (rootLevel st) level && bool_decide (WARNING ≤ level)
      then [msg] else []
  | Some _ => []
  end.

(** Lines 585-606: the file sink is set up. The result is the handler, or
    the error that the failure report raised. *)
Definition startFileLogging (st : State) : result Handler * State * list string :=
  let st :=
    if truthyName (logFileName (appArgs st)) then st
    else set_logFileName (Some _getDefaultLogFilePath) st in
  let name := default "" (logFileName (appArgs st)) in
  let oldLogFileName := os_path_join fsenv (os_path_dirname fsenv name) "nvda-old.log" in
  let st := set_files (rotateLogFile fsenv name oldLogFileName (files st)) st in
  let baseFilename := os_path_abspath fsenv name in
  let opened :=
    match openForWriting fsenv baseFilename (files st) with
    | Some fs => (Ok (FileHandler baseFilename), set_files fs st, [])
    | None =>
        let st := set_logFileName None st in
        let msg := "Faile to open log file, redirecting to standard output" in
        match Logger_log env frame_initialize ERROR msg None noKwargs st with
        | (Ok _, st') => (Ok NullHandler, st', lastResortOutput st ERROR msg)
        | (Raise e, st') => (Raise e, st', [])
        end
    end in
  match opened with
  | (Ok h, st, printed) =>
      (Ok h, set_rootLevel (startupLevel (appArgs st)) st, printed)
  | raised => raised
  end.

(** Lines 616-622: the handler joins the root logger, the streams are
    redirected and the hooks are installed. *)
Definition install (h : Handler) (st : State) (printed : list string)
    (p : Process) : Process :=
  {| proc_state := set_logHandler (Some h) st;
     _nameToLevel := _nameToLevel p; _levelToName := _levelToName p;
     sys_stdout := Some stdoutRedirector; sys_stderr := Some stderrRedirector;
     sys_excepthook_installed := true;
     sys_unraisablehook_installed := true;
     threading_excepthook_installed := true;
     warnings_showwarning_installed := true;
     deprecationWarningsShown := true;
     lastResort := lastResort p ++ printed |}.

(** [initialize] (lines 559-622), for a process whose root logger has at
    most the handler [logHandler]. *)
Definition initialize (shouldDoRemoteLogging : bool) (p : Process) : exit * Process :=
  let p := addLevelName DEBUGWARNING "DEBUGWARNING" p in
  let p := addLevelName IO "IO" p in
  let p := addLevelName OFF "OFF" p in
  let st := proc_state p in
  if negb shouldDoRemoteLogging then
    if _shouldDisableLogging st then
      (Returned, install NullHandler (set_rootLevel OFF st) [] p)
    else
      match startFileLogging st with
      | (Ok h, st', printed) => (Returned, install h st' printed p)
      | (Raise e, st', _) => (Raised (StartPyErr e), set_proc_state st' p)
      end
  else
    if remoteLibLoads fsenv then (Returned, install RemoteHandler st [] p)
    else (Raised StartOSError, p).

End Startup.

(** ** Notions used to state the properties of the further functions *)

(** Lines 231-236: the codepath of a log call, the one it names or the one
    the frame inspector finds. *)
Definition codepathOf (env : Env) (f : frame) (kw : LogKwargs) : result string :=
  match kw_codepath kw with
  | Some cp => if bool_decide (cp ≠ "") then Ok cp else getCodePath (paths env) f
  | None => getCodePath (paths env) f
  end.

(** Lines 250-255: the message, with the stack trace when one is asked for. *)
Definition stackedMessage (env : Env) (f : frame) (msg : string) (kw : LogKwargs) : string :=
  match kw_stack_info kw with
  | NoStack => msg
  | StackTrue =>
      msg +:+ newline +:+ "Stack trace:" +:+ newline
          +:+ stripBasePathFromTracebackText env (formatStack env f)
  | StackGiven formatted =>
      msg +:+ newline +:+ "Stack trace:" +:+ newline
          +:+ stripBasePathFromTracebackText env formatted
  end.

(** Lines 585-586: the log file that [initialize] works on, the one of the
    command line or the default one. *)
Definition effectiveLogFileName (env : Env) (fsenv : FsEnv) (st : State) : string :=
  match logFileName (appArgs st) with
  | Some name => if bool_decide (name ≠ "") then name else _getDefaultLogFilePath env fsenv
  | None => _getDefaultLogFilePath env fsenv
  end.

(** What handing over a record of the application's logger below ERROR
    leaves behind: the file sink writes it to its file, the remote sink sends
    it, the null sink and a logger without handler do nothing. *)
Definition delivered (h : option Handler) (record : LogRecord) : list event :=
  match h with
  | Some (FileHandler baseFilename) => [EvWrite baseFilename record]
  | Some RemoteHandler => [EvRemote record]
  | Some NullHandler | None => []
  end.

Definition filesAfter (env : Env) (h : option Handler) (record : LogRecord)
    (fs : Files) : Files :=
  match h with
  | Some (FileHandler baseFilename) =>
      <[baseFilename := default [] (fs !! baseFilename) ++ render env record]> fs
  | _ => fs
  end.

(** Every file is still there and has grown at its end, if at all. *)
Definition appendOnly (fs fs' : Files) : Prop :=
  ∀ name content, fs !! name = Some content →
    ∃ more, fs' !! name = Some (content ++ more).

(** A text of white space only. *)
Fixpoint allWhitespace (text : string) : bool :=
  match text with
  | EmptyString => true
  | String c rest => isspace c && allWhitespace rest
  end.

(** The pattern occurs somewhere in the text. *)
Definition occursIn (pattern text : string) : Prop :=
  ∃ before after, text = before +:+ pattern +:+ after.

(** ** Further sample inputs *)

(** The frame of [Base.speak] after [del self]. *)
Definition frame_unbound : frame :=
  {| f_code := code_speak; f_globals_name := Some "speech"; f_locals := ∅ |}.

(** A DEBUG record of a library that logs through Python's [logging]. *)
Definition foreignRecord : LogRecord :=
  {| rec_name := "comtypes"; levelno := DEBUG; rec_msg := "CoInitializeEx";
     rec_codepath := None; rec_exc_info := None |}.

(** A COM error whose result code is the RPC-server-unavailable code in the
    Win32 facility, 0x800706BA. *)
Definition serverUnavailable : pyexc :=
  {| exc_class := COMError; winerror := None; hresult := -2147023174 |}.

(** A file system that refuses nothing, with the log files in C:\temp. *)
Definition sampleFs : FsEnv :=
  {| os_path_join := fun dir name => dir +:+ "\" +:+ name;
     os_path_dirname := fun _ => "C:\temp";
     os_path_abspath := fun path => path;
     globalVars_appDir := "C:\nvda";
     tempfile_gettempdir := "C:\temp";
     fs_refusesRemove := fun _ => false;
     fs_refusesWrite := fun _ => false;
     remoteLibLoads := true |}.

(** The same, with a log file that cannot be written. *)
Definition lockedFs : FsEnv :=
  {| os_path_join := os_path_join sampleFs;
     os_path_dirname := os_path_dirname sampleFs;
     os_path_abspath := os_path_abspath sampleFs;
     globalVars_appDir := globalVars_appDir sampleFs;
     tempfile_gettempdir := tempfile_gettempdir sampleFs;
     fs_refusesRemove := fun _ => false;
     fs_refusesWrite := fun path => bool_decide (path = "C:\temp\nvda.log");
     remoteLibLoads := true |}.

(** The state of the module before [initialize]: no handler, the threshold
    of a fresh root logger, and the log of the previous run on disk. *)
Definition startState : State :=
  {| appArgs := {| secure := false; debugLogging := false; logLevel := 0;
                   noLogging := false; logFileName := Some "C:\temp\nvda.log" |};
     conf := None; rootLevel := WARNING; logHandler := None;
     fragmentStart := None;
     files := {[ "C:\temp\nvda.log" := helloBytes ]};
     onErrorSoundRequested := false;
     sys_exc_info := (None, None); trace := [] |}.

(** A morning time. *)
Definition sampleTime : SYSTEMTIME := {| wHour := 9; wMinute := 17; wSecond := 40 |}.

(** A fresh interpreter around a state of the module. *)
Definition freshProcess (st : State) : Process :=
  {| proc_state := st;
     _nameToLevel := logging_nameToLevel; _levelToName := logging_levelToName;
     sys_stdout := None; sys_stderr := None;
     sys_excepthook_installed := false;
     sys_unraisablehook_installed := false;
     threading_excepthook_installed := false;
     warnings_showwarning_installed := false;
     deprecationWarningsShown := false;
     lastResort := [] |}.

(** ** What the specification says, where it is compared with the code *)

(** The specification's words on the class of a frame: the class keeps the
    frame's code under the function's name, as an instance method, a class
    method or a property accessor. Code objects are the same when they are
    one object. *)
Inductive keepsCode (c : code) : member → Prop :=
  | keeps_method c' :
      co_id c' = co_id c → keepsCode c (MFunction c')
  | keeps_classmethod c' :
      co_id c' = co_id c → keepsCode c (MClassMethod (Some c'))
  | keeps_getter c' fset :
      co_id c' = co_id c → keepsCode c (MProperty (Some c') fset)
  | keeps_setter fget c' :
      co_id c' = co_id c → keepsCode c (MProperty fget (Some c')).

Definition definesCode (cls : pyclass) (name : string) (c : code) : Prop :=
  ∃ m, cls_dict cls !! name = Some m ∧ keepsCode c m.

(** A class that does not match: its dictionary has nothing under the name,
    or an object that is false, or an object that is true and does not keep
    the code; a class without a name counts as no match either. An object
    whose truth test raises is none of these. *)
Definition passedOver (name : string) (c : code) (cls : pyclass) : Prop :=
  match cls_dict cls !! name with
  | None | Some MFalsy => True
  | Some (MRaising _) => False
  | Some m => ¬ keepsCode c m ∨ cls_name cls = ""
  end.

(** The platform codes as the specification enumerates them: invalid handle,
    operation timeout, RPC server unavailable, RPC endpoint not registered,
    RPC call canceled. *)
Definition spec_expectedWinErrors (rpc : RPCConstants) : list Z :=
  [ERROR_INVALID_WINDOW_HANDLE; ERROR_TIMEOUT; S_SERVER_UNAVAILABLE rpc;
   EPT_S_NOT_REGISTERED; E_CALL_CANCELED rpc].

(** The COM result codes as the specification enumerates them: access denied,
    object not connected, all subscribers failed, call rejected, call
    canceled, disconnected. *)
Definition spec_expectedHResults (rpc : RPCConstants) : list Z :=
  [E_ACCESSDENIED; CO_E_OBJNOTCONNECTED; EVENT_E_ALL_SUBSCRIBERS_FAILED;
   E_CALL_REJECTED rpc; E_CALL_CANCELED rpc; E_DISCONNECTED rpc].

(** An exception that is to be logged at the low severity, given the
    allow-list [winCodes] of platform codes. *)
Definition spec_expected (rpc : RPCConstants) (winCodes : list Z) (e : pyexc) : Prop :=
  (isinstance e WindowsError = true ∧ ∃ w, winerror e = Some w ∧ w ∈ winCodes)
  ∨ (isinstance e COMError = true
     ∧ (hresult e ∈ spec_expectedHResults rpc
        ∨ Z.land (hresult e) 65535 = S_SERVER_UNAVAILABLE rpc))
  ∨ isinstance e CallCancelled = true.

(** ** Proof tools *)

Ltac py_unfold :=
  unfold emitEvents, when in *; unfold bind, gets, modify, ret, lift in *.

(** ** Text files: reading back what was written *)

Ltac nlia := zify; Z.to_euclidean_division_equations; lia.

Ltac bool_to_prop :=
  repeat match goal with
         | H : (_ && _) = true |- _ => apply andb_true_iff in H; destruct H
         | H : (_ || _) = true |- _ => apply orb_true_iff in H; destruct H
         | H : (_ && _) = false |- _ => apply andb_false_iff in H; destruct H
         | H : (_ <? _)%N = true |- _ => apply N.ltb_lt in H
         | H : (_ <? _)%N = false |- _ => apply N.ltb_ge in H
         | H : (_ <=? _)%N = true |- _ => apply N.leb_le in H
         | H : (_ <=? _)%N = false |- _ => apply N.leb_gt in H
         | H : (_ =? _)%N = true |- _ => apply N.eqb_eq in H
         | H : (_ =? _)%N = false |- _ => apply N.eqb_neq in H
         end.

Ltac split_equalities :=
  repeat match goal with
         | |- context [(?a =? ?b)%N] =>
             let E := fresh "E" in destruct (a =? b)%N eqn:E; bool_to_prop
         end.

Ltac settle_tests :=
  repeat match goal with
         | |- context [(?a <? ?b)%N] =>
             first [ replace (a <? b)%N with true by (symmetry; apply N.ltb_lt; nlia)
                   | replace (a <? b)%N with false by (symmetry; apply N.ltb_ge; nlia) ]
         | |- context [(?a <=? ?b)%N] =>
             first [ replace (a <=? b)%N with true by (symmetry; apply N.leb_le; nlia)
                   | replace (a <=? b)%N with false by (symmetry; apply N.leb_gt; nlia) ]
         end.

Lemma byte_to_of_N n : (n < 256)%N → Byte.to_N (byte_of_N n) = n.
Proof.
  intros Hn. unfold byte_of_N.
  destruct (Byte.of_N n) as [b |] eqn:Hb; simpl.
  - by apply Byte.to_of_N.
  - apply Byte.of_N_None_iff in Hb. lia.
Qed.

Lemma bytes_back (l : list N) :
  Forall (fun b => (b < 256)%N) l → Byte.to_N <$> (byte_of_N <$> l) = l.
Proof.
  induction 1 as [| b l Hb _ IH]; [done |].
  rewrite !fmap_cons, byte_to_of_N by done. by rewrite IH.
Qed.

Lemma utf8_encode_char_bytes c :
  isScalar c = true → Forall (fun b => (b < 256)%N) (utf8_encode_char c).
Proof.
  unfold isScalar, utf8_encode_char. intros Hc.
  destruct (c <? 128)%N eqn:E1; [| destruct (c <? 2048)%N eqn:E2;
                                    [| destruct (c <? 65536)%N eqn:E3]];
    bool_to_prop; repeat constructor; nlia.
Qed.

Lemma utf8_encode_bytes text :
  Forall (fun c => isScalar c = true) text →
  Forall (fun b => (b < 256)%N) (utf8_encode text).
Proof.
  induction 1 as [| c text Hc _ IH]; [constructor |].
  unfold utf8_encode in *. rewrite bind_cons. apply Forall_app. split; [| exact IH].
  by apply utf8_encode_char_bytes.
Qed.

Lemma utf8_decode_1 b0 rest :
  (b0 < 128)%N → utf8_decode (b0 :: rest) = cons b0 <$> utf8_decode rest.
Proof.
  intros H. apply N.ltb_lt in H. cbn [utf8_decode]. by rewrite H.
Qed.

Lemma utf8_decode_2 b0 b1 rest :
  (194 ≤ b0 ≤ 223)%N → (128 ≤ b1 ≤ 191)%N →
  utf8_decode (b0 :: b1 :: rest)
  = cons ((b0 - 192) * 64 + (b1 - 128))%N <$> utf8_decode rest.
Proof.
  intros H0 H1. cbn [utf8_decode]. unfold continuation.
  settle_tests. reflexivity.
Qed.

Lemma utf8_decode_3 b0 b1 b2 rest :
  (224 ≤ b0 ≤ 239)%N → (128 ≤ b1 ≤ 191)%N → (128 ≤ b2 ≤ 191)%N →
  (b0 = 224 → 160 ≤ b1)%N → (b0 = 237 → b1 ≤ 159)%N →
  utf8_decode (b0 :: b1 :: b2 :: rest)
  = cons ((b0 - 224) * 4096 + (b1 - 128) * 64 + (b2 - 128))%N <$> utf8_decode rest.
Proof.
  intros H0 H1 H2 Hlow Hhigh. cbn [utf8_decode]. unfold second3, continuation.
  destruct (b0 =? 224)%N eqn:E1; [| destruct (b0 =? 237)%N eqn:E2]; bool_to_prop;
    try specialize (Hlow E1); try specialize (Hhigh E2);
    settle_tests; reflexivity.
Qed.

Lemma utf8_decode_4 b0 b1 b2 b3 rest :
  (240 ≤ b0 ≤ 244)%N → (128 ≤ b1 ≤ 191)%N → (128 ≤ b2 ≤ 191)%N →
  (128 ≤ b3 ≤ 191)%N →
  (b0 = 240 → 144 ≤ b1)%N → (b0 = 244 → b1 ≤ 143)%N →
  utf8_decode (b0 :: b1 :: b2 :: b3 :: rest)
  = cons ((b0 - 240) * 262144 + (b1 - 128) * 4096 + (b2 - 128) * 64 + (b3 - 128))%N
      <$> utf8_decode rest.
Proof.
  intros H0 H1 H2 H3 Hlow Hhigh. cbn [utf8_decode]. unfold second4, continuation.
  destruct (b0 =? 240)%N eqn:E1; [| destruct (b0 =? 244)%N eqn:E2]; bool_to_prop;
    try specialize (Hlow E1); try specialize (Hhigh E2);
    settle_tests; reflexivity.
Qed.

Lemma utf8_decode_encode_char c rest :
  isScalar c = true →
  utf8_decode (utf8_encode_char c ++ rest) = cons c <$> utf8_decode rest.
Proof.
  unfold isScalar, utf8_encode_char. intros Hc.
  destruct (c <? 128)%N eqn:E1; [| destruct (c <? 2048)%N eqn:E2;
                                    [| destruct (c <? 65536)%N eqn:E3]];
    bool_to_prop; cbn [app];
    first [ by apply utf8_decode_1
          | exfalso; nlia
          | rewrite utf8_decode_2 by nlia
          | rewrite utf8_decode_3 by nlia
          | rewrite utf8_decode_4 by nlia ];
    f_equal; f_equal; nlia.
Qed.

Lemma utf8_decode_encode text :
  Forall (fun c => isScalar c = true) text →
  utf8_decode (utf8_encode text) = Some text.
Proof.
  induction 1 as [| c text Hc _ IH]; [done |].
  unfold utf8_encode in *. rewrite bind_cons, utf8_decode_encode_char by done.
  by rewrite IH.
Qed.

Lemma lineSeparators_scalar text :
  Forall (fun c => isScalar c = true) text →
  Forall (fun c => isScalar c = true) (lineSeparators text).
Proof.
  induction 1 as [| c text Hc _ IH]; [constructor |].
  unfold lineSeparators in *. rewrite bind_cons. apply Forall_app. split; [| exact IH].
  destruct (c =? 10)%N; repeat constructor; done.
Qed.

Lemma universalNewlines_lineSeparators text :
  13%N ∉ text → universalNewlines (lineSeparators text) = text.
Proof.
  induction text as [| c text IH]; [done |].
  rewrite not_elem_of_cons. intros [Hc Ht].
  unfold lineSeparators in *. rewrite bind_cons.
  destruct (c =? 10)%N eqn:E; bool_to_prop; cbn [app universalNewlines].
  - subst c. change (13 =? 13)%N with true. change (10 =? 10)%N with true.
    cbn beta iota. by rewrite IH.
  - replace (c =? 13)%N with false by (symmetry; apply N.eqb_neq; congruence).
    by rewrite IH.
Qed.

Lemma readText_writeText text :
  Forall (fun c => isScalar c = true) text →
  13%N ∉ text →
  readText (writeText text) = Some text.
Proof.
  intros Hscalar Hcr. unfold readText, writeText.
  rewrite bytes_back by (apply utf8_encode_bytes; by apply lineSeparators_scalar).
  rewrite utf8_decode_encode by (by apply lineSeparators_scalar).
  simpl. by rewrite universalNewlines_lineSeparators.
Qed.

Lemma readText_nil : readText [] = Some [].
Proof. reflexivity. Qed.

(** ** The severity model *)


Lemma isEnabledFor_OFF level :
  isEnabledFor OFF level = bool_decide (OFF ≤ level).
Proof.
  unfold isEnabledFor, OFF. repeat case_bool_decide; simpl; try done; lia.
Qed.

Lemma Logger_log_disabled env f level msg exc_info kw st :
  isEnabledFor (rootLevel st) level = false →
  Logger_log env f level msg exc_info kw st = (Ok tt, st).
Proof. intros H. unfold Logger_log. py_unfold. by rewrite H. Qed.

(** C2, as the specification states it, fails: [IO] is 12 and [DEBUG] is 10. *)
Lemma spec_level_order_fails :
  ¬ (IO < DEBUG ∧ DEBUG < DEBUGWARNING ∧ DEBUGWARNING < INFO ∧ INFO < WARNING
     ∧ WARNING < ERROR ∧ ERROR < CRITICAL ∧ CRITICAL < OFF).
Proof. unfold IO, DEBUG. lia. Qed.

(** C2 (amended): the levels are totally ordered by their numbers as
    DEBUG < IO < DEBUGWARNING < INFO < WARNING < ERROR < CRITICAL < OFF, and
    [OFF] is above every other level: with the threshold at [OFF], a log call
    at any of the seven levels below it is refused and leaves the state,
    sinks included, as it was. *)
Theorem level_order_and_OFF_sentinel :
  DEBUG < IO ∧ IO < DEBUGWARNING ∧ DEBUGWARNING < INFO ∧ INFO < WARNING
  ∧ WARNING < ERROR ∧ ERROR < CRITICAL ∧ CRITICAL < OFF
  ∧ Forall (fun level =>
              level < OFF
              ∧ isEnabledFor OFF level = false
              ∧ ∀ env f msg exc_info kw st,
                  Logger_log env f level msg exc_info kw (set_rootLevel OFF st)
                  = (Ok tt, set_rootLevel OFF st))
           [DEBUG; IO; DEBUGWARNING; INFO; WARNING; ERROR; CRITICAL].
Proof.
  repeat split; try (cbv; reflexivity).
  repeat constructor; try (cbv; reflexivity);
    intros; by apply Logger_log_disabled.
Qed.

(** ** The exception classifier *)

Lemma expectedWinErrors_spec rpc w :
  w ∈ expectedWinErrors rpc ↔ w ∈ S_CALL_FAILED_DNE rpc :: spec_expectedWinErrors rpc.
Proof.
  unfold expectedWinErrors, spec_expectedWinErrors.
  rewrite !elem_of_cons, !elem_of_nil. tauto.
Qed.

Lemma isExpected_spec rpc e :
  isExpected rpc (Some e) = true
  ↔ spec_expected rpc (S_CALL_FAILED_DNE rpc :: spec_expectedWinErrors rpc) e.
Proof.
  unfold isExpected, spec_expected.
  rewrite !orb_true_iff, !andb_true_iff, orb_true_iff, !bool_decide_eq_true.
  split.
  - intros [[[Hw Hc] | Hcom] | Hcc]; [left | right; left | right; right]; try done.
    split; [done |]. destruct (winerror e) as [w |]; [| done].
    exists w. split; [done |]. apply expectedWinErrors_spec.
    by apply bool_decide_eq_true in Hc.
  - intros [[Hw (w & Hwe & Hin)] | [Hcom | Hcc]]; [left; left | left; right | right]; try done.
    split; [done |]. rewrite Hwe. apply bool_decide_eq_true.
    by apply expectedWinErrors_spec.
Qed.

Lemma Logger_exception_unfold env f msg exc_info kw st :
  Logger_exception env f msg exc_info kw st =
    let level := exceptionLevel (RPC env) (excOf exc_info st) in
    if isEnabledFor (rootLevel st) level
    then Logger__log env f level msg (Some (resolveExcInfo exc_info st)) kw st
    else (Ok tt, st).
Proof.
  unfold Logger_exception. py_unfold. simpl.
  by destruct (isEnabledFor _ _).
Qed.

(** C1, as the specification states it, fails: a platform error that carries
    the code of an RPC call that failed and did not execute is logged at the
    low severity, and that code is none of the five the specification lists. *)
Lemma spec_classifier_misses_call_failed_dne :
  let e := {| exc_class := WindowsError; winerror := Some 1727; hresult := 0 |} in
  exceptionLevel RPC_windows (Some e) = DEBUGWARNING
  ∧ ¬ spec_expected RPC_windows (spec_expectedWinErrors RPC_windows) e.
Proof.
  split; [reflexivity |].
  intros [[_ (w & Hw & Hin)] | [[Hcom _] | Hcc]]; [| done | done].
  simpl in Hw. simplify_eq.
  unfold spec_expectedWinErrors in Hin.
  rewrite !elem_of_cons, elem_of_nil in Hin. simpl in Hin.
  unfold ERROR_INVALID_WINDOW_HANDLE, ERROR_TIMEOUT, EPT_S_NOT_REGISTERED in Hin. lia.
Qed.

(** C1 (amended): [Logger.exception] logs at the severity chosen from the
    exception alone. The severity is DEBUGWARNING exactly when the exception
    is a platform error whose code is one of the five the specification lists
    or the code of an RPC call that failed and did not execute, or a COM error
    whose result code is in the second allow-list or whose low 16 bits are
    the RPC-server-unavailable code, or an operation-cancelled exception; for
    every other exception, a class freshly derived from [Exception] included,
    and when there is no exception at all, it is ERROR. *)
Theorem exception_severity env f msg exc_info kw st :
  let exc := excOf exc_info st in
  let level := exceptionLevel (RPC env) exc in
  Logger_exception env f msg exc_info kw st
    = (if isEnabledFor (rootLevel st) level
       then Logger__log env f level msg (Some (resolveExcInfo exc_info st)) kw st
       else (Ok tt, st))
  ∧ (level = DEBUGWARNING
     ↔ ∃ e, exc = Some e
            ∧ spec_expected (RPC env)
                (S_CALL_FAILED_DNE (RPC env) :: spec_expectedWinErrors (RPC env)) e)
  ∧ (level = DEBUGWARNING ∨ level = ERROR)
  ∧ (∀ name w h,
       exceptionLevel (RPC env)
         (Some {| exc_class := UserException name Exception;
                  winerror := w; hresult := h |}) = ERROR).
Proof.
  intros exc level. split; [apply Logger_exception_unfold |].
  subst level. unfold exceptionLevel. repeat split.
  - destruct exc as [e |].
    + destruct (isExpected (RPC env) (Some e)) eqn:He; [| done].
      intros _. exists e. split; [done |]. by apply isExpected_spec.
    + simpl. done.
  - intros (e & -> & He). apply isExpected_spec in He. by rewrite He.
  - destruct (isExpected _ _); auto.
Qed.

(** ** The level policy: the forced state *)

Lemma isLogLevelForced_spec st :
  isLogLevelForced st = true
  ↔ secure (appArgs st) = true ∨ debugLogging (appArgs st) = true
    ∨ logLevel (appArgs st) ≠ 0 ∨ noLogging (appArgs st) = true.
Proof.
  unfold isLogLevelForced.
  rewrite !orb_true_iff, bool_decide_eq_true. tauto.
Qed.

(** C3: when secure mode is active, the debug-logging flag was given, a level
    other than 0 was given, or logging was disabled by flag, the level is
    forced and [setLogLevelFromConfig] returns at once: the threshold, the
    configuration, the sinks and every other part of the state are as before. *)
Theorem setLogLevelFromConfig_forced env st :
  secure (appArgs st) = true ∨ debugLogging (appArgs st) = true
  ∨ logLevel (appArgs st) ≠ 0 ∨ noLogging (appArgs st) = true →
  isLogLevelForced st = true
  ∧ setLogLevelFromConfig env st = (Ok tt, st).
Proof.
  intros H. apply isLogLevelForced_spec in H. split; [done |].
  unfold setLogLevelFromConfig. py_unfold. by rewrite H.
Qed.

(** ** Secure mode *)

Lemma quietStep_refl st : quietStep st st.
Proof. exists []. by rewrite app_nil_r. Qed.

Lemma callHandlers_quiet env record st :
  quietStep st (snd (callHandlers env record st)).
Proof.
  unfold callHandlers, FileHandler_handle, Handler_handle,
    filterExternalDependencyLogging, FileHandler_emit, RemoteHandler_emit,
    notifyErrorSound.
  py_unfold.
  repeat (case_match; simplify_eq/=); try apply quietStep_refl;
    rewrite <- ?app_assoc; eexists; (split; [reflexivity | repeat constructor]).
Qed.

Lemma super__log_quiet env level msg exc_info codepath st :
  quietStep st (snd (super__log env level msg exc_info codepath st)).
Proof.
  unfold super__log. py_unfold. simpl.
  set (record := makeRecord level msg exc_info codepath st).
  set (st1 := set_trace (trace st ++ [EvRecord record]) st).
  destruct (callHandlers_quiet env record st1) as (evs & Htrace & Hevs).
  exists (EvRecord record :: evs). split.
  - destruct (callHandlers env record st1) as [[] st2]; simpl in *;
      rewrite Htrace; simpl; by rewrite <- app_assoc.
  - by constructor.
Qed.

Lemma Logger__log_secure env f level msg exc_info kw st :
  secure (appArgs st) = true →
  quietStep st (snd (Logger__log env f level msg exc_info kw st)).
Proof.
  intros Hsec. unfold Logger__log. py_unfold.
  assert (∀ cp m, quietStep st (snd
            (match super__log env level m exc_info cp st with
             | (Ok _, st') => (Ok tt, st')
             | (Raise e, st') => (Raise e, st')
             end))) as Hcall.
  { intros cp m. pose proof (super__log_quiet env level m exc_info cp st) as Hq.
    destruct (super__log _ _ _ _ _ _) as [[] ?]; exact Hq. }
  destruct (kw_codepath kw) as [cp |]; [case_bool_decide |];
    try destruct (getCodePath _ _); simpl; rewrite ?Hsec; simpl;
    first [ apply quietStep_refl | apply Hcall ].
Qed.

Lemma guarded_log_secure env f level msg exc_info kw st (enabled : bool) :
  secure (appArgs st) = true →
  quietStep st (snd (if enabled then Logger__log env f level msg exc_info kw st
                     else (Ok tt, st))).
Proof.
  intros Hsec. destruct enabled; [by apply Logger__log_secure | apply quietStep_refl].
Qed.

(** C5: in secure mode [markFragmentStart] returns [False] and stores no
    mark, [getFragment] returns [None], and whatever a log call is given -
    [activateLogViewer=True] included - the events it adds to the trace hold
    no activation, cursor move or refresh of the log viewer. *)
Theorem secure_mode_guard env st :
  secure (appArgs st) = true →
  markFragmentStart st = (Ok false, st)
  ∧ getFragment st = (Ok None, st)
  ∧ ∀ f level msg exc_info exc kw,
      quietStep st (snd (Logger__log env f level msg exc_info kw st))
      ∧ quietStep st (snd (Logger_log env f level msg exc_info kw st))
      ∧ quietStep st (snd (Logger_exception env f msg exc kw st))
      ∧ quietStep st (snd (Logger_debugWarning env f msg exc_info kw st))
      ∧ quietStep st (snd (Logger_io env f msg exc_info kw st)).
Proof.
  intros Hsec. split; [| split].
  - unfold markFragmentStart. py_unfold. simpl. by rewrite Hsec.
  - unfold getFragment. py_unfold. simpl. rewrite Hsec. by destruct (fragmentStart st).
  - intros f level msg exc_info exc kw. repeat split.
    + by apply Logger__log_secure.
    + unfold Logger_log. py_unfold.
      destruct (isEnabledFor _ _); simpl; [by apply Logger__log_secure | apply quietStep_refl].
    + rewrite Logger_exception_unfold. by apply guarded_log_secure.
    + unfold Logger_debugWarning. py_unfold.
      destruct (isEnabledFor _ _); simpl; [by apply Logger__log_secure | apply quietStep_refl].
    + unfold Logger_io. py_unfold.
      destruct (isEnabledFor _ _); simpl; [by apply Logger__log_secure | apply quietStep_refl].
Qed.

(** ** Fragments of the log file *)

Lemma markFragmentStart_ok st st' :
  markFragmentStart st = (Ok true, st') →
  ∃ name content,
    logFileName (appArgs st) = Some name
    ∧ files st !! name = Some content
    ∧ st' = set_fragmentStart (Some (length content)) st
    ∧ canMark st.
Proof.
  unfold markFragmentStart, openLogFile, canMark. py_unfold.
  intros H. cbn beta iota in H. simpl in H.
  destruct (secure (appArgs st)) eqn:Hsec; simpl in H; [simplify_eq |].
  destruct (logFileName (appArgs st)) as [name |] eqn:Hname; simpl in H; [| simplify_eq].
  case_bool_decide; simpl in H; [| simplify_eq].
  destruct (isFileHandler (logHandler st)) eqn:Hh; simpl in H; [| simplify_eq].
  rewrite Hname in H.
  destruct (files st !! name) as [content |] eqn:Hf; simpl in H; [| simplify_eq].
  simplify_eq. exists name, content. eauto 10.
Qed.

Lemma getFragment_marked st name content start :
  canMark st →
  logFileName (appArgs st) = Some name →
  files st !! name = Some content →
  fragmentStart st = Some start →
  getFragment st
  = match readText (drop start content) with
    | None => (Raise UnicodeDecodeError, st)
    | Some fragment =>
        (Ok (Some fragment),
         if bool_decide (fragment ≠ []) then set_fragmentStart None st else st)
    end.
Proof.
  intros (Hsec & (name' & Hname' & Hne) & Hh) Hname Hf Hstart.
  rewrite Hname in Hname'. simplify_eq.
  unfold getFragment, openLogFile. py_unfold. simpl.
  rewrite Hstart, Hsec, Hname, Hh. simpl.
  rewrite bool_decide_true by done. simpl. rewrite Hname, Hf.
  destruct (readText (drop start content)) as [fragment |]; [| done].
  by case_bool_decide.
Qed.

(** C4, as the specification states it, fails: the log file is read as
    text. A text with a carriage return, written to the file after the mark
    by a writer of text, comes back with a line feed in its place; and when
    the appended bytes are no UTF-8, [getFragment] raises and the mark is
    still set. *)
Lemma fragment_is_not_the_appended_text :
  let st1 := set_fragmentStart (Some 0%nat) sampleState in
  let written := appendFile "nvda.log" (writeText textWithCR) st1 in
  let broken := appendFile "nvda.log" strayByte st1 in
  markFragmentStart sampleState = (Ok true, st1)
  ∧ textWithCR = [97; 13; 98]%N
  ∧ getFragment written = (Ok (Some [97; 10; 98]%N), set_fragmentStart None written)
  ∧ getFragment broken = (Raise UnicodeDecodeError, broken)
  ∧ fragmentStart broken = Some 0%nat.
Proof. repeat split; reflexivity. Qed.

(** C4 (amended): once [markFragmentStart] has succeeded, the mark [P] is the
    length of the log file in bytes at that moment. If bytes are appended
    then that are the UTF-8 encoding of a text, [getFragment] returns that
    text with every CR LF and CR replaced by LF and clears the mark: for a
    text without carriage return that a writer of text appended, it returns
    exactly the text. If the appended bytes are no UTF-8, it raises
    UnicodeDecodeError and the mark stays. If nothing was appended, it
    returns the empty text and changes nothing: the mark is still [P], and a
    later call, made after something was appended at last, returns what was
    written from [P] on. *)
Theorem fragment_roundtrip st st1 :
  markFragmentStart st = (Ok true, st1) →
  ∃ name content,
    logFileName (appArgs st) = Some name
    ∧ files st !! name = Some content
    ∧ fragmentStart st1 = Some (length content)
    ∧ (∀ data text, readText data = Some text → text ≠ [] →
         getFragment (appendFile name data st1)
         = (Ok (Some text), set_fragmentStart None (appendFile name data st1)))
    ∧ (∀ text, Forall (fun c => isScalar c = true) text → 13%N ∉ text → text ≠ [] →
         getFragment (appendFile name (writeText text) st1)
         = (Ok (Some text),
            set_fragmentStart None (appendFile name (writeText text) st1)))
    ∧ (∀ data, readText data = None →
         getFragment (appendFile name data st1)
         = (Raise UnicodeDecodeError, appendFile name data st1))
    ∧ getFragment st1 = (Ok (Some []), st1)
    ∧ (∀ data text, readText data = Some text → text ≠ [] →
         getFragment (appendFile name data (snd (getFragment st1)))
         = (Ok (Some text), set_fragmentStart None (appendFile name data st1))).
Proof.
  intros Hmark.
  destruct (markFragmentStart_ok _ _ Hmark) as (name & content & Hname & Hf & -> & Hcan).
  set (st1 := set_fragmentStart (Some (length content)) st).
  assert (∀ data,
    getFragment (appendFile name data st1)
    = match readText data with
      | None => (Raise UnicodeDecodeError, appendFile name data st1)
      | Some fragment =>
          (Ok (Some fragment),
           if bool_decide (fragment ≠ [])
           then set_fragmentStart None (appendFile name data st1)
           else appendFile name data st1)
      end) as Happ.
  { intros data.
    rewrite (getFragment_marked _ name (content ++ data) (length content)); try done.
    - by rewrite drop_app_length.
    - simpl. rewrite Hf. simpl. by rewrite lookup_insert_eq. }
  assert (∀ data text, readText data = Some text → text ≠ [] →
    getFragment (appendFile name data st1)
    = (Ok (Some text), set_fragmentStart None (appendFile name data st1))) as Htext.
  { intros data text Hread Hne. rewrite Happ, Hread. by rewrite bool_decide_true. }
  assert (getFragment st1 = (Ok (Some []), st1)) as Hempty.
  { rewrite (getFragment_marked _ name content (length content)); try done.
    rewrite drop_all, readText_nil. by rewrite bool_decide_false by (intros ?; done). }
  exists name, content. repeat split; try done.
  - intros text Hscalar Hcr Hne. apply Htext; [| done].
    by apply readText_writeText.
  - intros data Hread. by rewrite Happ, Hread.
  - intros data text Hread Hne. rewrite Hempty. simpl. by apply Htext.
Qed.

(** ** What a log call of [log] leaves in the sinks *)

Lemma recordsOf_app evs1 evs2 :
  recordsOf (evs1 ++ evs2) = recordsOf evs1 ++ recordsOf evs2.
Proof. apply omap_app. Qed.

Lemma callHandlers_nvda env record st :
  rec_name record = NVDA_LOGGER_NAME →
  ∃ st',
    callHandlers env record st = (Ok tt, st')
    ∧ recordsOf (trace st') = recordsOf (trace st)
    ∧ sameSettings st st'.
Proof.
  intros Hname.
  unfold callHandlers, FileHandler_handle, Handler_handle,
    filterExternalDependencyLogging, FileHandler_emit, RemoteHandler_emit,
    notifyErrorSound, sameSettings.
  py_unfold.
  destruct (logHandler st) as [[| baseFilename |] |] eqn:Hh; simpl;
    rewrite ?(bool_decide_true (rec_name record = NVDA_LOGGER_NAME)) by done;
    repeat case_match; simplify_eq/=;
    eexists; (split; [reflexivity |]); simpl;
    rewrite ?recordsOf_app, ?app_nil_r; simpl; rewrite ?app_nil_r; try done.
Qed.

Lemma super__log_nvda env level msg exc_info codepath st :
  ∃ st',
    super__log env level msg exc_info codepath st = (Ok tt, st')
    ∧ recordsOf (trace st')
      = recordsOf (trace st) ++ [makeRecord level msg exc_info codepath st]
    ∧ sameSettings st st'.
Proof.
  unfold super__log. py_unfold. simpl.
  set (record := makeRecord level msg exc_info codepath st).
  set (st1 := set_trace (trace st ++ [EvRecord record]) st).
  destruct (callHandlers_nvda env record st1) as (st' & Hcall & Hrec & Hsame); [done |].
  exists st'. rewrite Hcall. split; [done |]. split; [| done].
  rewrite Hrec. subst st1. simpl. by rewrite recordsOf_app.
Qed.

Lemma Logger__log_plain env f level msg exc_info codepath st :
  getCodePath (paths env) f = Ok codepath →
  ∃ st',
    Logger__log env f level msg exc_info noKwargs st = (Ok tt, st')
    ∧ recordsOf (trace st')
      = recordsOf (trace st) ++ [makeRecord level msg exc_info codepath st]
    ∧ sameSettings st st'.
Proof.
  intros Hcp. unfold Logger__log. py_unfold. simpl. rewrite Hcp. simpl.
  destruct (super__log_nvda env level msg exc_info codepath st)
    as (st' & Hlog & Hrec & Hsame).
  exists st'. split; [| done].
  destruct (secure (appArgs st)); simpl; by rewrite Hlog.
Qed.

Lemma isPathExternalToNVDA_total penv path :
  path ≠ "" → ∃ ext, isPathExternalToNVDA penv path = Ok ext.
Proof. destruct path; [done |]. intros _. simpl. eauto. Qed.

Lemma getCodePath_setLogLevelFromConfig env :
  logHandler_file env ≠ "" →
  ∃ ext,
    isPathExternalToNVDA (paths env) (logHandler_file env) = Ok ext
    ∧ getCodePath (paths env) (frame_setLogLevelFromConfig env)
      = Ok ((if ext : bool then "external:" else "")
            +:+ "logHandler.setLogLevelFromConfig").
Proof.
  intros Hfile.
  destruct (isPathExternalToNVDA_total (paths env) _ Hfile) as [ext Hext].
  exists ext. split; [done |].
  unfold getCodePath, modulePath. simpl. rewrite Hext. simpl.
  by destruct ext.
Qed.

Lemma getCodePath_threadExceptHook env excInfoObj :
  logHandler_file env ≠ "" →
  ∃ codepath,
    getCodePath (paths env) (frame_threadExceptHook env excInfoObj) = Ok codepath.
Proof.
  intros Hfile.
  destruct (isPathExternalToNVDA_total (paths env) _ Hfile) as [ext Hext].
  unfold getCodePath, modulePath, classSegment. simpl. rewrite Hext. simpl.
  rewrite lookup_singleton_eq. simpl. eauto.
Qed.

(** ** The file sink and its alerts *)

(** C9, as the specification states it, fails: for a CRITICAL record the file
    sink sounds the system alert and does not notify the audible-alert
    subsystem, although the record is above ERROR and alerts are enabled. *)
Lemma critical_record_beeps_without_notifying :
  let record := {| rec_name := "nvda"; levelno := CRITICAL; rec_msg := "core failure";
                   rec_codepath := Some "core.main"; rec_exc_info := None |} in
  ERROR ≤ levelno record
  ∧ shouldPlayErrorSound sampleEnv sampleState = true
  ∧ trace (snd (FileHandler_handle sampleEnv "nvda.log" record sampleState))
    = [EvMessageBeep; EvWrite "nvda.log" record]
  ∧ EvErrorSoundNotify
    ∉ trace (snd (FileHandler_handle sampleEnv "nvda.log" record sampleState)).
Proof.
  intros record. split; [by compute |]. split; [reflexivity |].
  assert (trace (snd (FileHandler_handle sampleEnv "nvda.log" record sampleState))
          = [EvMessageBeep; EvWrite "nvda.log" record]) as Htrace by reflexivity.
  split; [done |]. rewrite Htrace.
  rewrite !not_elem_of_cons. repeat split; try done. apply not_elem_of_nil.
Qed.

(** C9 (amended): for every record handed to the file sink, a record at
    CRITICAL or above sounds the system alert - and only that - before it is
    written; a record at ERROR or above and below CRITICAL notifies the
    audible-alert subsystem before it is written exactly when alert-on-error
    is enabled; a record below ERROR raises no alert of either kind. *)
Theorem file_sink_alerts env baseFilename record st :
  let st' := snd (FileHandler_handle env baseFilename record st) in
  (CRITICAL ≤ levelno record →
     trace st' = trace st ++ [EvMessageBeep; EvWrite baseFilename record])
  ∧ (ERROR ≤ levelno record ∧ levelno record < CRITICAL →
     trace st'
     = trace st
       ++ (if shouldPlayErrorSound env st then [EvErrorSoundNotify] else [])
       ++ [EvWrite baseFilename record])
  ∧ (levelno record < ERROR →
     ∃ evs, trace st' = trace st ++ evs
            ∧ (EvMessageBeep ∉ evs) ∧ (EvErrorSoundNotify ∉ evs)).
Proof.
  unfold FileHandler_handle, Handler_handle, filterExternalDependencyLogging,
    FileHandler_emit, notifyErrorSound.
  py_unfold. unfold CRITICAL, ERROR, WARNING. simpl. repeat split.
  - intros Hcrit. rewrite bool_decide_true by done. simpl.
    case_bool_decide; simpl; [by rewrite <- app_assoc |].
    rewrite bool_decide_true by lia. simpl. by rewrite <- app_assoc.
  - intros [Herr Hcrit]. rewrite bool_decide_false by lia.
    rewrite bool_decide_true by done. simpl.
    destruct (shouldPlayErrorSound env st); simpl;
      (case_bool_decide; simpl; [| rewrite bool_decide_true by lia; simpl]);
      by rewrite <- ?app_assoc.
  - intros Hlow. rewrite bool_decide_false by lia.
    rewrite bool_decide_false by lia. simpl.
    repeat (case_match; simplify_eq/=);
      first [ exists []; rewrite app_nil_r; split; [done |]; split; apply not_elem_of_nil
            | eexists; split; [reflexivity |];
              rewrite !not_elem_of_cons; repeat split; try done; apply not_elem_of_nil ].
Qed.

(** ** The thread exception hook *)

Lemma threadExceptHook_unfold env excInfoObj st :
  exc_type excInfoObj ≠ SystemExit →
  _threadExceptHook env excInfoObj st
  = Logger_exception env (frame_threadExceptHook env excInfoObj)
      (threadMessage excInfoObj)
      (ExcInfoTuple (Some (exc_type excInfoObj)) (exc_value excInfoObj))
      noKwargs st.
Proof.
  intros Hty. unfold _threadExceptHook, threadMessage.
  by rewrite bool_decide_false by done.
Qed.

(** C8, as the specification states it, fails: an operation-cancelled
    exception that escapes a worker thread is no exit signal, yet under the
    default threshold INFO the hook leaves no record, and under the threshold
    DEBUG it leaves one record at DEBUGWARNING, not at ERROR. *)
Lemma cancelled_thread_leaves_no_error_record :
  let excInfoObj := cancelledInWorker in
  exc_type excInfoObj ≠ SystemExit
  ∧ recordsOf (trace (snd (_threadExceptHook sampleEnv excInfoObj sampleState))) = []
  ∧ levelno <$> recordsOf (trace (snd (_threadExceptHook sampleEnv excInfoObj
                                         (set_rootLevel DEBUG sampleState))))
    = [DEBUGWARNING].
Proof. split; [done |]. split; reflexivity. Qed.

(** C8 (amended): the thread exception hook leaves no record and changes
    nothing when the exception type is [SystemExit] itself. Otherwise it hands
    the exception to [Logger.exception] with a message that names the failing
    thread (an empty message when no thread is known): the logger makes
    exactly one record, carrying that message, when the level the classifier
    chooses - ERROR, or DEBUGWARNING for an expected exception - is enabled
    under the threshold, and no record otherwise. *)
Theorem threadExceptHook_records env excInfoObj st :
  logHandler_file env ≠ "" →
  (exc_type excInfoObj = SystemExit →
     _threadExceptHook env excInfoObj st = (Ok tt, st))
  ∧ (exc_type excInfoObj ≠ SystemExit →
     ∃ codepath st',
       _threadExceptHook env excInfoObj st = (Ok tt, st')
       ∧ let level := exceptionLevel (RPC env) (exc_value excInfoObj) in
         let record :=
           {| rec_name := NVDA_LOGGER_NAME;
              levelno := level;
              rec_msg := match thread excInfoObj with
                         | Some name => "Exception in thread " +:+ name +:+ ":" +:+ newline
                         | None => ""
                         end;
              rec_codepath := Some codepath;
              rec_exc_info := Some (Some (exc_type excInfoObj), exc_value excInfoObj) |} in
         (level = ERROR ∨ level = DEBUGWARNING)
         ∧ (level = ERROR ↔ isExpected (RPC env) (exc_value excInfoObj) = false)
         ∧ recordsOf (trace st')
           = recordsOf (trace st)
             ++ (if isEnabledFor (rootLevel st) level then [record] else [])).
Proof.
  intros Hfile. split.
  - intros Hty. unfold _threadExceptHook. by rewrite bool_decide_true by done.
  - intros Hty. rewrite threadExceptHook_unfold by done.
    rewrite Logger_exception_unfold. simpl.
    destruct (getCodePath_threadExceptHook env excInfoObj Hfile) as [codepath Hcp].
    exists codepath.
    set (level := exceptionLevel (RPC env) (exc_value excInfoObj)).
    assert (level = ERROR ∨ level = DEBUGWARNING) as Hlevel.
    { subst level. unfold exceptionLevel. destruct (isExpected _ _); auto. }
    assert (level = ERROR ↔ isExpected (RPC env) (exc_value excInfoObj) = false) as Hiff.
    { subst level. unfold exceptionLevel. by destruct (isExpected _ _). }
    destruct (isEnabledFor (rootLevel st) level) eqn:Hen; simpl.
    + destruct (Logger__log_plain env (frame_threadExceptHook env excInfoObj) level
                  (threadMessage excInfoObj)
                  (Some (ExcInfoTuple (Some (exc_type excInfoObj)) (exc_value excInfoObj)))
                  codepath st Hcp) as (st' & Hlog & Hrec & _).
      exists st'. split; [done |]. split; [done |]. split; [done |].
      by rewrite Hrec.
    + exists st. split; [done |]. split; [done |]. split; [done |].
      by rewrite app_nil_r.
Qed.

(** ** The level policy: the configurable state *)

Lemma levelUnsupported_spec levelName :
  levelUnsupported (getLevelName_ofName levelName) = true
  ↔ levelName ∉ ["IO"; "DEBUG"; "DEBUGWARNING"; "INFO"; "OFF"].
Proof.
  unfold getLevelName_ofName, nameToLevel. simpl.
  repeat (case_decide;
          [ subst levelName; simpl; rewrite !not_elem_of_cons; split;
            [ intros Hx; first [ discriminate Hx | repeat split; try done; apply not_elem_of_nil ]
            | intros Hx; first [ reflexivity | exfalso; intuition congruence ] ]
          | ]).
  simpl. split; [intros _ | done].
  rewrite !not_elem_of_cons. repeat split; try done; try apply not_elem_of_nil.
Qed.

Lemma getLevelName_configurable levelName level :
  (levelName, level)
    ∈ [("IO", IO); ("DEBUG", DEBUG); ("DEBUGWARNING", DEBUGWARNING);
       ("INFO", INFO); ("OFF", OFF)] →
  getLevelName_ofName levelName = LevelNo level
  ∧ levelUnsupported (LevelNo level) = false.
Proof.
  rewrite !elem_of_cons, elem_of_nil.
  intros [H | [H | [H | [H | [H | []]]]]]; simplify_eq; by compute.
Qed.

Lemma Logger_warning_plain env f msg codepath st :
  getCodePath (paths env) f = Ok codepath →
  ∃ st',
    Logger_warning env f msg st = (Ok tt, st')
    ∧ recordsOf (trace st')
      = recordsOf (trace st)
        ++ (if isEnabledFor (rootLevel st) WARNING
            then [{| rec_name := NVDA_LOGGER_NAME; levelno := WARNING;
                     rec_msg := msg; rec_codepath := Some codepath;
                     rec_exc_info := None |}]
            else [])
    ∧ sameSettings st st'.
Proof.
  intros Hcp. unfold Logger_warning, Logger_log. py_unfold. simpl.
  destruct (isEnabledFor (rootLevel st) WARNING); simpl.
  - destruct (Logger__log_plain env f WARNING msg None codepath st Hcp)
      as (st' & Hlog & Hrec & Hsame).
    exists st'. by rewrite Hlog.
  - exists st. rewrite app_nil_r. by repeat split.
Qed.

Lemma Logger_warning_delivers env f msg codepath st :
  getCodePath (paths env) f = Ok codepath →
  isEnabledFor (rootLevel st) WARNING = true →
  let record := {| rec_name := NVDA_LOGGER_NAME; levelno := WARNING;
                   rec_msg := msg; rec_codepath := Some codepath;
                   rec_exc_info := None |} in
  ∃ st',
    Logger_warning env f msg st = (Ok tt, st')
    ∧ trace st' = trace st ++ EvRecord record :: delivered (logHandler st) record
    ∧ files st' = filesAfter env (logHandler st) record (files st)
    ∧ sameSettings st st'.
Proof.
  intros Hcp Hen record.
  unfold Logger_warning, Logger_log, Logger__log, super__log, callHandlers,
    FileHandler_handle, Handler_handle, filterExternalDependencyLogging,
    FileHandler_emit, RemoteHandler_emit, sameSettings.
  py_unfold. simpl. rewrite Hen, Hcp. simpl.
  destruct (secure (appArgs st)); simpl;
    destruct (logHandler st) as [[| baseFilename |] |] eqn:Hh; simpl;
    (eexists; split; [reflexivity |]); simpl;
    rewrite <- ?app_assoc; simpl; rewrite ?Hh; done.
Qed.

(** C7, as the specification states it, fails: in the configurable state
    with the threshold at OFF, an unknown level name is repaired - the
    threshold becomes INFO and the configured name "INFO" - but no warning
    is logged: the call of [log.warning] is made under the threshold still
    in force, makes no record and writes nothing to the log file. *)
Lemma invalid_level_name_at_threshold_OFF_logs_nothing :
  let st' := snd (setLogLevelFromConfig sampleEnv misconfiguredAtOFF) in
  isLogLevelForced misconfiguredAtOFF = false
  ∧ general_loggingLevel <$> conf misconfiguredAtOFF = Some "VERBOSE"
  ∧ fst (setLogLevelFromConfig sampleEnv misconfiguredAtOFF) = Ok tt
  ∧ rootLevel st' = INFO
  ∧ general_loggingLevel <$> conf st' = Some "INFO"
  ∧ trace st' = []
  ∧ files st' = files misconfiguredAtOFF.
Proof. repeat split; reflexivity. Qed.

(** C7 (amended): in the configurable state, a configured level name outside
    {IO, DEBUG, DEBUGWARNING, INFO, OFF} makes [setLogLevelFromConfig] call
    [log.warning], set the threshold to INFO and rewrite the configured name
    to "INFO", and it returns without raising. The warning is logged exactly
    when WARNING passes the threshold in force before the call: then the
    logger makes one WARNING record naming the setting and hands it to the
    sink in place - the file sink appends its rendering to the log file, the
    remote sink sends it - and otherwise, as under the threshold OFF, the
    trace and the files stay as they were. A name of the set makes it set
    the threshold to that level and change nothing else, the configuration
    included. *)
Theorem setLogLevelFromConfig_configurable env st c :
  logHandler_file env ≠ "" →
  isLogLevelForced st = false →
  conf st = Some c →
  let levelName := general_loggingLevel c in
  (levelName ∉ ["IO"; "DEBUG"; "DEBUGWARNING"; "INFO"; "OFF"] →
     ∃ codepath st',
       let record :=
         {| rec_name := NVDA_LOGGER_NAME; levelno := WARNING;
            rec_msg := "invalid setting for logging level: " +:+ levelName;
            rec_codepath := Some codepath; rec_exc_info := None |} in
       setLogLevelFromConfig env st = (Ok tt, st')
       ∧ rootLevel st' = INFO
       ∧ conf st'
         = Some {| general_loggingLevel := "INFO";
                   featureFlag_playErrorSound := featureFlag_playErrorSound c;
                   debugLog_externalPythonDependencies :=
                     debugLog_externalPythonDependencies c |}
       ∧ appArgs st' = appArgs st
       ∧ logHandler st' = logHandler st
       ∧ fragmentStart st' = fragmentStart st
       ∧ (isEnabledFor (rootLevel st) WARNING = true →
          trace st' = trace st ++ EvRecord record :: delivered (logHandler st) record
          ∧ files st' = filesAfter env (logHandler st) record (files st))
       ∧ (isEnabledFor (rootLevel st) WARNING = false →
          trace st' = trace st ∧ files st' = files st))
  ∧ (∀ level,
       (levelName, level)
         ∈ [("IO", IO); ("DEBUG", DEBUG); ("DEBUGWARNING", DEBUGWARNING);
            ("INFO", INFO); ("OFF", OFF)] →
       setLogLevelFromConfig env st = (Ok tt, set_rootLevel level st)).
Proof.
  intros Hfile Hforced Hconf levelName. split.
  - intros Hname. apply levelUnsupported_spec in Hname.
    destruct (getCodePath_setLogLevelFromConfig env Hfile) as (ext & _ & Hcp).
    set (msg := "invalid setting for logging level: " +:+ levelName).
    set (codepath := (if ext : bool then "external:" else "")
                     +:+ "logHandler.setLogLevelFromConfig") in Hcp.
    set (record := {| rec_name := NVDA_LOGGER_NAME; levelno := WARNING;
                      rec_msg := msg; rec_codepath := Some codepath;
                      rec_exc_info := None |}).
    assert (∃ st1,
              Logger_warning env (frame_setLogLevelFromConfig env) msg st = (Ok tt, st1)
              ∧ sameSettings st st1
              ∧ (isEnabledFor (rootLevel st) WARNING = true →
                 trace st1 = trace st ++ EvRecord record :: delivered (logHandler st) record
                 ∧ files st1 = filesAfter env (logHandler st) record (files st))
              ∧ (isEnabledFor (rootLevel st) WARNING = false → st1 = st))
      as (st1 & Hwarn & Hsame & Hyes & Hno).
    { destruct (isEnabledFor (rootLevel st) WARNING) eqn:Hen.
      - destruct (Logger_warning_delivers env _ msg _ st Hcp Hen)
          as (st1 & Hwarn & Htrace & Hfiles & Hsame).
        exists st1. repeat split; try done. all: intros; try done; apply Hsame.
      - exists st. split; [| by repeat split].
        unfold Logger_warning, Logger_log. py_unfold. by rewrite Hen. }
    destruct Hsame as (Hargs & Hconf1 & _ & Hh & Hfrag).
    exists codepath.
    exists (set_rootLevel INFO
              (set_conf (Some {| general_loggingLevel := "INFO";
                                 featureFlag_playErrorSound := featureFlag_playErrorSound c;
                                 debugLog_externalPythonDependencies :=
                                   debugLog_externalPythonDependencies c |}) st1)).
    cbv zeta. split.
    { unfold setLogLevelFromConfig. py_unfold. simpl.
      rewrite Hforced, Hconf. simpl. fold levelName. rewrite Hname. fold msg.
      rewrite Hwarn. simpl. unfold set_loggingLevel. by rewrite Hconf1, Hconf. }
    simpl. do 5 (split; [done |]). split.
    + intros Hen. exact (Hyes Hen).
    + intros Hen. by rewrite (Hno Hen).
  - intros level Hin.
    destruct (getLevelName_configurable _ _ Hin) as [Hlevel Hsupp].
    unfold setLogLevelFromConfig. py_unfold. simpl.
    rewrite Hforced, Hconf. simpl. fold levelName. rewrite Hlevel, Hsupp. done.
Qed.

(** ** The frame inspector *)

Lemma memberMatches_keeps m c : memberMatches m c = true ↔ keepsCode c m.
Proof.
  split.
  - destruct m as [c' | [c' |] | [g |] [s0 |] | | | e]; simpl; unfold code_is;
      rewrite ?orb_true_iff, ?bool_decide_eq_true; intros H; try done;
      try (destruct H as [H | H]; try done);
      first [ by apply keeps_method | by apply keeps_classmethod
            | by apply keeps_getter | by apply keeps_setter ].
  - destruct 1 as [c' H | c' H | c' fset H | fget c' H]; simpl; unfold code_is;
      rewrite ?orb_true_iff, ?bool_decide_eq_true; auto.
Qed.

Lemma searchMro_step cls rest funcName c :
  passedOver funcName c cls →
  searchMro (cls :: rest) funcName c = searchMro rest funcName c.
Proof.
  unfold passedOver. simpl.
  destruct (cls_dict cls !! funcName) as [m |]; [| done].
  destruct (memberMatches m c) eqn:Hm.
  - apply memberMatches_keeps in Hm.
    destruct m; simpl; try done;
      (intros [Hno | Hname]; [done | by rewrite Hname]).
  - destruct m; simpl; try done; by rewrite ?Hm.
Qed.



Lemma searchMro_hit cls post funcName c :
  definesCode cls funcName c →
  cls_name cls ≠ "" →
  searchMro (cls :: post) funcName c = Ok (cls_name cls).
Proof.
  intros (m & Hm & Hkeeps) Hname. simpl. rewrite Hm.
  assert (member_truthy m = Ok true) as -> by (by destruct Hkeeps).
  apply memberMatches_keeps in Hkeeps. simpl. rewrite Hkeeps.
  by rewrite bool_decide_true.
Qed.

Lemma searchMro_raise cls post funcName c e :
  cls_dict cls !! funcName = Some (MRaising e) →
  searchMro (cls :: post) funcName c = Raise e.
Proof. intros Hm. simpl. by rewrite Hm. Qed.

Lemma searchMro_inv mro funcName c :
  (Forall (passedOver funcName c) mro ∧ searchMro mro funcName c = Ok "")
  ∨ ∃ pre cls post,
      mro = pre ++ cls :: post
      ∧ Forall (passedOver funcName c) pre
      ∧ ((definesCode cls funcName c ∧ cls_name cls ≠ ""
          ∧ searchMro mro funcName c = Ok (cls_name cls))
         ∨ ∃ e, cls_dict cls !! funcName = Some (MRaising e)
                ∧ searchMro mro funcName c = Raise e).
Proof.
  induction mro as [| cls mro IH]; [left; by split |].
  assert (passedOver funcName c cls
          ∨ (definesCode cls funcName c ∧ cls_name cls ≠ "")
          ∨ ∃ e, cls_dict cls !! funcName = Some (MRaising e)) as Hhead.
  { unfold passedOver, definesCode.
    destruct (cls_dict cls !! funcName) as [m |] eqn:Hm; [| by left].
    destruct (decide (cls_name cls = "")) as [Hname | Hname].
    - destruct m; eauto.
    - destruct (memberMatches m c) eqn:Hmatch.
      + apply memberMatches_keeps in Hmatch. right. left. eauto.
      + assert (¬ keepsCode c m) as Hno.
        { intros Hk. apply memberMatches_keeps in Hk. congruence. }
        destruct m; eauto. }
  destruct Hhead as [Hpass | [[Hdef Hname] | [e He]]].
  - rewrite (searchMro_step _ _ _ _ Hpass).
    destruct IH as [[Hall Hres] | (pre & cls' & post & -> & Hpre & Hcase)].
    + left. split; [by constructor | done].
    + right. exists (cls :: pre), cls', post. split; [done |].
      split; [by constructor | done].
  - right. exists [], cls, mro. split; [done |]. split; [constructor |].
    left. split; [done |]. split; [done |]. by apply searchMro_hit.
  - right. exists [], cls, mro. split; [done |]. split; [constructor |].
    right. exists e. split; [done |]. by apply searchMro_raise.
Qed.









(** ** Further properties of the module *)

(** Whatever values the RPC constants have, the classifier and the
    specification's list of five part on the sixth code as soon as it differs
    from the five. *)
Lemma classifier_beyond_spec_list rpc :
  S_CALL_FAILED_DNE rpc ∉ spec_expectedWinErrors rpc →
  let e := {| exc_class := WindowsError; winerror := Some (S_CALL_FAILED_DNE rpc);
              hresult := 0 |} in
  exceptionLevel rpc (Some e) = DEBUGWARNING
  ∧ ¬ spec_expected rpc (spec_expectedWinErrors rpc) e.
Proof.
  intros Hnot e. split.
  - unfold exceptionLevel.
    replace (isExpected rpc (Some e)) with true; [done |].
    symmetry. apply isExpected_spec. left. split; [done |].
    exists (S_CALL_FAILED_DNE rpc). split; [done |]. apply elem_of_cons. by left.
  - intros [[_ (w & Hw & Hin)] | [[Hcom _] | Hcc]]; [| done | done].
    simpl in Hw. by simplify_eq.
Qed.

(** A line of a traceback loses the base path when running from source. *)
Example stripBasePath_line :
  stripBasePathFromTracebackText sampleEnv
    (TB_BASE_PATH_PREFIX +:+ "C:\nvda\source\speech.py" +:+ ", line 3")
  = TB_BASE_PATH_PREFIX +:+ "speech.py" +:+ ", line 3".
Proof. reflexivity. Qed.

Lemma shouldDisableLogging_spec st :
  _shouldDisableLogging st = true
  ↔ secure (appArgs st) = true
    ∨ (noLogging (appArgs st) = true
       ∧ debugLogging (appArgs st) = false
       ∧ logLevel (appArgs st) = 0).
Proof.
  unfold _shouldDisableLogging.
  destruct (secure (appArgs st)), (noLogging (appArgs st)),
    (debugLogging (appArgs st)); simpl;
    try case_bool_decide; simpl; intuition congruence.
Qed.

(** X1: logging is disabled at start-up exactly in secure mode, or when the
    no-logging flag was given with neither the debug-logging flag nor a level
    other than 0: either of these two overrides the request, and nothing
    overrides secure mode. *)
Theorem shouldDisableLogging_precedence st :
  (_shouldDisableLogging st = true
   ↔ secure (appArgs st) = true
     ∨ (noLogging (appArgs st) = true
        ∧ debugLogging (appArgs st) = false
        ∧ logLevel (appArgs st) = 0))
  ∧ (secure (appArgs st) = false →
     debugLogging (appArgs st) = true ∨ logLevel (appArgs st) ≠ 0 →
     _shouldDisableLogging st = false).
Proof.
  split; [apply shouldDisableLogging_spec |].
  intros Hsec Hover. destruct (_shouldDisableLogging st) eqn:Hd; [| done].
  apply shouldDisableLogging_spec in Hd.
  destruct Hd as [Hs | (_ & Hdbg & Hlvl)]; [congruence |].
  destruct Hover; congruence.
Qed.

(** X2: whenever logging is disabled at start-up, the level counts as forced,
    so a later [setLogLevelFromConfig] cannot switch logging back on. *)
Theorem disabled_logging_is_forced env st :
  _shouldDisableLogging st = true →
  isLogLevelForced st = true
  ∧ setLogLevelFromConfig env st = (Ok tt, st).
Proof.
  intros H. apply shouldDisableLogging_spec in H.
  assert (isLogLevelForced st = true) as Hforced.
  { apply isLogLevelForced_spec. destruct H as [H | (H & _ & _)]; auto. }
  split; [done |].
  unfold setLogLevelFromConfig. py_unfold. by rewrite Hforced.
Qed.

(** X3: the record filter lets through every record of the application's own
    logger and every record at WARNING or above, without looking at the
    configuration and without touching the state. *)
Theorem filter_passes_own_and_severe record st :
  rec_name record = NVDA_LOGGER_NAME ∨ WARNING ≤ levelno record →
  filterExternalDependencyLogging record st = (Ok true, st).
Proof.
  intros H. unfold filterExternalDependencyLogging. py_unfold.
  case_bool_decide; [done |]. case_bool_decide; [done |]. by destruct H.
Qed.


Lemma callHandlers_sameSettings env record st :
  sameSettings st (snd (callHandlers env record st)).
Proof.
  unfold callHandlers, FileHandler_handle, Handler_handle,
    filterExternalDependencyLogging, FileHandler_emit, RemoteHandler_emit,
    notifyErrorSound, sameSettings.
  py_unfold.
  repeat (case_match; simplify_eq/=); done.
Qed.

Lemma super__log_sameSettings env level msg exc_info codepath st :
  sameSettings st (snd (super__log env level msg exc_info codepath st)).
Proof.
  unfold super__log. py_unfold. simpl.
  set (record := makeRecord level msg exc_info codepath st).
  set (st1 := set_trace (trace st ++ [EvRecord record]) st).
  pose proof (callHandlers_sameSettings env record st1) as Hq.
  by destruct (callHandlers env record st1) as [[] st2].
Qed.

(** X5: no call of [Logger._log], whatever its arguments and whether it
    returns or raises, changes the command-line arguments, the configuration,
    the threshold, the handler or the fragment mark. *)
Theorem log_call_keeps_settings env f level msg exc_info kw st :
  sameSettings st (snd (Logger__log env f level msg exc_info kw st)).
Proof.
  unfold Logger__log. py_unfold.
  assert (∀ st0 cp m (b : bool),
            sameSettings st st0 →
            sameSettings st (snd
              (match super__log env level m exc_info cp st0 with
               | (Ok _, st') =>
                   if b then (Ok tt, set_trace (trace st' ++ [EvViewerRefresh]) st')
                   else (Ok tt, st')
               | (Raise e, st') => (Raise e, st')
               end))) as Hcall.
  { intros st0 cp m b Hst0.
    pose proof (super__log_sameSettings env level m exc_info cp st0) as Hq.
    unfold sameSettings in *.
    destruct (super__log _ _ _ _ _ _) as [[] st']; simpl in *; destruct b; simpl;
      intuition congruence. }
  assert (sameSettings st st) as Hrefl by done.
  destruct (kw_codepath kw) as [cp |]; [case_bool_decide |];
    try destruct (getCodePath _ _); simpl; try done;
    destruct (secure (appArgs st)); simpl;
    try destruct (kw_activateLogViewer kw); simpl;
    first [ apply (Hcall _ _ _ false); done | apply (Hcall _ _ _ true); done ].
Qed.

(** X6: without a log file name, or with a sink that is not the file sink,
    [markFragmentStart] returns [False] and stores no mark. *)
Theorem markFragmentStart_needs_file_sink st :
  truthyName (logFileName (appArgs st)) = false
  ∨ isFileHandler (logHandler st) = false →
  markFragmentStart st = (Ok false, st).
Proof.
  intros H. unfold markFragmentStart. py_unfold. simpl.
  destruct H as [-> | ->]; simpl; by rewrite ?orb_true_r.
Qed.

(** ** The frame inspector, further *)

Lemma append_cons c (s t : string) : String c s +:+ t = String c (s +:+ t).
Proof. reflexivity. Qed.

Lemma append_empty_r (s : string) : s +:+ "" = s.
Proof.
  induction s as [| c s IH]; [done |]. rewrite append_cons. by f_equal.
Qed.

Lemma append_assoc (a b c : string) : a +:+ (b +:+ c) = (a +:+ b) +:+ c.
Proof.
  induction a as [| x a IH]; [done |]. rewrite !append_cons. by f_equal.
Qed.

Lemma prefix_app (a b : string) : String.prefix a (a +:+ b) = true.
Proof.
  induction a as [| c a IH]; [by destruct b |].
  rewrite append_cons. simpl. by destruct (ascii_dec c c).
Qed.

Lemma dotted_head path className funcName :
  path ≠ "" → ∃ rest, dotted [path; className; funcName] = path +:+ rest.
Proof.
  intros Hp. unfold dotted. simpl. rewrite bool_decide_true by done.
  repeat case_bool_decide; simpl; eauto.
  exists "". by rewrite append_empty_r.
Qed.

(** X7: code that lies under the configuration directory - add-ons, the
    scratchpad - is external whatever the other tests say, and every
    codepath the frame inspector returns for it starts with the mark
    "external:". *)
Theorem config_dir_code_is_marked_external penv f d codepath :
  WritePaths_configDir penv = Some d →
  String.prefix d (co_filename (f_code f)) = true →
  getCodePath penv f = Ok codepath →
  isPathExternalToNVDA penv (co_filename (f_code f)) = Ok true
  ∧ String.prefix "external:" codepath = true.
Proof.
  intros Hd Hpre Hcp.
  assert (isPathExternalToNVDA penv (co_filename (f_code f)) = Ok true) as Hext.
  { unfold getCodePath, modulePath in Hcp.
    destruct (co_filename (f_code f)) as [| c0 fn]; [done |].
    unfold isPathExternalToNVDA. rewrite Hd, Hpre. by rewrite orb_true_r. }
  split; [done |].
  unfold getCodePath, modulePath in Hcp. rewrite Hext in Hcp. simpl in Hcp.
  destruct (classSegment f (functionSegment f)) as [className |]; [| done].
  simpl in Hcp. injection Hcp as <-.
  match goal with
  | |- context [dotted [?p; _; _]] =>
      destruct (dotted_head p className (functionSegment f)) as [rest ->]; [done |]
  end.
  rewrite <- append_assoc. apply prefix_app.
Qed.




(** X9: the class segment of a codepath is never made up: when
    [getCodePath] returns, the path is built from the module path, a class
    segment and the function segment, and a class segment that is not empty
    is the name of the first class in the MRO of the first argument's type
    that matches: it keeps the frame's own code object - the same object,
    not one of the same name - under the function's name, as a method, a
    class method or a property accessor, and no class before it does. *)
Theorem getCodePath_class_is_in_mro penv f codepath :
  getCodePath penv f = Ok codepath →
  ∃ path className,
    modulePath penv f = Ok path
    ∧ codepath = dotted [path; className; functionSegment f]
    ∧ (className = ""
       ∨ ∃ v arg0 pre cls post,
           co_varnames (f_code f) !! 0%nat = Some v
           ∧ f_locals f !! v = Some arg0
           ∧ hasattr (topClsOf arg0) (functionSegment f) = Ok true
           ∧ ty_mro (topClsOf arg0) = pre ++ cls :: post
           ∧ Forall (passedOver (functionSegment f) (f_code f)) pre
           ∧ definesCode cls (functionSegment f) (f_code f)
           ∧ cls_name cls = className).
Proof.
  unfold getCodePath. intros Hcp.
  destruct (modulePath penv f) as [path |]; [| done]. simpl in Hcp.
  destruct (classSegment f (functionSegment f)) as [className |] eqn:Hcls; [| done].
  simpl in Hcp. injection Hcp as <-.
  exists path, className. split; [done |]. split; [done |].
  unfold classSegment in Hcls.
  case_bool_decide; [left; congruence |].
  destruct (co_varnames (f_code f) !! 0%nat) as [v |] eqn:Hv; [| done].
  destruct (f_locals f !! v) as [arg0 |] eqn:Harg0; [| done].
  destruct (hasattr (topClsOf arg0) (functionSegment f)) as [[] |] eqn:Hattr;
    simpl in Hcls; [| left; congruence | done].
  destruct (searchMro_inv (ty_mro (topClsOf arg0)) (functionSegment f) (f_code f))
    as [[_ Hres] | (pre & cls & post & Hmro & Hpre & [(Hdef & _ & Hres) | (e & _ & Hres)])];
    rewrite Hres in Hcls; [left; congruence | | done].
  injection Hcls as <-. right. exists v, arg0, pre, cls, post. done.
Qed.

(** ** Log calls, further *)

Lemma Logger__log_unfold env f level msg exc_info kw st :
  Logger__log env f level msg exc_info kw st =
  match codepathOf env f kw with
  | Raise e => (Raise e, st)
  | Ok cp =>
      let viewer := negb (secure (appArgs st)) && kw_activateLogViewer kw in
      let st0 :=
        if viewer
        then set_trace (trace st ++ [EvViewerActivate; EvViewerSetInsertionPointEnd]) st
        else st in
      match super__log env level (stackedMessage env f msg kw) exc_info cp st0 with
      | (Ok _, st1) =>
          (Ok tt, if viewer then set_trace (trace st1 ++ [EvViewerRefresh]) st1 else st1)
      | (Raise e, st1) => (Raise e, st1)
      end
  end.
Proof.
  unfold Logger__log, codepathOf, stackedMessage. py_unfold.
  destruct (kw_codepath kw) as [cp |]; [case_bool_decide |];
    try destruct (getCodePath _ _); simpl; try done;
    destruct (secure (appArgs st)); simpl;
    try destruct (kw_activateLogViewer kw); simpl;
    by destruct (super__log _ _ _ _ _ _) as [[] ?].
Qed.

Lemma Logger__log_resolved env f level msg exc_info kw cp st :
  codepathOf env f kw = Ok cp →
  let viewer := negb (secure (appArgs st)) && kw_activateLogViewer kw in
  ∃ evs st1,
    Logger__log env f level msg exc_info kw st
    = (Ok tt, if viewer then set_trace (trace st1 ++ [EvViewerRefresh]) st1 else st1)
    ∧ trace st1
      = trace st
        ++ (if viewer then [EvViewerActivate; EvViewerSetInsertionPointEnd] else [])
        ++ evs
    ∧ Forall (fun e => isViewerEvent e = false) evs
    ∧ recordsOf evs
      = [makeRecord level (stackedMessage env f msg kw) exc_info cp st]
    ∧ sameSettings st st1.
Proof.
  intros Hcp viewer. rewrite Logger__log_unfold, Hcp. cbv zeta. fold viewer.
  set (st0 := if viewer
              then set_trace (trace st ++ [EvViewerActivate; EvViewerSetInsertionPointEnd]) st
              else st).
  set (m := stackedMessage env f msg kw).
  destruct (super__log_nvda env level m exc_info cp st0) as (st1 & Hlog & Hrec & Hsame).
  destruct (super__log_quiet env level m exc_info cp st0) as (evs & Htrace & Hquiet).
  rewrite Hlog in Htrace. simpl in Htrace.
  exists evs, st1. rewrite Hlog. split; [done |].
  assert (trace st0
          = trace st ++ (if viewer then [EvViewerActivate; EvViewerSetInsertionPointEnd]
                         else [])) as Ht0.
  { subst st0. destruct viewer; simpl; [done | by rewrite app_nil_r]. }
  assert (makeRecord level m exc_info cp st0 = makeRecord level m exc_info cp st) as Hmk.
  { subst st0. by destruct viewer. }
  assert (sameSettings st st0) as Hs0.
  { subst st0. by destruct viewer. }
  split; [by rewrite Htrace, Ht0, <- app_assoc |].
  split; [done |]. split.
  - rewrite Htrace, recordsOf_app, Hmk in Hrec. by apply app_inv_head in Hrec.
  - unfold sameSettings in *. intuition congruence.
Qed.

(** X10: a log call that names its codepath never looks at the calling
    frame: whatever the frame is - one the frame inspector would raise on
    included - the call returns and the logger makes exactly one record,
    which carries the named codepath. *)
Theorem named_codepath_needs_no_frame env f level msg exc_info kw cp st :
  kw_codepath kw = Some cp → cp ≠ "" →
  ∃ st',
    Logger__log env f level msg exc_info kw st = (Ok tt, st')
    ∧ recordsOf (trace st')
      = recordsOf (trace st)
        ++ [makeRecord level (stackedMessage env f msg kw) exc_info cp st].
Proof.
  intros Hkw Hne.
  assert (codepathOf env f kw = Ok cp) as Hcp.
  { unfold codepathOf. by rewrite Hkw, bool_decide_true. }
  destruct (Logger__log_resolved env f level msg exc_info kw cp st Hcp)
    as (evs & st1 & Hlog & Htrace & _ & Hrec & _).
  eexists. split; [exact Hlog |].
  assert (recordsOf (trace st1) = recordsOf (trace st)
            ++ [makeRecord level (stackedMessage env f msg kw) exc_info cp st]) as H1.
  { rewrite Htrace, !recordsOf_app, Hrec. by destruct (_ && _); simpl. }
  destruct (_ && _); simpl; [| done].
  by rewrite recordsOf_app, H1, app_nil_r.
Qed.

(** X11: when a log call names no codepath and the frame inspector raises on
    the calling frame, the error surfaces only if the level is enabled: the
    enabled call raises it and leaves no record, no file change and no
    effect on the log viewer; the same call below the threshold returns. *)
Theorem unresolvable_frame_fails_enabled_calls env f level msg exc_info kw e st :
  truthyName (kw_codepath kw) = false →
  getCodePath (paths env) f = Raise e →
  Logger__log env f level msg exc_info kw st = (Raise e, st)
  ∧ Logger_log env f level msg exc_info kw st
    = (if isEnabledFor (rootLevel st) level then Raise e else Ok tt, st).
Proof.
  intros Hkw Hcp.
  assert (Logger__log env f level msg exc_info kw st = (Raise e, st)) as Hlog.
  { rewrite Logger__log_unfold. unfold codepathOf.
    destruct (kw_codepath kw) as [cp |]; simpl in Hkw; [| by rewrite Hcp].
    rewrite Hkw. by rewrite Hcp. }
  split; [done |].
  unfold Logger_log. py_unfold. by destruct (isEnabledFor _ _).
Qed.

(** X12: outside secure mode, a log call that asks for the log viewer
    brackets its record: the viewer is activated and its cursor moved to the
    end first, then the record is made and handled, and the refresh comes
    last; nothing in between touches the viewer. *)
Theorem log_viewer_brackets_the_record env f level msg exc_info kw cp st :
  secure (appArgs st) = false →
  kw_activateLogViewer kw = true →
  codepathOf env f kw = Ok cp →
  ∃ evs st',
    Logger__log env f level msg exc_info kw st = (Ok tt, st')
    ∧ trace st'
      = trace st ++ [EvViewerActivate; EvViewerSetInsertionPointEnd]
                 ++ evs ++ [EvViewerRefresh]
    ∧ Forall (fun e => isViewerEvent e = false) evs
    ∧ recordsOf evs = [makeRecord level (stackedMessage env f msg kw) exc_info cp st].
Proof.
  intros Hsec Hview Hcp.
  destruct (Logger__log_resolved env f level msg exc_info kw cp st Hcp)
    as (evs & st1 & Hlog & Htrace & Hquiet & Hrec & _).
  rewrite Hsec, Hview in Hlog, Htrace. simpl in Hlog, Htrace.
  exists evs. eexists. split; [exact Hlog |].
  split; [| done]. simpl. rewrite Htrace. by rewrite <- !app_assoc.
Qed.

Lemma appendOnly_refl (fs : Files) : appendOnly fs fs.
Proof. intros name content H. exists []. by rewrite app_nil_r. Qed.

Lemma callHandlers_files env record st :
  files (snd (callHandlers env record st)) = files st
  ∨ ∃ baseFilename,
      logHandler st = Some (FileHandler baseFilename)
      ∧ files (snd (callHandlers env record st))
        = <[baseFilename := default [] (files st !! baseFilename) ++ render env record]>
            (files st).
Proof.
  unfold callHandlers, FileHandler_handle, Handler_handle,
    filterExternalDependencyLogging, FileHandler_emit, RemoteHandler_emit,
    notifyErrorSound.
  py_unfold.
  destruct (logHandler st) as [[| baseFilename |] |] eqn:Hh; simpl;
    repeat (case_match; simplify_eq/=); eauto.
Qed.

Lemma super__log_files env level msg exc_info codepath st :
  files (snd (super__log env level msg exc_info codepath st)) = files st
  ∨ ∃ baseFilename data,
      logHandler st = Some (FileHandler baseFilename)
      ∧ files (snd (super__log env level msg exc_info codepath st))
        = <[baseFilename := default [] (files st !! baseFilename) ++ data]> (files st).
Proof.
  unfold super__log. py_unfold. simpl.
  set (record := makeRecord level msg exc_info codepath st).
  set (st1 := set_trace (trace st ++ [EvRecord record]) st).
  destruct (callHandlers_files env record st1) as [H | (base & Hh & H)].
  - left. by destruct (callHandlers env record st1) as [[] st2].
  - right. exists base, (render env record). split; [done |].
    by destruct (callHandlers env record st1) as [[] st2].
Qed.

Lemma Logger__log_files env f level msg exc_info kw st :
  files (snd (Logger__log env f level msg exc_info kw st)) = files st
  ∨ ∃ baseFilename data,
      logHandler st = Some (FileHandler baseFilename)
      ∧ files (snd (Logger__log env f level msg exc_info kw st))
        = <[baseFilename := default [] (files st !! baseFilename) ++ data]> (files st).
Proof.
  rewrite Logger__log_unfold.
  destruct (codepathOf env f kw) as [cp |]; [| by left]. cbv zeta.
  set (viewer := negb (secure (appArgs st)) && kw_activateLogViewer kw).
  set (st0 := if viewer
              then set_trace (trace st ++ [EvViewerActivate; EvViewerSetInsertionPointEnd]) st
              else st).
  assert (files st0 = files st ∧ logHandler st0 = logHandler st) as [Hf0 Hh0].
  { subst st0. by destruct viewer. }
  pose proof (super__log_files env level (stackedMessage env f msg kw) exc_info cp st0) as H.
  rewrite Hf0, Hh0 in H.
  destruct (super__log _ _ _ _ _ _) as [[] st1]; simpl in *; by destruct viewer.
Qed.

(** X13: a log call treats the file system as append-only storage of one
    file: whatever its arguments and whether it returns or raises, every
    file that was there is still there with its old content as a prefix, and
    a file other than the one of the file sink is not touched at all. *)
Theorem log_call_only_appends env f level msg exc_info kw st :
  let st' := snd (Logger__log env f level msg exc_info kw st) in
  appendOnly (files st) (files st')
  ∧ ∀ name, logHandler st ≠ Some (FileHandler name) →
      files st' !! name = files st !! name.
Proof.
  intros st'. subst st'.
  destruct (Logger__log_files env f level msg exc_info kw st)
    as [-> | (base & data & Hh & ->)].
  - split; [apply appendOnly_refl | done].
  - split.
    + intros name content Hname. destruct (decide (name = base)) as [-> | Hne].
      * exists data. by rewrite lookup_insert_eq, Hname.
      * exists []. by rewrite lookup_insert_ne, app_nil_r.
    + intros name Hnot. rewrite lookup_insert_ne; [done |]. congruence.
Qed.

(** ** The record filter and the file sink, further *)

(** X14: a record of another logger below WARNING reaches the file only
    when the configuration asks for the logging of external dependencies:
    with the option off the file sink drops it and changes nothing, with the
    option on the sink appends its rendering to the file, and while the
    configuration is not loaded yet the sink raises TypeError without
    writing. No alert is raised in any of the three cases. *)
Theorem foreign_record_below_warning env baseFilename record st :
  rec_name record ≠ NVDA_LOGGER_NAME →
  levelno record < WARNING →
  FileHandler_handle env baseFilename record st
  = match conf st with
    | None => (Raise TypeError, st)
    | Some c =>
        if debugLog_externalPythonDependencies c
        then (Ok true,
              set_trace (trace st ++ [EvWrite baseFilename record])
                (appendFile baseFilename (render env record) st))
        else (Ok false, st)
    end.
Proof.
  intros Hname Hlow.
  unfold FileHandler_handle, Handler_handle, filterExternalDependencyLogging,
    FileHandler_emit.
  py_unfold. unfold CRITICAL, ERROR, WARNING in *.
  rewrite (bool_decide_false (50 ≤ levelno record)) by lia.
  rewrite (bool_decide_false (40 ≤ levelno record)) by lia.
  rewrite (bool_decide_false (rec_name record = NVDA_LOGGER_NAME)) by done.
  rewrite (bool_decide_false (30 ≤ levelno record)) by lia.
  destruct (conf st) as [c |]; [| done].
  by destruct (debugLog_externalPythonDependencies c).
Qed.

(** ** Fragments, further *)

Lemma markFragmentStart_run st name content :
  secure (appArgs st) = false →
  logFileName (appArgs st) = Some name → name ≠ "" →
  isFileHandler (logHandler st) = true →
  files st !! name = Some content →
  markFragmentStart st = (Ok true, set_fragmentStart (Some (length content)) st).
Proof.
  intros Hsec Hname Hne Hh Hf.
  unfold markFragmentStart, openLogFile. py_unfold. simpl.
  rewrite Hsec, Hname, Hh. simpl. rewrite bool_decide_true by done. simpl.
  by rewrite Hname, Hf.
Qed.

Lemma callHandlers_file env record st name :
  logHandler st = Some (FileHandler name) →
  rec_name record = NVDA_LOGGER_NAME →
  ∃ st',
    callHandlers env record st = (Ok tt, st')
    ∧ files st'
      = <[name := default [] (files st !! name) ++ render env record]> (files st)
    ∧ sameSettings st st'.
Proof.
  intros Hh Hname.
  unfold callHandlers, FileHandler_handle, Handler_handle,
    filterExternalDependencyLogging, FileHandler_emit, notifyErrorSound, sameSettings.
  py_unfold. rewrite Hh. simpl.
  rewrite (bool_decide_true (rec_name record = NVDA_LOGGER_NAME)) by done.
  repeat case_bool_decide; simpl;
    try destruct (shouldPlayErrorSound env st); simpl;
    (eexists; split; [reflexivity |]; by rewrite ?Hh).
Qed.

Lemma Logger__log_file env f level msg exc_info kw cp st name :
  codepathOf env f kw = Ok cp →
  logHandler st = Some (FileHandler name) →
  ∃ st',
    Logger__log env f level msg exc_info kw st = (Ok tt, st')
    ∧ files st'
      = <[name := default [] (files st !! name)
                  ++ render env (makeRecord level (stackedMessage env f msg kw)
                                   exc_info cp st)]> (files st)
    ∧ sameSettings st st'.
Proof.
  intros Hcp Hh. rewrite Logger__log_unfold, Hcp. cbv zeta.
  set (viewer := negb (secure (appArgs st)) && kw_activateLogViewer kw).
  set (st0 := if viewer
              then set_trace (trace st ++ [EvViewerActivate; EvViewerSetInsertionPointEnd]) st
              else st).
  set (m := stackedMessage env f msg kw).
  assert (st0 = st ∨ st0 = set_trace (trace st ++ [EvViewerActivate;
                                                    EvViewerSetInsertionPointEnd]) st)
    as Hst0.
  { subst st0. destruct viewer; auto. }
  assert (files st0 = files st ∧ logHandler st0 = logHandler st
          ∧ makeRecord level m exc_info cp st0 = makeRecord level m exc_info cp st
          ∧ sameSettings st st0) as (Hf0 & Hh0 & Hmk & Hs0).
  { destruct Hst0 as [-> | ->]; done. }
  unfold super__log. py_unfold. simpl. rewrite Hmk.
  set (record := makeRecord level m exc_info cp st).
  set (st1 := set_trace (trace st0 ++ [EvRecord record]) st0).
  destruct (callHandlers_file env record st1 name) as (st2 & Hcall & Hfiles & Hsame);
    [simpl; congruence | done |].
  rewrite Hcall. simpl in Hfiles. rewrite Hf0 in Hfiles.
  assert (sameSettings st st2) as Hs2.
  { unfold sameSettings in *. simpl in Hsame. intuition congruence. }
  destruct viewer; eexists; (split; [reflexivity |]); simpl; done.
Qed.

(** X15: mark, log, read back: with the file sink on the log file, a mark
    followed by one enabled log call leaves the rendering of the record that
    the call made after the mark, and [getFragment] then reads these bytes as
    text: when they decode to a text that is not empty, it returns that text
    and clears the mark; when the rendering is what a writer of text makes of
    a text of scalar values without carriage return, that text comes back
    unchanged; bytes that are not UTF-8 make it raise UnicodeDecodeError and
    keep the mark. *)
Theorem fragment_of_one_log_call env f level msg exc_info kw cp st name content :
  secure (appArgs st) = false →
  logFileName (appArgs st) = Some name → name ≠ "" →
  logHandler st = Some (FileHandler name) →
  files st !! name = Some content →
  isEnabledFor (rootLevel st) level = true →
  codepathOf env f kw = Ok cp →
  let record := makeRecord level (stackedMessage env f msg kw) exc_info cp st in
  ∃ st1 st2,
    markFragmentStart st = (Ok true, st1)
    ∧ Logger_log env f level msg exc_info kw st1 = (Ok tt, st2)
    ∧ files st2 !! name = Some (content ++ render env record)
    ∧ (∀ text, readText (render env record) = Some text → text ≠ [] →
         getFragment st2 = (Ok (Some text), set_fragmentStart None st2))
    ∧ (∀ text, render env record = writeText text →
         Forall (fun c => isScalar c = true) text → 13%N ∉ text → text ≠ [] →
         getFragment st2 = (Ok (Some text), set_fragmentStart None st2))
    ∧ (readText (render env record) = None →
         getFragment st2 = (Raise UnicodeDecodeError, st2)).
Proof.
  intros Hsec Hname Hne Hh Hf Hen Hcp record.
  set (st1 := set_fragmentStart (Some (length content)) st).
  assert (markFragmentStart st = (Ok true, st1)) as Hmark.
  { apply markFragmentStart_run with name; try done. by rewrite Hh. }
  destruct (Logger__log_file env f level msg exc_info kw cp st1 name Hcp Hh)
    as (st2 & Hlog & Hfiles & (Hargs & _ & _ & Hh2 & Hfs)).
  assert (Logger_log env f level msg exc_info kw st1 = (Ok tt, st2)) as Hlog'.
  { unfold Logger_log. py_unfold. simpl. by rewrite Hen. }
  change (makeRecord level (stackedMessage env f msg kw) exc_info cp st1)
    with record in Hfiles.
  simpl in Hfiles, Hargs, Hh2, Hfs. rewrite Hf in Hfiles. simpl in Hfiles.
  assert (files st2 !! name = Some (content ++ render env record)) as Hf2.
  { by rewrite Hfiles, lookup_insert_eq. }
  assert (getFragment st2
          = match readText (render env record) with
            | None => (Raise UnicodeDecodeError, st2)
            | Some fragment =>
                (Ok (Some fragment),
                 if bool_decide (fragment ≠ []) then set_fragmentStart None st2 else st2)
            end) as Hget.
  { rewrite (getFragment_marked st2 name (content ++ render env record) (length content)).
    - by rewrite drop_app_length.
    - split; [by rewrite Hargs |]. split; [exists name; by rewrite Hargs |].
      by rewrite Hh2, Hh.
    - by rewrite Hargs.
    - done.
    - done. }
  assert (∀ text, readText (render env record) = Some text → text ≠ [] →
            getFragment st2 = (Ok (Some text), set_fragmentStart None st2)) as Hread.
  { intros text Htext Hnil. rewrite Hget, Htext. by rewrite bool_decide_true. }
  exists st1, st2.
  split; [done |]. split; [done |]. split; [done |]. split; [done |]. split.
  - intros text Hrender Hscalar Hcr Hnil. apply Hread; [| done].
    rewrite Hrender. by apply readText_writeText.
  - intros Hnone. by rewrite Hget, Hnone.
Qed.

(** X16: two edges of the fragment calls, for a state in which a mark can
    be set or read. When the log file is not there, neither call reports
    the absence as a result: [markFragmentStart] raises FileNotFoundError
    and stores no mark, and so does [getFragment] once a mark is stored,
    which it keeps. When the file has become shorter than the mark - it was
    emptied or replaced - [getFragment] returns the empty text, raises
    nothing and keeps the mark: the mark is a plain offset. *)
Theorem fragment_calls_at_the_edges st name :
  canMark st →
  logFileName (appArgs st) = Some name →
  (files st !! name = None →
     markFragmentStart st = (Raise FileNotFoundError, st)
     ∧ (fragmentStart st ≠ None → getFragment st = (Raise FileNotFoundError, st)))
  ∧ (∀ content start,
       files st !! name = Some content →
       fragmentStart st = Some start →
       (length content ≤ start)%nat →
       getFragment st = (Ok (Some []), st)).
Proof.
  intros Hcan Hname. split.
  - destruct Hcan as (Hsec & (name' & Hname' & Hne) & Hh).
    rewrite Hname in Hname'. simplify_eq. intros Hf. split.
    + unfold markFragmentStart, openLogFile. py_unfold. simpl.
      rewrite Hsec, Hname, Hh. simpl. rewrite bool_decide_true by done. simpl.
      by rewrite Hname, Hf.
    + intros Hstart. unfold getFragment, openLogFile. py_unfold. simpl.
      destruct (fragmentStart st) as [start |]; [| done].
      rewrite Hsec, Hname, Hh. simpl. rewrite bool_decide_true by done. simpl.
      by rewrite Hname, Hf.
  - intros content start Hf Hstart Hlen.
    rewrite (getFragment_marked st name content start) by done.
    rewrite drop_ge by done. rewrite readText_nil.
    by rewrite bool_decide_false by (intros ?; done).
Qed.

(** ** The level policy, further *)

Lemma setLogLevelFromConfig_supported env st c level :
  isLogLevelForced st = false →
  conf st = Some c →
  (general_loggingLevel c, level)
    ∈ [("IO", IO); ("DEBUG", DEBUG); ("DEBUGWARNING", DEBUGWARNING);
       ("INFO", INFO); ("OFF", OFF)] →
  setLogLevelFromConfig env st = (Ok tt, set_rootLevel level st).
Proof.
  intros Hforced Hconf Hin.
  destruct (getLevelName_configurable _ _ Hin) as [Hlevel Hsupp].
  unfold setLogLevelFromConfig. py_unfold. simpl.
  rewrite Hforced, Hconf. simpl. by rewrite Hlevel, Hsupp.
Qed.

Lemma setLogLevelFromConfig_repairs env st c :
  logHandler_file env ≠ "" →
  isLogLevelForced st = false →
  conf st = Some c →
  general_loggingLevel c ∉ ["IO"; "DEBUG"; "DEBUGWARNING"; "INFO"; "OFF"] →
  ∃ st1,
    sameSettings st st1
    ∧ setLogLevelFromConfig env st
      = (Ok tt,
         set_rootLevel INFO
           (set_conf (Some {| general_loggingLevel := "INFO";
                              featureFlag_playErrorSound := featureFlag_playErrorSound c;
                              debugLog_externalPythonDependencies :=
                                debugLog_externalPythonDependencies c |}) st1)).
Proof.
  intros Hfile Hforced Hconf Hname. apply levelUnsupported_spec in Hname.
  destruct (getCodePath_setLogLevelFromConfig env Hfile) as (ext & _ & Hcp).
  destruct (Logger_warning_plain env (frame_setLogLevelFromConfig env)
              ("invalid setting for logging level: " +:+ general_loggingLevel c) _ st Hcp)
    as (st1 & Hwarn & _ & Hsame).
  exists st1. split; [done |].
  unfold setLogLevelFromConfig. py_unfold. simpl.
  rewrite Hforced, Hconf. simpl. rewrite Hname, Hwarn. simpl.
  unfold set_loggingLevel. destruct Hsame as (_ & -> & _). by rewrite Hconf.
Qed.

Lemma configurable_name_cases (levelName : string) :
  levelName ∈ ["IO"; "DEBUG"; "DEBUGWARNING"; "INFO"; "OFF"] →
  ∃ level,
    (levelName, level)
      ∈ [("IO", IO); ("DEBUG", DEBUG); ("DEBUGWARNING", DEBUGWARNING);
         ("INFO", INFO); ("OFF", OFF)]
    ∧ level ∈ configurableLevels.
Proof.
  rewrite !elem_of_cons, elem_of_nil.
  intros [-> | [-> | [-> | [-> | [-> | []]]]]];
    [exists IO | exists DEBUG | exists DEBUGWARNING | exists INFO | exists OFF];
    unfold configurableLevels; rewrite !elem_of_cons; tauto.
Qed.

(** X17: in the configurable state, [setLogLevelFromConfig] always ends in a
    settled state: it returns, the configured name is one of IO, DEBUG,
    DEBUGWARNING, INFO and OFF, the threshold is the level of that name, and
    a second call changes nothing and logs nothing. *)
Theorem setLogLevelFromConfig_settles env st c :
  logHandler_file env ≠ "" →
  isLogLevelForced st = false →
  conf st = Some c →
  ∃ st' c',
    setLogLevelFromConfig env st = (Ok tt, st')
    ∧ conf st' = Some c'
    ∧ general_loggingLevel c' ∈ ["IO"; "DEBUG"; "DEBUGWARNING"; "INFO"; "OFF"]
    ∧ getLevelName_ofName (general_loggingLevel c') = LevelNo (rootLevel st')
    ∧ rootLevel st' ∈ configurableLevels
    ∧ setLogLevelFromConfig env st' = (Ok tt, st').
Proof.
  intros Hfile Hforced Hconf.
  destruct (decide (general_loggingLevel c ∈ ["IO"; "DEBUG"; "DEBUGWARNING"; "INFO"; "OFF"]))
    as [Hin | Hout].
  - destruct (configurable_name_cases _ Hin) as (level & Htab & Hlevel).
    exists (set_rootLevel level st), c.
    split; [by apply setLogLevelFromConfig_supported with c |].
    split; [done |]. split; [done |].
    split; [by destruct (getLevelName_configurable _ _ Htab) |].
    split; [done |].
    by rewrite (setLogLevelFromConfig_supported env _ c level).
  - destruct (setLogLevelFromConfig_repairs env st c Hfile Hforced Hconf Hout)
      as (st1 & (Hargs & _) & Hrun).
    set (c' := {| general_loggingLevel := "INFO";
                  featureFlag_playErrorSound := featureFlag_playErrorSound c;
                  debugLog_externalPythonDependencies :=
                    debugLog_externalPythonDependencies c |}) in Hrun.
    set (st' := set_rootLevel INFO (set_conf (Some c') st1)) in Hrun.
    exists st', c'. split; [done |]. split; [done |].
    split; [simpl; rewrite !elem_of_cons; tauto |].
    split; [done |].
    split; [unfold configurableLevels; simpl; rewrite !elem_of_cons; tauto |].
    rewrite (setLogLevelFromConfig_supported env st' c' INFO); [done | | done |].
    + unfold isLogLevelForced in *. simpl. by rewrite Hargs.
    + simpl. rewrite !elem_of_cons. tauto.
Qed.

(** ** The classifier, further *)

Lemma issubclass_derived name base c :
  c ≠ UserException name base →
  issubclass (UserException name base) c = issubclass base c.
Proof.
  intros Hne. unfold issubclass. simpl.
  apply bool_decide_ext. rewrite elem_of_cons.
  split; [intros [Heq | Hin]; [congruence | done] | intros Hin; by right].
Qed.

(** X18: the classification is inherited: an exception of a class derived
    from the class of [e], with the codes of [e], is logged at the level of
    [e] - DEBUGWARNING for a subclass of an expected kind, ERROR otherwise. *)
Theorem classification_is_inherited rpc e name :
  exceptionLevel rpc
    (Some {| exc_class := UserException name (exc_class e);
             winerror := winerror e; hresult := hresult e |})
  = exceptionLevel rpc (Some e).
Proof.
  unfold exceptionLevel, isExpected, isinstance. simpl exc_class.
  by rewrite !issubclass_derived by done.
Qed.

(** X19: a COM error is expected whenever the low 16 bits of its result
    code are the RPC-server-unavailable code, whatever its severity and
    facility bits: every result code that differs from that code by a
    multiple of 65536 is logged at DEBUGWARNING. *)
Theorem com_server_unavailable_in_any_facility rpc e k :
  isinstance e COMError = true →
  0 ≤ S_SERVER_UNAVAILABLE rpc < 65536 →
  hresult e = k * 65536 + S_SERVER_UNAVAILABLE rpc →
  exceptionLevel rpc (Some e) = DEBUGWARNING.
Proof.
  intros Hcom Hrange Hres.
  assert (Z.land (hresult e) 65535 = S_SERVER_UNAVAILABLE rpc) as Hlow.
  { change 65535 with (Z.ones 16). rewrite Z.land_ones by lia.
    rewrite Hres. change (2 ^ 16) with 65536.
    rewrite Z.add_comm, Z.mod_add by lia. apply Z.mod_small. lia. }
  unfold exceptionLevel, isExpected. rewrite Hcom, Hlow.
  rewrite (bool_decide_true (S_SERVER_UNAVAILABLE rpc = _)) by done.
  by rewrite orb_true_r, orb_true_r.
Qed.

(** ** Traceback texts *)

Lemma str_replace_from_skip old new a rest :
  str_replace_from old new (String.length a) (a +:+ rest)
  = str_replace_from old new 0 rest.
Proof.
  induction a as [| x a IH]; [done |]. rewrite append_cons. simpl. exact IH.
Qed.

Lemma str_replace_head old new rest :
  old ≠ "" →
  str_replace old new (old +:+ rest) = new +:+ str_replace old new rest.
Proof.
  destruct old as [| c o]; [done |]. intros _. unfold str_replace.
  pose proof (prefix_app (String c o) rest) as Hpre.
  rewrite append_cons in *.
  change (str_replace_from (String c o) new 0 (String c (o +:+ rest)))
    with (if String.prefix (String c o) (String c (o +:+ rest))
          then new +:+ str_replace_from (String c o) new
                         (String.length (String c o) - 1) (o +:+ rest)
          else String c (str_replace_from (String c o) new 0 (o +:+ rest))).
  rewrite Hpre.
  replace (String.length (String c o) - 1)%nat with (String.length o) by (simpl; lia).
  by rewrite str_replace_from_skip.
Qed.

Lemma prefix_split a t : String.prefix a t = true → ∃ b, t = a +:+ b.
Proof.
  revert t. induction a as [| x a IH]; intros t.
  - intros _. by exists t.
  - destruct t as [| y t]; simpl; [done |].
    destruct (ascii_dec x y) as [-> |]; [| done].
    intros H. destruct (IH t H) as [b ->]. by exists b.
Qed.

Lemma str_replace_absent old new text :
  ¬ occursIn old text → str_replace old new text = text.
Proof.
  unfold str_replace. induction text as [| c rest IH]; [done |].
  intros Hnot.
  change (str_replace_from old new 0 (String c rest))
    with (if String.prefix old (String c rest)
          then new +:+ str_replace_from old new (String.length old - 1) rest
          else String c (str_replace_from old new 0 rest)).
  destruct (String.prefix old (String c rest)) eqn:Hpre.
  - destruct (prefix_split _ _ Hpre) as [b Hb].
    destruct Hnot. exists "", b. by rewrite Hb.
  - f_equal. apply IH. intros (before & after & ->).
    apply Hnot. by exists (String c before), after.
Qed.

(** X20: when running from source, every traceback line that names a file
    by the base path loses that path and keeps its mark, the rest of the
    text being treated the same way; a text in which the mark followed by
    the base path does not occur comes back unchanged. *)
Theorem stripBasePath_shortens_source_lines env :
  NVDAState_isRunningAsSource env = true →
  (∀ rest,
     stripBasePathFromTracebackText env (TB_BASE_PATH_PREFIX +:+ BASE_PATH env +:+ rest)
     = TB_BASE_PATH_PREFIX +:+ stripBasePathFromTracebackText env rest)
  ∧ (∀ text,
       ¬ occursIn (TB_BASE_PATH_PREFIX +:+ BASE_PATH env) text →
       stripBasePathFromTracebackText env text = text).
Proof.
  intros Hsrc. unfold stripBasePathFromTracebackText. rewrite Hsrc. split.
  - intros rest. rewrite append_assoc. by apply str_replace_head.
  - intros text. apply str_replace_absent.
Qed.

(** ** The redirected streams and the hooks *)

Lemma rstrip_allWhitespace text :
  allWhitespace text = true → rstrip text = "".
Proof.
  induction text as [| c rest IH]; [done |]. simpl.
  intros [Hc Hrest]%andb_true_iff. by rewrite (IH Hrest), Hc.
Qed.

Lemma rstrip_nonempty text :
  allWhitespace text = false → rstrip text ≠ "".
Proof.
  induction text as [| c rest IH]; [done |]. simpl.
  intros [Hc | Hrest]%andb_false_iff.
  - rewrite Hc. by destruct (rstrip rest).
  - specialize (IH Hrest). by destruct (rstrip rest).
Qed.

Lemma rstrip_split text :
  ∃ ws, text = rstrip text +:+ ws ∧ allWhitespace ws = true.
Proof.
  induction text as [| c rest (ws & Hrest & Hws)]; [by exists "" |]. simpl.
  destruct (rstrip rest) as [| x stripped] eqn:Hstrip.
  - destruct (isspace c) eqn:Hc.
    + exists (String c rest). split; [done |]. simpl. rewrite Hc.
      rewrite Hrest. done.
    + exists ws. split; [| done]. rewrite append_cons. by f_equal.
  - exists ws. split; [| done]. rewrite append_cons. by f_equal.
Qed.

Lemma Logger__log_named env f level msg exc_info cp st :
  cp ≠ "" →
  ∃ st',
    Logger__log env f level msg exc_info (withCodepath cp) st = (Ok tt, st')
    ∧ recordsOf (trace st')
      = recordsOf (trace st) ++ [makeRecord level msg exc_info cp st]
    ∧ sameSettings st st'.
Proof.
  intros Hne.
  assert (codepathOf env f (withCodepath cp) = Ok cp) as Hcp.
  { unfold codepathOf. simpl. by rewrite bool_decide_true. }
  destruct (Logger__log_resolved env f level msg exc_info (withCodepath cp) cp st Hcp)
    as (evs & st1 & Hlog & Htrace & _ & Hrec & Hsame).
  simpl in Hlog, Htrace. rewrite andb_false_r in Hlog, Htrace. simpl in Htrace.
  exists st1. split; [done |]. split; [| done].
  by rewrite Htrace, recordsOf_app, Hrec.
Qed.

(** X21: what is written to a redirected stream is logged without its
    trailing white space, at the level of the stream and with the stream's
    name as codepath; a text of white space only - the line end that [print]
    writes on its own - is dropped, and the write never raises. *)
Theorem stream_write_logs_stripped_text env self text st :
  sr_name self ≠ "" →
  ∃ st',
    StreamRedirector_write env self text st = (Ok tt, st')
    ∧ recordsOf (trace st')
      = recordsOf (trace st)
        ++ (if allWhitespace text || negb (isEnabledFor (rootLevel st) (sr_level self))
            then []
            else [{| rec_name := NVDA_LOGGER_NAME; levelno := sr_level self;
                     rec_msg := rstrip text; rec_codepath := Some (sr_name self);
                     rec_exc_info := None |}])
    ∧ (allWhitespace text = true → st' = st)
    ∧ ∃ ws, text = rstrip text +:+ ws ∧ allWhitespace ws = true.
Proof.
  intros Hname. unfold StreamRedirector_write.
  destruct (allWhitespace text) eqn:Hws.
  - rewrite (rstrip_allWhitespace text Hws). simpl.
    exists st. rewrite app_nil_r. repeat split; try done.
    by exists text.
  - pose proof (rstrip_nonempty text Hws) as Hne.
    rewrite bool_decide_false by done. simpl.
    unfold Logger_log. py_unfold.
    destruct (isEnabledFor (rootLevel st) (sr_level self)); simpl.
    + destruct (Logger__log_named env (frame_write env) (sr_level self) (rstrip text)
                  None (sr_name self) st Hname) as (st' & Hlog & Hrec & _).
      exists st'. rewrite Hlog. repeat split; try done. apply rstrip_split.
    + exists st. rewrite app_nil_r. repeat split; try done. apply rstrip_split.
Qed.

Lemma Logger_exception_named env f msg ty value cp st :
  cp ≠ "" →
  let level := exceptionLevel (RPC env) value in
  ∃ st',
    Logger_exception env f msg (ExcInfoTuple ty value) (withCodepath cp) st = (Ok tt, st')
    ∧ recordsOf (trace st')
      = recordsOf (trace st)
        ++ (if isEnabledFor (rootLevel st) level
            then [{| rec_name := NVDA_LOGGER_NAME; levelno := level; rec_msg := msg;
                     rec_codepath := Some cp; rec_exc_info := Some (ty, value) |}]
            else []).
Proof.
  intros Hne level. rewrite Logger_exception_unfold. simpl. fold level.
  destruct (isEnabledFor (rootLevel st) level).
  - destruct (Logger__log_named env f level msg (Some (ExcInfoTuple ty value)) cp st Hne)
      as (st' & Hlog & Hrec & _).
    exists st'. by rewrite Hlog.
  - exists st. by rewrite app_nil_r.
Qed.

(** X22: the hook for unhandled exceptions never raises and exempts no
    exception: it makes one record with the codepath "unhandled exception"
    and an empty message, at the level the classifier chooses, whenever that
    level is enabled - for [SystemExit], which the thread hook ignores, that
    level is ERROR. *)
Theorem excepthook_logs_every_exception env ty value st :
  let level := exceptionLevel (RPC env) value in
  (∃ st',
     _excepthook env ty value st = (Ok tt, st')
     ∧ recordsOf (trace st')
       = recordsOf (trace st)
         ++ (if isEnabledFor (rootLevel st) level
             then [{| rec_name := NVDA_LOGGER_NAME; levelno := level; rec_msg := "";
                      rec_codepath := Some "unhandled exception";
                      rec_exc_info := Some (ty, value) |}]
             else []))
  ∧ (∀ e, exc_class e = SystemExit → value = Some e → level = ERROR).
Proof.
  intros level. split.
  - by apply Logger_exception_named.
  - intros e Hcls ->. subst level.
    unfold exceptionLevel, isExpected, isinstance. by rewrite Hcls.
Qed.

Lemma unraisableMessage_ok unraisable repr :
  object_repr unraisable = Ok repr →
  ∃ msg,
    unraisableMessage unraisable = Ok msg
    ∧ msg ≠ ""
    ∧ msg = match err_msg unraisable with
            | Some (String c m) => String c m +:+ ": " +:+ repr
            | _ => "Exception ignored in: " +:+ repr
            end.
Proof.
  intros Hrepr. unfold unraisableMessage. rewrite Hrepr.
  destruct (err_msg unraisable) as [[| c m] |]; simpl; eexists; done.
Qed.

Lemma unraisableMessage_raise unraisable e :
  object_repr unraisable = Raise e → unraisableMessage unraisable = Raise e.
Proof.
  intros Hrepr. unfold unraisableMessage. rewrite Hrepr.
  by destruct (truthyName (err_msg unraisable)).
Qed.

(** X23: the hook for unraisable exceptions formats the object with its
    [repr] before it logs. When the [repr] raises, the hook raises the same
    error and logs nothing. When it returns, the hook does not raise: it
    makes one record at the classifier's level, when that level is enabled,
    whose codepath is the hook's own text - the error message and the
    object when a message that is not empty was given, "Exception ignored
    in:" and the object otherwise - and whose message is empty. *)
Theorem unraisableExceptHook_logs env args_type unraisable st :
  let level := exceptionLevel (RPC env) (unraisable_exc_value unraisable) in
  match object_repr unraisable with
  | Raise e => _unraisableExceptHook env args_type unraisable st = (Raise e, st)
  | Ok repr =>
      let codepath :=
        match err_msg unraisable with
        | Some (String c m) => String c m +:+ ": " +:+ repr
        | _ => "Exception ignored in: " +:+ repr
        end in
      ∃ st',
        _unraisableExceptHook env args_type unraisable st = (Ok tt, st')
        ∧ recordsOf (trace st')
          = recordsOf (trace st)
            ++ (if isEnabledFor (rootLevel st) level
                then [{| rec_name := NVDA_LOGGER_NAME; levelno := level; rec_msg := "";
                         rec_codepath := Some codepath;
                         rec_exc_info := Some (Some (unraisable_exc_type unraisable),
                                               unraisable_exc_value unraisable) |}]
                else [])
  end.
Proof.
  intros level.
  destruct (object_repr unraisable) as [repr | e] eqn:Hrepr.
  - destruct (unraisableMessage_ok unraisable repr Hrepr) as (msg & Hmsg & Hne & Heq).
    intros codepath. fold codepath in Heq. subst msg.
    unfold _unraisableExceptHook. py_unfold. rewrite Hmsg.
    by apply Logger_exception_named.
  - unfold _unraisableExceptHook. py_unfold.
    by rewrite (unraisableMessage_raise unraisable e Hrepr).
Qed.


(** ** The time of a record *)

Lemma below_bound (P : N → Prop) (check : N → bool) (bound : nat) :
  (∀ n, check n = true → P n) →
  forallb (fun k => check (N.of_nat k)) (seq 0 bound) = true →
  ∀ n, (n < N.of_nat bound)%N → P n.
Proof.
  intros Hcheck Hall n Hn. apply Hcheck.
  rewrite forallb_forall in Hall.
  rewrite <- (N2Nat.id n). apply Hall. apply in_seq. lia.
Qed.

Lemma format_0d_2 n :
  (n < 100)%N → ∃ a b, format_0d 2 n = String a (String b "").
Proof.
  revert n.
  apply (below_bound (fun n => ∃ a b, format_0d 2 n = String a (String b ""))
           (fun n => match format_0d 2 n with
                     | String _ (String _ "") => true
                     | _ => false
                     end) 100).
  - intros m Hm. destruct (format_0d 2 m) as [| a [| b [| ? ?]]]; try done. eauto.
  - vm_compute. reflexivity.
Qed.

Lemma format_0d_3 n :
  (n < 1000)%N → ∃ a b c, format_0d 3 n = String a (String b (String c "")).
Proof.
  revert n.
  apply (below_bound (fun n => ∃ a b c, format_0d 3 n = String a (String b (String c "")))
           (fun n => match format_0d 3 n with
                     | String _ (String _ (String _ "")) => true
                     | _ => false
                     end) 1000).
  - intros m Hm. destruct (format_0d 3 m) as [| a [| b [| c [| ? ?]]]]; try done. eauto.
  - vm_compute. reflexivity.
Qed.

(** X25: the time of a record is written in a fixed layout: for hours,
    minutes and seconds below 100 and milliseconds below 1000 the text has
    exactly twelve characters, with a colon after the second and the fifth
    and a full stop after the eighth - single digits are filled with zeros
    and never shift the columns. *)
Theorem formatTime_has_fixed_columns timeAsLocalTime msecs :
  (wHour timeAsLocalTime < 100)%N →
  (wMinute timeAsLocalTime < 100)%N →
  (wSecond timeAsLocalTime < 100)%N →
  (msecs < 1000)%N →
  let text := Formatter_formatTime timeAsLocalTime msecs in
  String.length text = 12%nat
  ∧ String.get 2 text = Some ":"%char
  ∧ String.get 5 text = Some ":"%char
  ∧ String.get 8 text = Some "."%char.
Proof.
  intros Hh Hm Hs Hms. unfold Formatter_formatTime.
  destruct (format_0d_2 _ Hh) as (h1 & h2 & ->).
  destruct (format_0d_2 _ Hm) as (m1 & m2 & ->).
  destruct (format_0d_2 _ Hs) as (s1 & s2 & ->).
  destruct (format_0d_3 _ Hms) as (x1 & x2 & x3 & ->).
  repeat split.
Qed.

(** ** Start-up *)

Lemma markFragmentStart_refused st :
  truthyName (logFileName (appArgs st)) = false
  ∨ isFileHandler (logHandler st) = false →
  markFragmentStart st = (Ok false, st).
Proof.
  intros H. unfold markFragmentStart. py_unfold. simpl.
  destruct H as [-> | ->]; simpl; by rewrite ?orb_true_r.
Qed.

(** X26: when logging is disabled at start-up, [initialize] returns without
    looking at the file system: no file is removed, renamed or created and
    the log file name is left as it is. It installs the null sink and the
    threshold OFF, after which no log call below OFF makes a record,
    [setLogLevelFromConfig] changes nothing and no fragment can be marked. *)
Theorem initialize_disabled_touches_no_file env fsenv p :
  _shouldDisableLogging (proc_state p) = true →
  ∃ p',
    initialize env fsenv false p = (Returned, p')
    ∧ proc_state p'
      = set_logHandler (Some NullHandler) (set_rootLevel OFF (proc_state p))
    ∧ (∀ f level msg exc_info kw,
         level < OFF →
         Logger_log env f level msg exc_info kw (proc_state p') = (Ok tt, proc_state p'))
    ∧ setLogLevelFromConfig env (proc_state p') = (Ok tt, proc_state p')
    ∧ markFragmentStart (proc_state p') = (Ok false, proc_state p').
Proof.
  intros Hdis. unfold initialize. simpl. rewrite Hdis.
  eexists. split; [reflexivity |]. simpl. split; [done |]. split; [| split].
  - intros f level msg exc_info kw Hlevel. apply Logger_log_disabled.
    simpl. rewrite isEnabledFor_OFF. apply bool_decide_eq_false. lia.
  - apply shouldDisableLogging_spec in Hdis.
    unfold setLogLevelFromConfig. py_unfold.
    replace (isLogLevelForced _) with true; [done |].
    symmetry. apply isLogLevelForced_spec. simpl.
    destruct Hdis as [H | (H & _ & _)]; auto.
  - apply markFragmentStart_refused. by right.
Qed.



Lemma set_logFileName_same st name :
  logFileName (appArgs st) = Some name → set_logFileName (Some name) st = st.
Proof.
  destruct st as [[] ? ? ? ? ? ? ? ?]. simpl. by intros ->.
Qed.

Lemma startFileLogging_effective env fsenv st :
  let name := effectiveLogFileName env fsenv st in
  name ≠ "" →
  startFileLogging env fsenv st
  = startFileLogging env fsenv (set_logFileName (Some name) st).
Proof.
  intros name Hne.
  assert ((if truthyName (logFileName (appArgs st)) then st
           else set_logFileName (Some (_getDefaultLogFilePath env fsenv)) st)
          = set_logFileName (Some name) st) as Hprep.
  { subst name. unfold effectiveLogFileName.
    destruct (logFileName (appArgs st)) as [given |] eqn:Hgiven; simpl; [| done].
    case_bool_decide; simpl; [| done].
    by rewrite (set_logFileName_same st given). }
  unfold startFileLogging. rewrite Hprep. simpl truthyName.
  by rewrite (bool_decide_true (name ≠ "")).
Qed.

Lemma initialize_effective env fsenv p :
  let st := proc_state p in
  let name := effectiveLogFileName env fsenv st in
  _shouldDisableLogging st = false →
  name ≠ "" →
  let p1 := addLevelName OFF "OFF"
              (addLevelName IO "IO" (addLevelName DEBUGWARNING "DEBUGWARNING" p)) in
  initialize env fsenv false p
  = match startFileLogging env fsenv (set_logFileName (Some name) st) with
    | (Ok h, st', printed) => (Returned, install h st' printed p1)
    | (Raise e, st', _) => (Raised (StartPyErr e), set_proc_state st' p1)
    end.
Proof.
  intros st name Hdis Hne p1. unfold initialize. simpl. fold st. rewrite Hdis.
  by rewrite (startFileLogging_effective env fsenv st Hne).
Qed.


Lemma getCodePath_initialize env :
  logHandler_file env ≠ "" →
  ∃ codepath, getCodePath (paths env) (frame_initialize env) = Ok codepath.
Proof.
  intros Hfile.
  destruct (isPathExternalToNVDA_total (paths env) _ Hfile) as [ext Hext].
  unfold getCodePath, modulePath, classSegment. simpl. rewrite Hext. simpl.
  rewrite lookup_singleton_eq. simpl. eauto.
Qed.

(** X28: when the log file - the one of the command line or the default
    one - cannot be opened for writing, [initialize] still returns: it
    clears the log file name, installs the null sink, reports the failure
    through [log.error] - one ERROR record when ERROR passes the threshold
    in force until then, which the logging framework prints itself when the
    root logger has no handler yet - and sets the threshold the command line
    asks for. Afterwards no fragment can be marked. *)
Theorem initialize_without_log_file env fsenv p :
  let st := proc_state p in
  let name := effectiveLogFileName env fsenv st in
  _shouldDisableLogging st = false →
  name ≠ "" →
  fs_refusesWrite fsenv (os_path_abspath fsenv name) = true →
  logHandler_file env ≠ "" →
  ∃ p',
    initialize env fsenv false p = (Returned, p')
    ∧ logFileName (appArgs (proc_state p')) = None
    ∧ logHandler (proc_state p') = Some NullHandler
    ∧ rootLevel (proc_state p') = startupLevel (appArgs st)
    ∧ (levelno <$> recordsOf (trace (proc_state p')))
      = (levelno <$> recordsOf (trace st))
        ++ (if isEnabledFor (rootLevel st) ERROR then [ERROR] else [])
    ∧ (logHandler st = None →
       lastResort p'
       = lastResort p
         ++ (if isEnabledFor (rootLevel st) ERROR
             then ["Faile to open log file, redirecting to standard output"]
             else []))
    ∧ markFragmentStart (proc_state p') = (Ok false, proc_state p').
Proof.
  intros st name Hdis Hne Hw Hfile.
  destruct (getCodePath_initialize env Hfile) as [cp Hcp].
  rewrite initialize_effective by done. fold st name.
  unfold startFileLogging. simpl. rewrite bool_decide_true by done. simpl.
  unfold openForWriting. rewrite Hw.
  set (old := os_path_join fsenv (os_path_dirname fsenv name) "nvda-old.log").
  set (st0 := set_logFileName None
                (set_files (rotateLogFile fsenv name old (files st))
                   (set_logFileName (Some name) st))).
  set (msg := "Faile to open log file, redirecting to standard output").
  assert (∃ st1,
            Logger_log env (frame_initialize env) ERROR msg None noKwargs st0 = (Ok tt, st1)
            ∧ recordsOf (trace st1)
              = recordsOf (trace st)
                ++ (if isEnabledFor (rootLevel st) ERROR
                    then [makeRecord ERROR msg None cp st0] else [])
            ∧ sameSettings st0 st1) as (st1 & Hlog & Hrec & Hsame).
  { unfold Logger_log. py_unfold. simpl.
    destruct (isEnabledFor (rootLevel st) ERROR); simpl.
    - destruct (Logger__log_plain env (frame_initialize env) ERROR msg None cp st0 Hcp)
        as (st1 & Hlog & Hrec & Hsame).
      exists st1. by rewrite Hlog.
    - exists st0. rewrite app_nil_r. by repeat split. }
  rewrite Hlog. destruct Hsame as (Hargs & _ & _ & Hh & _).
  eexists. split; [reflexivity |]. simpl.
  split; [by rewrite Hargs |].
  split; [done |].
  split; [by rewrite Hargs |].
  split; [| split].
  - rewrite Hrec, fmap_app. f_equal. by destruct (isEnabledFor _ _).
  - intros Hnone. unfold lastResortOutput. simpl. rewrite Hnone.
    by rewrite andb_true_r.
  - apply markFragmentStart_refused. by right.
Qed.


Lemma assoc_set_eq {K V : Type} `{EqDecision K} (k : K) (v : V) l :
  assoc k (assoc_set k v l) = Some v.
Proof.
  induction l as [| [k' v'] l IH]; simpl.
  - by rewrite decide_True.
  - destruct (decide (k = k')) as [-> | Hne]; simpl.
    + by rewrite decide_True.
    + by rewrite decide_False.
Qed.

Lemma assoc_set_ne {K V : Type} `{EqDecision K} (k k' : K) (v : V) l :
  k ≠ k' → assoc k' (assoc_set k v l) = assoc k' l.
Proof.
  intros Hne. induction l as [| [k0 v0] l IH]; simpl.
  - by rewrite decide_False by congruence.
  - destruct (decide (k = k0)) as [-> | Hk]; simpl.
    + by rewrite !decide_False by congruence.
    + destruct (decide (k' = k0)); [done | exact IH].
Qed.

Lemma initialize_registry env fsenv remote p :
  let p' := snd (initialize env fsenv remote p) in
  _nameToLevel p'
  = assoc_set "OFF" OFF
      (assoc_set "IO" IO (assoc_set "DEBUGWARNING" DEBUGWARNING (_nameToLevel p)))
  ∧ _levelToName p'
    = assoc_set OFF "OFF"
        (assoc_set IO "IO" (assoc_set DEBUGWARNING "DEBUGWARNING" (_levelToName p))).
Proof.
  unfold initialize.
  destruct remote; simpl.
  - by destruct (remoteLibLoads fsenv).
  - destruct (_shouldDisableLogging (proc_state p)); [done |].
    by destruct (startFileLogging _ _ _) as [[[] ?] ?].
Qed.

(** X30: however [initialize] ends - on any of its branches, a raised error
    included - the three custom level names are registered with their
    numbers, in both directions, and no other name or number of the registry
    is touched; from the registry of a fresh interpreter the result is the
    registry that [getLevelName] is modelled with. *)
Theorem initialize_registers_level_names env fsenv remote p :
  let p' := snd (initialize env fsenv remote p) in
  Forall (fun entry =>
            assoc (fst entry) (_nameToLevel p') = Some (snd entry)
            ∧ assoc (snd entry) (_levelToName p') = Some (fst entry))
         [("DEBUGWARNING", DEBUGWARNING); ("IO", IO); ("OFF", OFF)]
  ∧ (∀ name, name ∉ ["DEBUGWARNING"; "IO"; "OFF"] →
       assoc name (_nameToLevel p') = assoc name (_nameToLevel p))
  ∧ (∀ level, level ∉ [DEBUGWARNING; IO; OFF] →
       assoc level (_levelToName p') = assoc level (_levelToName p))
  ∧ (_nameToLevel p = logging_nameToLevel →
     _levelToName p = logging_levelToName →
     _nameToLevel p' = nameToLevel ∧ _levelToName p' = levelToName).
Proof.
  intros p'. destruct (initialize_registry env fsenv remote p) as [Hn Hl].
  fold p' in Hn, Hl. rewrite Hn, Hl. split; [| split; [| split]].
  - repeat constructor; simpl;
      repeat first [ rewrite assoc_set_eq | rewrite assoc_set_ne by done ]; done.
  - intros name. rewrite !not_elem_of_cons. intros (H1 & H2 & H3 & _).
    by rewrite !assoc_set_ne by done.
  - intros level. rewrite !not_elem_of_cons. intros (H1 & H2 & H3 & _).
    by rewrite !assoc_set_ne by done.
  - intros -> ->. split; reflexivity.
Qed.

(** ** The theorems at work on concrete inputs *)

(** C3 at work: the debug-logging flag was given and the configuration asks
    for INFO; the call changes nothing and the threshold stays at DEBUG. *)
Lemma setLogLevelFromConfig_forced_witness :
  debugLogging (appArgs debugFlagState) = true
  ∧ general_loggingLevel <$> conf debugFlagState = Some "INFO"
  ∧ setLogLevelFromConfig sampleEnv debugFlagState = (Ok tt, debugFlagState).
Proof.
  split; [reflexivity |]. split; [reflexivity |].
  apply (setLogLevelFromConfig_forced sampleEnv debugFlagState).
  right. left. reflexivity.
Defined.

(** C4 at work: a mark on the empty log file, and the text hello appended
    by a writer of text. *)
Lemma fragment_roundtrip_witness :
  markFragmentStart sampleState
  = (Ok true, set_fragmentStart (Some 0%nat) sampleState)
  ∧ getFragment (appendFile "nvda.log" (writeText (text_of_string "hello"))
                   (set_fragmentStart (Some 0%nat) sampleState))
    = (Ok (Some (text_of_string "hello")),
       set_fragmentStart None
         (appendFile "nvda.log" (writeText (text_of_string "hello"))
            (set_fragmentStart (Some 0%nat) sampleState))).
Proof.
  split; [reflexivity |].
  destruct (fragment_roundtrip sampleState (set_fragmentStart (Some 0%nat) sampleState)
              eq_refl) as (name & content & Hname & _ & _ & _ & Happ & _).
  simpl in Hname. injection Hname as <-. apply Happ.
  - repeat constructor.
  - apply (bool_decide_unpack _). vm_compute. exact I.
  - discriminate.
Defined.

(** C5 at work: secure mode, and a log call that asks for the log viewer. *)
Lemma secure_mode_guard_witness :
  secure (appArgs secureState) = true
  ∧ markFragmentStart secureState = (Ok false, secureState)
  ∧ getFragment secureState = (Ok None, secureState)
  ∧ quietStep secureState
      (snd (Logger__log sampleEnv frame_speak ERROR "speech failed" None
              viewerKwargs secureState)).
Proof.
  split; [reflexivity |].
  destruct (secure_mode_guard sampleEnv secureState eq_refl) as (Hmark & Hget & Hlog).
  split; [exact Hmark |]. split; [exact Hget |].
  exact (proj1 (Hlog frame_speak ERROR "speech failed" None ExcInfoTrue viewerKwargs)).
Defined.



(** C7 at work: under the threshold INFO the unknown name VERBOSE is
    repaired and the warning reaches the log file; the name DEBUG is
    applied. *)
Lemma setLogLevelFromConfig_configurable_witness :
  isLogLevelForced misconfiguredState = false
  ∧ (∃ st',
       setLogLevelFromConfig sampleEnv misconfiguredState = (Ok tt, st')
       ∧ rootLevel st' = INFO
       ∧ general_loggingLevel <$> conf st' = Some "INFO"
       ∧ (levelno <$> recordsOf (trace st')) = [WARNING]
       ∧ ∃ record,
           trace st' = [EvRecord record; EvWrite "nvda.log" record]
           ∧ rec_msg record = "invalid setting for logging level: VERBOSE"
           ∧ files st' !! "nvda.log" = Some (render sampleEnv record))
  ∧ setLogLevelFromConfig sampleEnv debugConfiguredState
    = (Ok tt, set_rootLevel DEBUG debugConfiguredState).
Proof.
  split; [reflexivity |]. split.
  - destruct (setLogLevelFromConfig_configurable sampleEnv misconfiguredState _
                ltac:(discriminate) eq_refl eq_refl) as [Hbad _].
    destruct Hbad as (codepath & st' & Hrun & Hroot & Hconf & _ & _ & _ & Hyes & _).
    + rewrite !not_elem_of_cons. repeat split; try discriminate. apply not_elem_of_nil.
    + destruct (Hyes eq_refl) as [Htrace Hfiles].
      exists st'. split; [exact Hrun |]. split; [exact Hroot |].
      split; [by rewrite Hconf |]. split; [by rewrite Htrace |].
      eexists. split; [exact Htrace |]. split; [reflexivity |].
      rewrite Hfiles. reflexivity.
  - refine (proj2 (setLogLevelFromConfig_configurable sampleEnv debugConfiguredState _
                     ltac:(discriminate) eq_refl eq_refl) DEBUG _).
    apply elem_of_cons. right. apply elem_of_cons. left. reflexivity.
Defined.

(** C8 at work: a ValueError in the thread worker gives one ERROR record. *)
Lemma threadExceptHook_records_witness :
  exc_type failedInWorker ≠ SystemExit
  ∧ ∃ st',
      _threadExceptHook sampleEnv failedInWorker sampleState = (Ok tt, st')
      ∧ (levelno <$> recordsOf (trace st')) = [ERROR]
      ∧ (rec_msg <$> recordsOf (trace st'))
        = ["Exception in thread worker:" +:+ newline].
Proof.
  split; [discriminate |].
  destruct (threadExceptHook_records sampleEnv failedInWorker sampleState
              ltac:(discriminate)) as [_ Hlog].
  destruct Hlog as (codepath & st' & Hrun & _ & _ & Hrec); [discriminate |].
  exists st'. split; [exact Hrun |]. rewrite Hrec. split; reflexivity.
Defined.

(** C9 at work: an ERROR record with alert-on-error enabled. *)
Lemma file_sink_alerts_witness :
  shouldPlayErrorSound sampleEnv sampleState = true
  ∧ trace (snd (FileHandler_handle sampleEnv "nvda.log" errorRecord sampleState))
    = [EvErrorSoundNotify; EvWrite "nvda.log" errorRecord].
Proof.
  split; [reflexivity |].
  refine (proj1 (proj2 (file_sink_alerts sampleEnv "nvda.log" errorRecord sampleState)) _).
  unfold errorRecord, ERROR, CRITICAL. simpl. lia.
Defined.

(** X2 at work, in secure mode. *)
Lemma disabled_logging_is_forced_witness :
  _shouldDisableLogging secureState = true
  ∧ setLogLevelFromConfig sampleEnv secureState = (Ok tt, secureState).
Proof.
  split; [reflexivity |].
  exact (proj2 (disabled_logging_is_forced sampleEnv secureState eq_refl)).
Defined.

(** X3 at work. *)
Lemma filter_passes_own_and_severe_witness :
  filterExternalDependencyLogging errorRecord sampleState = (Ok true, sampleState).
Proof.
  apply (filter_passes_own_and_severe errorRecord sampleState). left. reflexivity.
Defined.


(** X6 at work: the log file could not be opened. *)
Lemma markFragmentStart_needs_file_sink_witness :
  markFragmentStart nullSinkState = (Ok false, nullSinkState).
Proof.
  apply (markFragmentStart_needs_file_sink nullSinkState). right. reflexivity.
Defined.

(** X7 at work: a lambda of an add-on under the configuration directory. *)
Lemma config_dir_code_is_marked_external_witness :
  isPathExternalToNVDA samplePaths (co_filename (f_code frame_lambda)) = Ok true
  ∧ String.prefix "external:" "external:globalPlugins.x" = true.
Proof.
  apply (config_dir_code_is_marked_external samplePaths frame_lambda
           "C:\Users\me\AppData\Roaming\nvda" "external:globalPlugins.x");
    reflexivity.
Defined.

(** X9 at work: [Loud] binds the name to another code object and is passed
    over; the inherited method is found in [Base]. *)
Lemma getCodePath_class_is_in_mro_witness :
  getCodePath samplePaths frame_speak_inherited = Ok "speech.Base.speak"
  ∧ ∃ path className,
      modulePath samplePaths frame_speak_inherited = Ok path
      ∧ "speech.Base.speak"
        = dotted [path; className; functionSegment frame_speak_inherited]
      ∧ (className = ""
         ∨ ∃ v arg0 pre cls post,
             co_varnames (f_code frame_speak_inherited) !! 0%nat = Some v
             ∧ f_locals frame_speak_inherited !! v = Some arg0
             ∧ hasattr (topClsOf arg0) (functionSegment frame_speak_inherited) = Ok true
             ∧ ty_mro (topClsOf arg0) = pre ++ cls :: post
             ∧ Forall (passedOver (functionSegment frame_speak_inherited)
                         (f_code frame_speak_inherited)) pre
             ∧ definesCode cls (functionSegment frame_speak_inherited)
                 (f_code frame_speak_inherited)
             ∧ cls_name cls = className).
Proof.
  split; [reflexivity |].
  apply (getCodePath_class_is_in_mro samplePaths frame_speak_inherited
           "speech.Base.speak").
  reflexivity.
Defined.

(** X10 at work: an error text written to the redirected stderr from a frame
    whose first argument is gone. *)
Lemma named_codepath_needs_no_frame_witness :
  getCodePath samplePaths frame_unbound = Raise KeyError
  ∧ ∃ st',
      Logger__log sampleEnv frame_unbound ERROR "oops" None (withCodepath "stderr")
        sampleState = (Ok tt, st')
      ∧ (rec_codepath <$> recordsOf (trace st')) = [Some "stderr"].
Proof.
  split; [reflexivity |].
  destruct (named_codepath_needs_no_frame sampleEnv frame_unbound ERROR "oops" None
              (withCodepath "stderr") "stderr" sampleState eq_refl ltac:(discriminate))
    as (st' & Hlog & Hrec).
  exists st'. split; [exact Hlog |]. rewrite Hrec. reflexivity.
Defined.

(** X11 at work: the same frame, and a call that names no codepath. *)
Lemma unresolvable_frame_fails_enabled_calls_witness :
  Logger_log sampleEnv frame_unbound ERROR "oops" None noKwargs sampleState
  = (Raise KeyError, sampleState)
  ∧ Logger_log sampleEnv frame_unbound DEBUG "oops" None noKwargs sampleState
    = (Ok tt, sampleState).
Proof.
  split.
  - exact (proj2 (unresolvable_frame_fails_enabled_calls sampleEnv frame_unbound ERROR
                    "oops" None noKwargs KeyError sampleState eq_refl eq_refl)).
  - exact (proj2 (unresolvable_frame_fails_enabled_calls sampleEnv frame_unbound DEBUG
                    "oops" None noKwargs KeyError sampleState eq_refl eq_refl)).
Defined.

(** X12 at work: an error shown in the log viewer. *)
Lemma log_viewer_brackets_the_record_witness :
  ∃ evs st',
    Logger__log sampleEnv frame_speak ERROR "speech failed" None viewerKwargs sampleState
    = (Ok tt, st')
    ∧ trace st'
      = [EvViewerActivate; EvViewerSetInsertionPointEnd] ++ evs ++ [EvViewerRefresh]
    ∧ Forall (fun e => isViewerEvent e = false) evs.
Proof.
  destruct (log_viewer_brackets_the_record sampleEnv frame_speak ERROR "speech failed"
              None viewerKwargs "speech.Base.speak" sampleState eq_refl eq_refl eq_refl)
    as (evs & st' & Hlog & Htrace & Hquiet & _).
  exists evs, st'. split; [exact Hlog |]. split; [exact Htrace | exact Hquiet].
Defined.

(** X14 at work: the option is off, the record is dropped. *)
Lemma foreign_record_below_warning_witness :
  FileHandler_handle sampleEnv "nvda.log" foreignRecord sampleState
  = (Ok false, sampleState).
Proof.
  apply (foreign_record_below_warning sampleEnv "nvda.log" foreignRecord sampleState).
  - discriminate.
  - reflexivity.
Defined.

(** X15 at work: the fragment of one error. *)
Lemma fragment_of_one_log_call_witness :
  ∃ st1 st2,
    markFragmentStart sampleState = (Ok true, st1)
    ∧ Logger_log sampleEnv frame_speak ERROR "speech failed" None noKwargs st1
      = (Ok tt, st2)
    ∧ getFragment st2
      = (Ok (Some (text_of_string ("speech failed" +:+ newline))),
         set_fragmentStart None st2).
Proof.
  destruct (fragment_of_one_log_call sampleEnv frame_speak ERROR "speech failed" None
              noKwargs "speech.Base.speak" sampleState "nvda.log" []
              eq_refl eq_refl ltac:(discriminate) eq_refl eq_refl eq_refl eq_refl)
    as (st1 & st2 & Hmark & Hlog & _ & _ & Hround & _).
  exists st1, st2. split; [exact Hmark |]. split; [exact Hlog |].
  apply Hround.
  - reflexivity.
  - repeat constructor.
  - apply (bool_decide_unpack _). vm_compute. exact I.
  - discriminate.
Defined.

(** X16 at work: a mark at offset 10 and a log file that was emptied. *)
Lemma fragment_calls_at_the_edges_witness :
  getFragment (set_fragmentStart (Some 10%nat) sampleState)
  = (Ok (Some []), set_fragmentStart (Some 10%nat) sampleState).
Proof.
  refine (proj2 (fragment_calls_at_the_edges (set_fragmentStart (Some 10%nat) sampleState)
                   "nvda.log" _ eq_refl) [] 10%nat eq_refl eq_refl _).
  - split; [reflexivity |]. split; [| reflexivity].
    exists "nvda.log". split; [reflexivity | discriminate].
  - simpl. lia.
Defined.

(** X17 at work: the unknown name VERBOSE. *)
Lemma setLogLevelFromConfig_settles_witness :
  ∃ st' c',
    setLogLevelFromConfig sampleEnv misconfiguredState = (Ok tt, st')
    ∧ conf st' = Some c'
    ∧ general_loggingLevel c' ∈ ["IO"; "DEBUG"; "DEBUGWARNING"; "INFO"; "OFF"]
    ∧ getLevelName_ofName (general_loggingLevel c') = LevelNo (rootLevel st')
    ∧ rootLevel st' ∈ configurableLevels
    ∧ setLogLevelFromConfig sampleEnv st' = (Ok tt, st').
Proof.
  apply (setLogLevelFromConfig_settles sampleEnv misconfiguredState
           {| general_loggingLevel := "VERBOSE"; featureFlag_playErrorSound := 0;
              debugLog_externalPythonDependencies := false |});
    [discriminate | reflexivity | reflexivity].
Defined.

(** X19 at work: 0x800706BA, the server-unavailable code in the Win32
    facility. *)
Lemma com_server_unavailable_in_any_facility_witness :
  exceptionLevel RPC_windows (Some serverUnavailable) = DEBUGWARNING.
Proof.
  apply (com_server_unavailable_in_any_facility RPC_windows serverUnavailable (-32761));
    [reflexivity | simpl; lia | reflexivity].
Defined.

(** X20 at work. *)
Lemma stripBasePath_shortens_source_lines_witness :
  stripBasePathFromTracebackText sampleEnv
    (TB_BASE_PATH_PREFIX +:+ BASE_PATH sampleEnv +:+ "speech.py")
  = TB_BASE_PATH_PREFIX +:+ stripBasePathFromTracebackText sampleEnv "speech.py".
Proof.
  exact (proj1 (stripBasePath_shortens_source_lines sampleEnv eq_refl) "speech.py").
Defined.

(** X21 at work: a line printed to stderr. *)
Lemma stream_write_logs_stripped_text_witness :
  ∃ st',
    StreamRedirector_write sampleEnv stderrRedirector ("ValueError: x  " +:+ newline)
      sampleState = (Ok tt, st')
    ∧ (rec_msg <$> recordsOf (trace st')) = ["ValueError: x"]
    ∧ (levelno <$> recordsOf (trace st')) = [ERROR].
Proof.
  destruct (stream_write_logs_stripped_text sampleEnv stderrRedirector
              ("ValueError: x  " +:+ newline) sampleState ltac:(discriminate))
    as (st' & Hrun & Hrec & _).
  exists st'. split; [exact Hrun |]. rewrite Hrec. split; reflexivity.
Defined.

(** X25 at work: 09:17:40.724, the time of the record in the comment of
    [initialize]. *)
Lemma formatTime_has_fixed_columns_witness :
  Formatter_formatTime sampleTime 724 = "09:17:40.724"
  ∧ String.length (Formatter_formatTime sampleTime 724) = 12%nat.
Proof.
  split; [reflexivity |].
  apply (formatTime_has_fixed_columns sampleTime 724); reflexivity.
Defined.

(** X26 at work: start-up in secure mode. *)
Lemma initialize_disabled_touches_no_file_witness :
  ∃ p',
    initialize sampleEnv sampleFs false (freshProcess secureState) = (Returned, p')
    ∧ rootLevel (proc_state p') = OFF
    ∧ logHandler (proc_state p') = Some NullHandler
    ∧ files (proc_state p') = files secureState.
Proof.
  destruct (initialize_disabled_touches_no_file sampleEnv sampleFs
              (freshProcess secureState) eq_refl) as (p' & Hrun & Hst & _).
  exists p'. split; [exact Hrun |]. rewrite Hst. repeat split.
Defined.


(** X28 at work: the log file is locked; the failure goes to the last
    resort of the logging framework. *)
Lemma initialize_without_log_file_witness :
  ∃ p',
    initialize sampleEnv lockedFs false (freshProcess startState) = (Returned, p')
    ∧ logFileName (appArgs (proc_state p')) = None
    ∧ logHandler (proc_state p') = Some NullHandler
    ∧ lastResort p' = ["Faile to open log file, redirecting to standard output"].
Proof.
  destruct (initialize_without_log_file sampleEnv lockedFs (freshProcess startState))
    as (p' & Hrun & Hname & Hh & _ & _ & Hlast & _);
    try reflexivity; try discriminate.
  exists p'. split; [exact Hrun |]. split; [exact Hname |]. split; [exact Hh |].
  rewrite Hlast by reflexivity. reflexivity.
Defined.
